(** * Front-desk clinic management: booking, queue and identifier rules

    A shallow embedding of the booking and queue logic of the Django
    application (frontdesk/models.py, frontdesk/forms.py,
    frontdesk/views.py) together with the properties its specification
    states about it.

    Conventions of the embedding:
    - a database table is the list of its rows, every row carrying its
      primary key;
    - a [datetime.time] is the number of microseconds since midnight, a
      [datetime.date] a record of year, month and day, a naive
      [datetime] the number of microseconds since the start of the
      proleptic Gregorian ordinal 0, and an aware [datetime] the same
      count taken in UTC;
    - the project settings are not part of the sources; [USE_TZ = True]
      (what Django's project template writes) is taken for granted, so
      that [timezone.now()] is aware;
    - what the code reads from its surroundings (the clock, the current
      date, the random generator, the request) is an explicit argument. *)

From Stdlib Require Import ZArith List String Ascii Bool Lia.
From Stdlib Require Import DecimalString DecimalPos Sorting.Sorted Sorting.Permutation.
Import ListNotations.

Local Open Scope string_scope.
Local Open Scope Z_scope.

(* ===================================================================== *)
(** ** Python strings and integers *)
(* ===================================================================== *)

Module PyStr.

(** [str(n)] for an integer. *)
Definition str_int (n : Z) : string := NilZero.string_of_int (Z.to_int n).

Fixpoint zeros (n : nat) : string :=
  match n with
  | O => ""
  | S k => String "0" (zeros k)
  end.

(** The format specification [0<width>d]: sign first, then zeros up to
    the minimum width, then the decimal digits. *)
Definition format_0d (width : nat) (n : Z) : string :=
  let sign := if n <? 0 then "-" else "" in
  let digits := str_int (Z.abs n) in
  sign ++ zeros (width - String.length sign - String.length digits) ++ digits.

Definition is_digit (c : ascii) : bool :=
  let k := nat_of_ascii c in (48 <=? k)%nat && (k <=? 57)%nat.

Definition digit_value (c : ascii) : Z := Z.of_nat (nat_of_ascii c) - 48.

(** Whitespace in the ASCII range, as [str.strip] and [int] see it. *)
Definition is_space (c : ascii) : bool :=
  let k := nat_of_ascii c in
  ((9 <=? k)%nat && (k <=? 13)%nat) || ((28 <=? k)%nat && (k <=? 32)%nat).

Fixpoint lstrip (s : string) : string :=
  match s with
  | String c r => if is_space c then lstrip r else s
  | "" => ""
  end.

Fixpoint rstrip (s : string) : string :=
  match s with
  | String c r =>
      match rstrip r with
      | "" => if is_space c then "" else String c ""
      | r' => String c r'
      end
  | "" => ""
  end.

Definition strip (s : string) : string := rstrip (lstrip s).

(** The digits of an integer literal: decimal digits, single underscores
    allowed between two digits. *)
Fixpoint parse_digits (s : string) (acc : Z) (after_digit : bool) : option Z :=
  match s with
  | "" => if after_digit then Some acc else None
  | String c r =>
      if is_digit c then parse_digits r (10 * acc + digit_value c) true
      else if Ascii.eqb c "_" && after_digit then parse_digits r acc false
      else None
  end.

(** [int(s)] in base 10; [None] stands for [ValueError]. Digits outside
    ASCII are not modelled. *)
Definition int (s : string) : option Z :=
  match strip s with
  | String "-" r => option_map Z.opp (parse_digits r 0 false)
  | String "+" r => parse_digits r 0 false
  | t => parse_digits t 0 false
  end.

(** [s.replace(old, new)] for a non-empty [old]: occurrences are found
    from the left and do not overlap. [skip] counts the characters of
    the occurrence being consumed. *)
Fixpoint replace_from (old new s : string) (skip : nat) : string :=
  match s with
  | "" => ""
  | String c r =>
      match skip with
      | S k => replace_from old new r k
      | O =>
          if String.prefix old s
          then new ++ replace_from old new r (String.length old - 1)
          else String c (replace_from old new r 0)
      end
  end.

Definition replace (old new s : string) : string := replace_from old new s 0.

Definition ascii_uppercase : string := "ABCDEFGHIJKLMNOPQRSTUVWXYZ".
Definition digits : string := "0123456789".

(** [random.choices(population, k=k)] joined into a string: draw [j]
    of the generator picks the character at index [rng j] modulo the
    size of the population. *)
Definition random_choices (rng : nat -> nat) (population : string) (k : nat) : string :=
  string_of_list_ascii
    (map (fun j =>
            nth (rng j mod String.length population)
                (list_ascii_of_string population) "0"%char)
         (seq 0 k)).

End PyStr.

(* ===================================================================== *)
(** ** Dates, times and the clock *)
(* ===================================================================== *)

Module PyTime.

Record date := mkdate { year : Z; month : Z; day : Z }.

Definition date_eqb (a b : date) : bool :=
  (year a =? year b) && (month a =? month b) && (day a =? day b).

Definition is_leap (y : Z) : bool :=
  (y mod 4 =? 0) && (negb (y mod 100 =? 0) || (y mod 400 =? 0)).

Definition days_before_year (y : Z) : Z :=
  let p := y - 1 in p * 365 + p / 4 - p / 100 + p / 400.

Definition days_before_month (y m : Z) : Z :=
  nth (Z.to_nat m)
      [0; 0; 31; 59; 90; 120; 151; 181; 212; 243; 273; 304; 334] 0
  + (if (2 <? m) && is_leap y then 1 else 0).

(** [date.toordinal()]. *)
Definition toordinal (d : date) : Z :=
  days_before_year (year d) + days_before_month (year d) (month d) + day d.

Definition usec_per_second : Z := 1000000.
Definition usec_per_minute : Z := 60 * usec_per_second.
Definition usec_per_day : Z := 86400 * usec_per_second.

(** A [datetime.time]: microseconds since midnight. *)
Definition time := Z.

Definition mktime (h m s : Z) : time :=
  ((h * 60 + m) * 60 + s) * usec_per_second.

Definition valid_time (t : time) : Prop := 0 <= t < usec_per_day.

(** [datetime.combine(d, t)], naive. *)
Definition combine (d : date) (t : time) : Z := toordinal d * usec_per_day + t.

(** [dt.time()]. *)
Definition time_of (dt : Z) : time := dt mod usec_per_day.

(** [timedelta(minutes=m)]. *)
Definition timedelta_minutes (m : Z) : Z := m * usec_per_minute.

(** [strftime('%Y%m%d')]. *)
Definition strftime_Ymd (d : date) : string :=
  PyStr.format_0d 4 (year d) ++ PyStr.format_0d 2 (month d)
  ++ PyStr.format_0d 2 (day d).

(** [str(d)]: the ISO form. *)
Definition str_date (d : date) : string :=
  PyStr.format_0d 4 (year d) ++ "-" ++ PyStr.format_0d 2 (month d) ++ "-"
  ++ PyStr.format_0d 2 (day d).

(** [str(t)]: [HH:MM:SS], with the microseconds when there are some. *)
Definition str_time (t : time) : string :=
  let secs := t / usec_per_second in
  let us := t mod usec_per_second in
  PyStr.format_0d 2 (secs / 3600) ++ ":" ++ PyStr.format_0d 2 (secs / 60 mod 60)
  ++ ":" ++ PyStr.format_0d 2 (secs mod 60)
  ++ (if us =? 0 then "" else "." ++ PyStr.format_0d 6 us).

(** The clock a request runs against. [utc_now] is the instant of the
    call; [current_tz_offset] is the UTC offset of Django's current
    time zone (the one [timezone.make_aware] attaches) and
    [system_tz_offset] the offset of the process's local zone (the one
    [datetime.now()] reads), both in microseconds. *)
Record Clock := mkClock {
  utc_now : Z;
  current_tz_offset : Z;
  system_tz_offset : Z
}.

(** [timezone.now()]: aware. *)
Definition timezone_now (clk : Clock) : Z := utc_now clk.

(** [timezone.make_aware(naive)]: the instant the wall-clock reading
    [naive] denotes in the current time zone. *)
Definition make_aware (clk : Clock) (naive : Z) : Z := naive - current_tz_offset clk.

(** [datetime.now()]: naive, local wall-clock reading. *)
Definition datetime_now (clk : Clock) : Z := utc_now clk + system_tz_offset clk.

(** The order of dates: that of the tuples [(year, month, day)]. *)
Definition date_ltb (a b : date) : bool :=
  (year a <? year b)
  || ((year a =? year b)
      && ((month a <? month b) || ((month a =? month b) && (day a <? day b)))).

End PyTime.

Import PyTime.

(* ===================================================================== *)
(** ** accounts.models: the rows the front desk refers to *)
(* ===================================================================== *)

Module Doctor.

Record t := mk { pk : Z; full_name : string }.

End Doctor.

(** The stored rows of [accounts.models.Doctor], with the columns the
    front desk reads and writes; [Doctor.t] above is what a form reads
    of an instance. *)
Module DoctorTable.

Record t := mk {
  pk : Z;
  doctor_id : string;
  full_name : string;
  is_available : bool;
  accepts_walkins : bool;
  updated_at : Z
}.

Definition table := list t.

(** The doctor a foreign key refers to. *)
Definition get (db : table) (k : Z) : option t :=
  find (fun r => pk r =? k) db.

Definition set_is_available (v : bool) (d : t) : t :=
  mk (pk d) (doctor_id d) (full_name d) v (accepts_walkins d) (updated_at d).

(** [doctor.save()] on a stored row. *)
Definition save (clk : Clock) (db : table) (d : t) : table :=
  let d' := mk (pk d) (doctor_id d) (full_name d) (is_available d)
               (accepts_walkins d) (timezone_now clk) in
  if existsb (fun r => pk r =? pk d') db
  then map (fun r => if pk r =? pk d' then d' else r) db
  else (db ++ [d'])%list.

End DoctorTable.

(* ===================================================================== *)
(** ** frontdesk.models.Appointment *)
(* ===================================================================== *)

Module Appointment.

(** STATUS_CHOICES *)
Inductive Status :=
| scheduled | confirmed | checked_in | in_progress
| completed | cancelled | no_show | rescheduled.

(** APPOINTMENT_TYPE_CHOICES *)
Inductive TypeChoice := new | follow_up | routine | emergency.

Definition status_eqb (a b : Status) : bool :=
  match a, b with
  | scheduled, scheduled | confirmed, confirmed | checked_in, checked_in
  | in_progress, in_progress | completed, completed | cancelled, cancelled
  | no_show, no_show | rescheduled, rescheduled => true
  | _, _ => false
  end.

(** [status in [...]] and the lookup [status__in=[...]]. *)
Definition status_in (s : Status) (l : list Status) : bool :=
  existsb (status_eqb s) l.

Record t := mk {
  pk : Z;
  appointment_id : string;
  patient : Z;
  doctor : Z;
  appointment_date : date;
  appointment_time : time;
  duration : Z;
  status : Status;
  appointment_type : TypeChoice;
  reason_for_visit : string;
  symptoms : string;
  special_instructions : string;
  scheduled_by : option Z;
  scheduled_at : Z;
  is_confirmed : bool;
  confirmed_at : option Z;
  checked_in_at : option Z;
  consultation_start_time : option Z;
  consultation_end_time : option Z;
  cancellation_reason : string;
  cancelled_at : option Z;
  cancelled_by : option Z;
  rescheduled_from : option Z;
  notes : string;
  reminder_sent : bool;
  reminder_sent_at : option Z;
  created_at : Z;
  updated_at : Z
}.

(** Assignment to one attribute of the instance. *)
Definition set_appointment_id (v : string) (a : t) : t :=
  mk (pk a) v (patient a) (doctor a) (appointment_date a)
     (appointment_time a) (duration a) (status a) (appointment_type a)
     (reason_for_visit a) (symptoms a) (special_instructions a)
     (scheduled_by a) (scheduled_at a) (is_confirmed a) (confirmed_at a)
     (checked_in_at a) (consultation_start_time a) (consultation_end_time a)
     (cancellation_reason a) (cancelled_at a) (cancelled_by a)
     (rescheduled_from a) (notes a) (reminder_sent a) (reminder_sent_at a)
     (created_at a) (updated_at a).

Definition set_status (v : Status) (a : t) : t :=
  mk (pk a) (appointment_id a) (patient a) (doctor a) (appointment_date a)
     (appointment_time a) (duration a) v (appointment_type a)
     (reason_for_visit a) (symptoms a) (special_instructions a)
     (scheduled_by a) (scheduled_at a) (is_confirmed a) (confirmed_at a)
     (checked_in_at a) (consultation_start_time a) (consultation_end_time a)
     (cancellation_reason a) (cancelled_at a) (cancelled_by a)
     (rescheduled_from a) (notes a) (reminder_sent a) (reminder_sent_at a)
     (created_at a) (updated_at a).

Definition set_is_confirmed (v : bool) (a : t) : t :=
  mk (pk a) (appointment_id a) (patient a) (doctor a) (appointment_date a)
     (appointment_time a) (duration a) (status a) (appointment_type a)
     (reason_for_visit a) (symptoms a) (special_instructions a)
     (scheduled_by a) (scheduled_at a) v (confirmed_at a) (checked_in_at a)
     (consultation_start_time a) (consultation_end_time a)
     (cancellation_reason a) (cancelled_at a) (cancelled_by a)
     (rescheduled_from a) (notes a) (reminder_sent a) (reminder_sent_at a)
     (created_at a) (updated_at a).

Definition set_confirmed_at (v : option Z) (a : t) : t :=
  mk (pk a) (appointment_id a) (patient a) (doctor a) (appointment_date a)
     (appointment_time a) (duration a) (status a) (appointment_type a)
     (reason_for_visit a) (symptoms a) (special_instructions a)
     (scheduled_by a) (scheduled_at a) (is_confirmed a) v (checked_in_at a)
     (consultation_start_time a) (consultation_end_time a)
     (cancellation_reason a) (cancelled_at a) (cancelled_by a)
     (rescheduled_from a) (notes a) (reminder_sent a) (reminder_sent_at a)
     (created_at a) (updated_at a).

Definition set_checked_in_at (v : option Z) (a : t) : t :=
  mk (pk a) (appointment_id a) (patient a) (doctor a) (appointment_date a)
     (appointment_time a) (duration a) (status a) (appointment_type a)
     (reason_for_visit a) (symptoms a) (special_instructions a)
     (scheduled_by a) (scheduled_at a) (is_confirmed a) (confirmed_at a) v
     (consultation_start_time a) (consultation_end_time a)
     (cancellation_reason a) (cancelled_at a) (cancelled_by a)
     (rescheduled_from a) (notes a) (reminder_sent a) (reminder_sent_at a)
     (created_at a) (updated_at a).

Definition set_consultation_start_time (v : option Z) (a : t) : t :=
  mk (pk a) (appointment_id a) (patient a) (doctor a) (appointment_date a)
     (appointment_time a) (duration a) (status a) (appointment_type a)
     (reason_for_visit a) (symptoms a) (special_instructions a)
     (scheduled_by a) (scheduled_at a) (is_confirmed a) (confirmed_at a)
     (checked_in_at a) v (consultation_end_time a) (cancellation_reason a)
     (cancelled_at a) (cancelled_by a) (rescheduled_from a) (notes a)
     (reminder_sent a) (reminder_sent_at a) (created_at a) (updated_at a).

Definition set_consultation_end_time (v : option Z) (a : t) : t :=
  mk (pk a) (appointment_id a) (patient a) (doctor a) (appointment_date a)
     (appointment_time a) (duration a) (status a) (appointment_type a)
     (reason_for_visit a) (symptoms a) (special_instructions a)
     (scheduled_by a) (scheduled_at a) (is_confirmed a) (confirmed_at a)
     (checked_in_at a) (consultation_start_time a) v (cancellation_reason a)
     (cancelled_at a) (cancelled_by a) (rescheduled_from a) (notes a)
     (reminder_sent a) (reminder_sent_at a) (created_at a) (updated_at a).

Definition set_cancellation_reason (v : string) (a : t) : t :=
  mk (pk a) (appointment_id a) (patient a) (doctor a) (appointment_date a)
     (appointment_time a) (duration a) (status a) (appointment_type a)
     (reason_for_visit a) (symptoms a) (special_instructions a)
     (scheduled_by a) (scheduled_at a) (is_confirmed a) (confirmed_at a)
     (checked_in_at a) (consultation_start_time a) (consultation_end_time a)
     v (cancelled_at a) (cancelled_by a) (rescheduled_from a) (notes a)
     (reminder_sent a) (reminder_sent_at a) (created_at a) (updated_at a).

Definition set_cancelled_at (v : option Z) (a : t) : t :=
  mk (pk a) (appointment_id a) (patient a) (doctor a) (appointment_date a)
     (appointment_time a) (duration a) (status a) (appointment_type a)
     (reason_for_visit a) (symptoms a) (special_instructions a)
     (scheduled_by a) (scheduled_at a) (is_confirmed a) (confirmed_at a)
     (checked_in_at a) (consultation_start_time a) (consultation_end_time a)
     (cancellation_reason a) v (cancelled_by a) (rescheduled_from a)
     (notes a) (reminder_sent a) (reminder_sent_at a) (created_at a)
     (updated_at a).

Definition set_cancelled_by (v : option Z) (a : t) : t :=
  mk (pk a) (appointment_id a) (patient a) (doctor a) (appointment_date a)
     (appointment_time a) (duration a) (status a) (appointment_type a)
     (reason_for_visit a) (symptoms a) (special_instructions a)
     (scheduled_by a) (scheduled_at a) (is_confirmed a) (confirmed_at a)
     (checked_in_at a) (consultation_start_time a) (consultation_end_time a)
     (cancellation_reason a) (cancelled_at a) v (rescheduled_from a)
     (notes a) (reminder_sent a) (reminder_sent_at a) (created_at a)
     (updated_at a).

Definition set_notes (v : string) (a : t) : t :=
  mk (pk a) (appointment_id a) (patient a) (doctor a) (appointment_date a)
     (appointment_time a) (duration a) (status a) (appointment_type a)
     (reason_for_visit a) (symptoms a) (special_instructions a)
     (scheduled_by a) (scheduled_at a) (is_confirmed a) (confirmed_at a)
     (checked_in_at a) (consultation_start_time a) (consultation_end_time a)
     (cancellation_reason a) (cancelled_at a) (cancelled_by a)
     (rescheduled_from a) v (reminder_sent a) (reminder_sent_at a)
     (created_at a) (updated_at a).

Definition set_updated_at (v : Z) (a : t) : t :=
  mk (pk a) (appointment_id a) (patient a) (doctor a) (appointment_date a)
     (appointment_time a) (duration a) (status a) (appointment_type a)
     (reason_for_visit a) (symptoms a) (special_instructions a)
     (scheduled_by a) (scheduled_at a) (is_confirmed a) (confirmed_at a)
     (checked_in_at a) (consultation_start_time a) (consultation_end_time a)
     (cancellation_reason a) (cancelled_at a) (cancelled_by a)
     (rescheduled_from a) (notes a) (reminder_sent a) (reminder_sent_at a)
     (created_at a) v.

Definition table := list t.

(** [get_object_or_404(Appointment, pk=k)]; [None] is the 404. *)
Definition get (db : table) (k : Z) : option t :=
  find (fun r => pk r =? k) db.

(** The statuses under which an appointment occupies its slot. *)
Definition active_statuses : list Status := [scheduled; confirmed; checked_in].

(** [Appointment.objects.filter(doctor=d, appointment_date=dt,
    appointment_time=tm, status__in=['scheduled', 'confirmed',
    'checked_in'])] *)
Definition filter_active_slot (db : table) (d : Z) (dt : date) (tm : time) : table :=
  filter (fun r => (doctor r =? d) && date_eqb (appointment_date r) dt
                   && (appointment_time r =? tm)
                   && status_in (status r) active_statuses) db.

(** [.exclude(pk=k)]. A lookup against [None] is an [IS NULL] test, which
    no stored row passes: [exclude(pk=None)] keeps every row. *)
Definition exclude_pk (k : option Z) (q : table) : table :=
  match k with
  | Some k' => filter (fun r => negb (pk r =? k')) q
  | None => q
  end.

(** [.exists()] *)
Definition exists_ (q : table) : bool :=
  match q with [] => false | _ :: _ => true end.

(** [.count()] *)
Definition count (q : table) : Z := Z.of_nat (List.length q).

(** The declared constraints: [appointment_id] is unique, and so is
    [(doctor, appointment_date, appointment_time)] (unique_together). *)
Definition same_slot (r a : t) : bool :=
  (doctor r =? doctor a) && date_eqb (appointment_date r) (appointment_date a)
  && (appointment_time r =? appointment_time a).

Definition violates_unique (db : table) (a : t) : bool :=
  existsb (fun r => negb (pk r =? pk a)
                    && (String.eqb (appointment_id r) (appointment_id a)
                        || same_slot r a)) db.

(** The key the database gives to the next inserted row. *)
Definition next_pk (db : table) : Z :=
  1 + fold_right (fun r m => Z.max (pk r) m) 0 db.

(** [self.save()]: [updated_at] is refreshed (auto_now); the row with the
    instance's key is rewritten, or the instance is inserted when no such
    row is stored. [None] is the [IntegrityError] of a violated
    constraint. *)
Definition save (clk : Clock) (db : table) (a : t) : option table :=
  let a' := set_updated_at (timezone_now clk) a in
  if violates_unique db a' then None
  else if existsb (fun r => pk r =? pk a') db
       then Some (map (fun r => if pk r =? pk a' then a' else r) db)
       else Some (db ++ [a'])%list.

(** [Appointment.objects.create(...)] with the keyword arguments the
    reschedule view passes; every other field takes its declared default
    and the [auto_now_add] fields the current instant. Returns the new
    table and the created instance. *)
Definition create (clk : Clock) (db : table)
    (patient_ doctor_ : Z) (date_ : date) (time_ : time) (duration_ : Z)
    (type_ : TypeChoice) (reason_ symptoms_ special_ : string)
    (scheduled_by_ : option Z) (rescheduled_from_ : option Z)
  : option (table * t) :=
  let now := timezone_now clk in
  let a := mk (next_pk db) "" patient_ doctor_ date_ time_ duration_
              scheduled type_ reason_ symptoms_ special_ scheduled_by_ now
              false None None None None "" None None rescheduled_from_ ""
              false None now now in
  if violates_unique db a then None else Some ((db ++ [a])%list, a).

(** [is_past]: the slot, made aware in the current time zone, lies
    strictly before [timezone.now()]. *)
Definition is_past (clk : Clock) (a : t) : bool :=
  make_aware clk (combine (appointment_date a) (appointment_time a))
  <? timezone_now clk.

Definition can_cancel (clk : Clock) (a : t) : bool :=
  status_in (status a) [scheduled; confirmed] && negb (is_past clk a).

Definition can_reschedule (clk : Clock) (a : t) : bool :=
  status_in (status a) [scheduled; confirmed] && negb (is_past clk a).

Definition mark_confirmed (clk : Clock) (db : table) (a : t) : option table :=
  save clk db
    (set_confirmed_at (Some (timezone_now clk))
       (set_is_confirmed true (set_status confirmed a))).

Definition mark_checked_in (clk : Clock) (db : table) (a : t) : option table :=
  save clk db (set_checked_in_at (Some (timezone_now clk)) (set_status checked_in a)).

Definition start_consultation (clk : Clock) (db : table) (a : t) : option table :=
  save clk db
    (set_consultation_start_time (Some (timezone_now clk)) (set_status in_progress a)).

Definition complete_appointment (clk : Clock) (db : table) (a : t) : option table :=
  save clk db
    (set_consultation_end_time (Some (timezone_now clk)) (set_status completed a)).

Definition cancel_appointment (clk : Clock) (db : table) (a : t)
    (reason : string) (cancelled_by_ : option Z) : option table :=
  save clk db
    (set_cancelled_by cancelled_by_
       (set_cancelled_at (Some (timezone_now clk))
          (set_cancellation_reason reason (set_status cancelled a)))).

(** The loop of [generate_appointment_id]: [attempts] iterations are
    left. Every iteration counts the stored identifiers that start with
    the date prefix, formats the candidate and looks it up. The
    candidates computed so far are returned next to the result. *)
Fixpoint generate_loop (attempts : nat) (db : table) (date_str : string)
  : list string * option string :=
  match attempts with
  | O => ([], None)
  | S n =>
      let today_count :=
        count (filter (fun r => String.prefix ("APT" ++ date_str) (appointment_id r)) db) in
      let appointment_id_ := "APT" ++ date_str ++ PyStr.format_0d 4 (today_count + 1) in
      if negb (exists_ (filter (fun r => String.eqb (appointment_id r) appointment_id_) db))
      then ([appointment_id_], Some appointment_id_)
      else let (tried, res) := generate_loop n db date_str in
           (appointment_id_ :: tried, res)
  end.

Definition max_attempts : nat := 100.

(** [Appointment.generate_appointment_id()], with the current date and
    the random generator it reads. *)
Definition generate_appointment_id (today : date) (rng : nat -> nat) (db : table) : string :=
  let date_str := strftime_Ymd today in
  match snd (generate_loop max_attempts db date_str) with
  | Some appointment_id_ => appointment_id_
  | None =>
      let random_suffix :=
        PyStr.random_choices rng (PyStr.ascii_uppercase ++ PyStr.digits) 4 in
      "APT" ++ date_str ++ random_suffix
  end.

(** [get_end_time]: the start time is put on the current date, the
    duration is added, and the time of day of the sum is returned. *)
Definition get_end_time (today : date) (a : t) : time :=
  time_of (combine today (appointment_time a) + timedelta_minutes (duration a)).

End Appointment.

(* ===================================================================== *)
(** ** frontdesk.models.DoctorAvailability *)
(* ===================================================================== *)

Module DoctorAvailability.

Record t := mk {
  pk : Z;
  doctor : Z;
  date_ : date;
  start_time : time;
  end_time : time;
  is_available : bool;
  max_appointments : Z;
  unavailability_reason : string
}.

(** An entry of the list [get_available_time_slots] builds: the dict with
    the keys ['time'] and ['available']. *)
Record Slot := mkSlot { slot_time : time; available : bool }.

(** The lookup inside the loop. *)
Definition is_booked (appts : Appointment.table) (self : t) (tm : time) : bool :=
  Appointment.exists_ (Appointment.filter_active_slot appts (doctor self) (date_ self) tm).

(** The [while current_time < end_time] loop. It has no bound of its own
    (a duration that is not positive never reaches the end), so the
    number of iterations allowed is an argument; [None] means that they
    ran out. *)
Fixpoint slots_loop (fuel : nat) (appts : Appointment.table) (self : t)
    (current_time end_time_ : Z) (slot_duration : Z) (slots : list Slot)
  : option (list Slot) :=
  match fuel with
  | O => None
  | S fuel' =>
      if current_time <? end_time_ then
        let tm := time_of current_time in
        let booked := is_booked appts self tm in
        slots_loop fuel' appts self
          (current_time + timedelta_minutes slot_duration) end_time_ slot_duration
          (slots ++ [mkSlot tm (negb booked)])%list
      else Some slots
  end.

Definition get_available_time_slots (fuel : nat) (appts : Appointment.table)
    (today : date) (self : t) (slot_duration : Z) : option (list Slot) :=
  slots_loop fuel appts self
    (combine today (start_time self)) (combine today (end_time self))
    slot_duration [].

(** [get_booked_slots]: the active appointments of the doctor and date
    that start inside the window. *)
Definition get_booked_slots (appts : Appointment.table) (self : t) : Z :=
  Appointment.count
    (filter (fun r => (Appointment.doctor r =? doctor self)
                      && date_eqb (Appointment.appointment_date r) (date_ self)
                      && (start_time self <=? Appointment.appointment_time r)
                      && (Appointment.appointment_time r <? end_time self)
                      && Appointment.status_in (Appointment.status r)
                           Appointment.active_statuses) appts).

Definition has_available_slots (appts : Appointment.table) (self : t) : bool :=
  if negb (is_available self) then false
  else get_booked_slots appts self <? max_appointments self.

End DoctorAvailability.

(* ===================================================================== *)
(** ** frontdesk.models.Queue *)
(* ===================================================================== *)

Module Queue.

(** STATUS_CHOICES *)
Inductive Status := waiting | with_doctor | completed | cancelled | no_show.

(** PRIORITY_CHOICES *)
Inductive Priority := normal | urgent | emergency.

(** The value of the [priority] column: the first component of the
    choice. *)
Definition priority_value (p : Priority) : string :=
  match p with
  | normal => "normal"
  | urgent => "urgent"
  | emergency => "emergency"
  end.

Definition status_eqb (a b : Status) : bool :=
  match a, b with
  | waiting, waiting | with_doctor, with_doctor | completed, completed
  | cancelled, cancelled | no_show, no_show => true
  | _, _ => false
  end.

Record t := mk {
  pk : Z;
  queue_number : string;
  patient : Z;
  doctor : option Z;
  status : Status;
  priority : Priority;
  arrival_time : Z;
  called_time : option Z;
  consultation_start_time : option Z;
  consultation_end_time : option Z;
  estimated_wait_time : Z;
  reason_for_visit : string;
  notes : string;
  added_by : option Z;
  queue_date : date;
  created_at : Z;
  updated_at : Z
}.

Definition table := list t.

(** [Queue.objects.filter(queue_date=d)] *)
Definition filter_date (d : date) (db : table) : table :=
  filter (fun q => date_eqb (queue_date q) d) db.

(** [.filter(status__in=l)] *)
Definition filter_status_in (l : list Status) (db : table) : table :=
  filter (fun q => existsb (status_eqb (status q)) l) db.

(** The comparison behind [ORDER BY priority, arrival_time]: the
    [priority] column is a character column and is compared as text. *)
Definition order_leb (a b : t) : bool :=
  match String.compare (priority_value (priority a)) (priority_value (priority b)) with
  | Lt => true
  | Gt => false
  | Eq => arrival_time a <=? arrival_time b
  end.

Fixpoint insert_ordered (x : t) (l : table) : table :=
  match l with
  | [] => [x]
  | y :: r => if order_leb x y then x :: l else y :: insert_ordered x r
  end.

(** [.order_by('priority', 'arrival_time')]. Rows that agree on both
    columns come in the order of the table. *)
Definition order_by_priority_arrival (q : table) : table :=
  fold_right insert_ordered [] q.

(** The daily sequence number: [today_queues + 1]. *)
Definition next_sequence (today : date) (db : table) : Z :=
  Z.of_nat (List.length (filter_date today db)) + 1.

(** [Queue.generate_queue_number()] with the date it reads. *)
Definition generate_queue_number (today : date) (db : table) : string :=
  "Q" ++ strftime_Ymd today ++ PyStr.format_0d 3 (next_sequence today db).

Definition next_pk (db : table) : Z :=
  1 + fold_right (fun r m => Z.max (pk r) m) 0 db.

(** [queue_number] is declared [unique=True]: storing a new row whose
    number some stored row already carries raises [IntegrityError].
    The declared [max_length=10] is checked by no code on this path and
    is not modelled (the generated numbers have twelve characters or
    more). *)
Definition violates_unique (db : table) (q : t) : bool :=
  existsb (fun r => String.eqb (queue_number r) (queue_number q)) db.

(** Assignment to one attribute of the instance. *)
Definition set_status (v : Status) (a : t) : t :=
  mk (pk a) (queue_number a) (patient a) (doctor a) v (priority a)
     (arrival_time a) (called_time a) (consultation_start_time a)
     (consultation_end_time a) (estimated_wait_time a) (reason_for_visit a)
     (notes a) (added_by a) (queue_date a) (created_at a) (updated_at a).

Definition set_consultation_start_time (v : option Z) (a : t) : t :=
  mk (pk a) (queue_number a) (patient a) (doctor a) (status a) (priority a)
     (arrival_time a) (called_time a) v (consultation_end_time a)
     (estimated_wait_time a) (reason_for_visit a) (notes a) (added_by a)
     (queue_date a) (created_at a) (updated_at a).

Definition set_consultation_end_time (v : option Z) (a : t) : t :=
  mk (pk a) (queue_number a) (patient a) (doctor a) (status a) (priority a)
     (arrival_time a) (called_time a) (consultation_start_time a) v
     (estimated_wait_time a) (reason_for_visit a) (notes a) (added_by a)
     (queue_date a) (created_at a) (updated_at a).

Definition set_updated_at (v : Z) (a : t) : t :=
  mk (pk a) (queue_number a) (patient a) (doctor a) (status a) (priority a)
     (arrival_time a) (called_time a) (consultation_start_time a)
     (consultation_end_time a) (estimated_wait_time a) (reason_for_visit a)
     (notes a) (added_by a) (queue_date a) (created_at a) v.

(** [get_object_or_404(Queue, pk=k)]; [None] is the 404. *)
Definition get (db : table) (k : Z) : option t :=
  find (fun q => pk q =? k) db.

(** [self.save()] on a stored entry: [updated_at] is refreshed and the
    row with the key of the instance is rewritten (inserted when no such
    row is stored). The queue number, the one constrained column, is
    never assigned to after the entry is created. *)
Definition save (clk : Clock) (db : table) (q : t) : table :=
  let q' := set_updated_at (timezone_now clk) q in
  if existsb (fun r => pk r =? pk q') db
  then map (fun r => if pk r =? pk q' then q' else r) db
  else (db ++ [q'])%list.

Definition mark_with_doctor (clk : Clock) (db : table) (q : t) : table :=
  save clk db
    (set_consultation_start_time (Some (timezone_now clk)) (set_status with_doctor q)).

Definition mark_completed (clk : Clock) (db : table) (q : t) : table :=
  save clk db
    (set_consultation_end_time (Some (timezone_now clk)) (set_status completed q)).

(** The status a posted value stands for: the lookup in
    [dict(Queue.STATUS_CHOICES)]. [None] when the value is no key. *)
Definition status_of_value (s : string) : option Status :=
  if String.eqb s "waiting" then Some waiting
  else if String.eqb s "with_doctor" then Some with_doctor
  else if String.eqb s "completed" then Some completed
  else if String.eqb s "cancelled" then Some cancelled
  else if String.eqb s "no_show" then Some no_show
  else None.

(** [get_status_display()] *)
Definition status_display (s : Status) : string :=
  match s with
  | waiting => "Waiting"
  | with_doctor => "With Doctor"
  | completed => "Completed"
  | cancelled => "Cancelled"
  | no_show => "No Show"
  end.

End Queue.

(* ===================================================================== *)
(** ** frontdesk.models.Patient *)
(* ===================================================================== *)

Module Patient.

(** The columns the identifier generation looks at, and the name. *)
Record t := mk {
  id : Z;
  patient_id : string;
  first_name : string;
  last_name : string;
  is_active : bool
}.

Definition table := list t.

Fixpoint insert_desc (x : t) (l : table) : table :=
  match l with
  | [] => [x]
  | y :: r => if id y <=? id x then x :: l else y :: insert_desc x r
  end.

(** [.order_by('-id')] *)
Definition order_by_desc_id (q : table) : table := fold_right insert_desc [] q.

(** [.first()] *)
Definition first (q : table) : option t :=
  match q with [] => None | x :: _ => Some x end.

(** [get_age]; [date_of_birth] is [self.date_of_birth]. The comparison
    of the two (month, day) pairs counts as 1 when it holds. *)
Definition get_age (today date_of_birth : date) : Z :=
  year today - year date_of_birth
  - (if (month today <? month date_of_birth)
        || ((month today =? month date_of_birth) && (day today <? day date_of_birth))
     then 1 else 0).

End Patient.

(* ===================================================================== *)
(** ** frontdesk.forms *)
(* ===================================================================== *)

Module Forms.

(** What a [clean] method does: it returns the cleaned data or raises
    [ValidationError(message)]. *)
Inductive CleanResult := Cleaned | Raise (message : string).

Definition accepts (r : CleanResult) : bool :=
  match r with Cleaned => true | Raise _ => false end.

Definition past_schedule_message : string :=
  "Cannot schedule appointments in the past.".

Definition slot_conflict_message (doc : Doctor.t) : string :=
  "Dr. " ++ Doctor.full_name doc ++ " already has an appointment at this time.".

(** [k if k else None] on a primary key: a key that is not set, or is
    zero, gives [None]. *)
Definition pk_or_none (k : option Z) : option Z :=
  match k with
  | Some k' => if k' =? 0 then None else Some k'
  | None => None
  end.

(** [AppointmentForm.clean]. [instance_pk] is [self.instance.pk]: [None]
    when the form creates an appointment, the stored key when it edits
    one. The three cleaned values are [None] when their field is missing
    or did not validate. *)
Definition AppointmentForm_clean (clk : Clock) (db : Appointment.table)
    (instance_pk : option Z)
    (appointment_date : option date) (appointment_time : option time)
    (doctor : option Doctor.t) : CleanResult :=
  match appointment_date, appointment_time, doctor with
  | Some d, Some tm, Some doc =>
      let appointment_datetime := make_aware clk (combine d tm) in
      if appointment_datetime <? timezone_now clk
      then Raise past_schedule_message
      else
        let existing_appointment :=
          Appointment.exclude_pk (pk_or_none instance_pk)
            (Appointment.filter_active_slot db (Doctor.pk doc) d tm) in
        if Appointment.exists_ existing_appointment
        then Raise (slot_conflict_message doc)
        else Cleaned
  | _, _, _ => Cleaned
  end.

Definition past_reschedule_message : string :=
  "Cannot reschedule to a time in the past.".

Definition reschedule_conflict_message : string :=
  "Doctor already has an appointment at this time. Please choose another slot.".

(** [AppointmentRescheduleForm.clean]; [appointment] is the keyword
    argument of the constructor. *)
Definition AppointmentRescheduleForm_clean (clk : Clock) (db : Appointment.table)
    (appointment : option Appointment.t)
    (new_date : option date) (new_time : option time) : CleanResult :=
  match new_date, new_time, appointment with
  | Some d, Some tm, Some a =>
      let new_datetime := combine d tm in
      if new_datetime <? datetime_now clk
      then Raise past_reschedule_message
      else
        let existing :=
          Appointment.exclude_pk (Some (Appointment.pk a))
            (Appointment.filter_active_slot db (Appointment.doctor a) d tm) in
        if Appointment.exists_ existing
        then Raise reschedule_conflict_message
        else Cleaned
  | _, _, _ => Cleaned
  end.

(** [form.is_valid()] for the reschedule form: both required fields hold
    a value and [clean] raises nothing. *)
Definition AppointmentRescheduleForm_is_valid (clk : Clock) (db : Appointment.table)
    (appointment : option Appointment.t)
    (new_date : option date) (new_time : option time) : bool :=
  match new_date, new_time with
  | Some _, Some _ =>
      accepts (AppointmentRescheduleForm_clean clk db appointment new_date new_time)
  | _, _ => false
  end.

(** [AppointmentCancelForm]: one required character field, stripped. The
    result is [cleaned_data['cancellation_reason']], [None] when the form
    is not valid. *)
Definition AppointmentCancelForm_clean (raw : option string) : option string :=
  match raw with
  | Some s => match PyStr.strip s with
              | "" => None
              | v => Some v
              end
  | None => None
  end.

(** What cleaning one field of a form ends in: the cleaned value, a
    [ValidationError] with its messages (the form is then not valid), or
    the [ValueError] of [int], which is no validation error and leaves
    the form as an exception. *)
Inductive FieldResult :=
  | Ok (value : string)
  | Invalid (messages : list string)
  | ValueError.

Definition required_message : string := "This field is required.".

Definition null_characters_message : string := "Null characters are not allowed.".

Definition max_length_message (limit : nat) (value : string) : string :=
  "Ensure this value has at most " ++ PyStr.str_int (Z.of_nat limit)
  ++ (if (limit =? 1)%nat then " character" else " characters")
  ++ " (it has " ++ PyStr.str_int (Z.of_nat (String.length value)) ++ ").".

Fixpoint has_null (s : string) : bool :=
  match s with
  | "" => false
  | String c r => Ascii.eqb c zero || has_null r
  end.

(** The form field of a model [CharField(max_length=limit)] declared
    without [blank=True]: a required [forms.CharField]. [raw] is the
    submitted value, [None] when the request has no such key. The value
    is stripped; an empty one raises the required error; otherwise the
    length and null-character validators run and their messages are
    collected. *)
Definition CharField_clean (limit : nat) (raw : option string) : FieldResult :=
  let value := match raw with
               | Some s => PyStr.strip s
               | None => ""
               end in
  match value with
  | "" => Invalid [required_message]
  | _ =>
      match ((if (limit <? String.length value)%nat
              then [max_length_message limit value] else [])
             ++ (if has_null value then [null_characters_message] else []))%list with
      | [] => Ok value
      | errors => Invalid errors
      end
  end.

(** [PatientForm.clean_patient_id]; the argument is
    [self.cleaned_data.get('patient_id')], the value the field has just
    been cleaned to. *)
Definition PatientForm_clean_patient_id (db : Patient.table)
    (patient_id : string) : FieldResult :=
  match patient_id with
  | "" =>
      match Patient.first (Patient.order_by_desc_id db) with
      | Some last_patient =>
          match PyStr.int (PyStr.replace "PAT" "" (Patient.patient_id last_patient)) with
          | Some last_id => Ok ("PAT" ++ PyStr.format_0d 5 (last_id + 1))
          | None => ValueError
          end
      | None => Ok "PAT00001"
      end
  | _ => Ok patient_id
  end.

(** The cleaning of [patient_id] when [PatientForm] is validated: the
    field is cleaned first ([Patient.patient_id] is
    [CharField(max_length=20, unique=True)], so the field is required),
    and [clean_patient_id] is called only when that raised nothing. *)
Definition PatientForm_clean_fields_patient_id (db : Patient.table)
    (raw : option string) : FieldResult :=
  match CharField_clean 20 raw with
  | Ok value => PatientForm_clean_patient_id db value
  | failed => failed
  end.

(** The cleaned data of a valid [QueueForm]. *)
Record QueueData := mkQueueData {
  q_patient : Z;
  q_doctor : option Z;
  q_priority : Queue.Priority;
  q_reason_for_visit : string;
  q_notes : string
}.

(** [QueueForm.save(commit=False, added_by=staff)]: the unsaved instance.
    Its key and its [auto_now_add] fields are filled in when it is
    stored. *)
Definition QueueForm_save (today : date) (db : Queue.table)
    (data : QueueData) (added_by : option Z) : Queue.t :=
  let waiting_count (d : Z) :=
    Z.of_nat (List.length
      (filter (fun q => match Queue.doctor q with
                        | Some d' => d' =? d
                        | None => false
                        end
                        && Queue.status_eqb (Queue.status q) Queue.waiting
                        && date_eqb (Queue.queue_date q) today) db)) in
  Queue.mk 0 (Queue.generate_queue_number today db) (q_patient data) (q_doctor data)
    Queue.waiting (q_priority data) 0 None None None
    (match q_doctor data with
     | Some d => waiting_count d * 15
     | None => 0
     end)
    (q_reason_for_visit data) (q_notes data) added_by today 0 0.

(** [PatientForm.clean_date_of_birth] *)
Definition PatientForm_clean_date_of_birth (today : date) (dob : option date)
  : CleanResult :=
  match dob with
  | Some d => if date_ltb today d
              then Raise "Date of birth cannot be in the future."
              else Cleaned
  | None => Cleaned
  end.

(** [DoctorAvailabilityForm.clean] *)
Definition DoctorAvailabilityForm_clean (start_time end_time : option time)
  : CleanResult :=
  match start_time, end_time with
  | Some s, Some e => if e <=? s
                      then Raise "End time must be after start time."
                      else Cleaned
  | _, _ => Cleaned
  end.

End Forms.

(* ===================================================================== *)
(** ** frontdesk.views *)
(* ===================================================================== *)

Module Views.

Import Forms.

Inductive Level := error | warning | success | info.

(** A message handed to [django.contrib.messages]. *)
Record Message := mkMessage { level : Level; text : string }.

Inductive Method := GET | POST.

(** How a view ends: a 404, a redirect to a named route, a rendered
    template, or an exception nobody catches. *)
Inductive Response :=
| Http404
| Redirect (route : string) (arg : option Z)
| Render (template : string)
| ServerError.

Record Outcome := mkOutcome {
  db_after : Appointment.table;
  messages : list Message;
  response : Response
}.

Definition cancel_appointment_view (clk : Clock) (db : Appointment.table) (k : Z)
    (method : Method) (post_reason : option string) (staff_profile : option Z)
  : Outcome :=
  match Appointment.get db k with
  | None => mkOutcome db [] Http404
  | Some appointment =>
      if negb (Appointment.can_cancel clk appointment) then
        mkOutcome db [mkMessage error "This appointment cannot be cancelled."]
          (Redirect "frontdesk:appointment_detail" (Some k))
      else
        let form_page := Render "frontdesk/appointment_cancel.html" in
        match method with
        | POST =>
            match AppointmentCancelForm_clean post_reason with
            | Some reason =>
                match staff_profile with
                | Some staff =>
                    match Appointment.cancel_appointment clk db appointment reason (Some staff) with
                    | Some db' =>
                        mkOutcome db'
                          [mkMessage success
                             ("Appointment " ++ Appointment.appointment_id appointment
                              ++ " cancelled successfully.")]
                          (Redirect "frontdesk:appointment_list" None)
                    | None => mkOutcome db [] ServerError
                    end
                | None =>
                    mkOutcome db [mkMessage error "Staff profile not found."] form_page
                end
            | None => mkOutcome db [] form_page
            end
        | GET => mkOutcome db [] form_page
        end
  end.

Definition reschedule_appointment_view (clk : Clock) (today : date) (rng : nat -> nat)
    (db : Appointment.table) (k : Z) (method : Method)
    (new_date : option date) (new_time : option time) (reason : string)
  : Outcome :=
  match Appointment.get db k with
  | None => mkOutcome db [] Http404
  | Some appointment =>
      if negb (Appointment.can_reschedule clk appointment) then
        mkOutcome db [mkMessage error "This appointment cannot be rescheduled."]
          (Redirect "frontdesk:appointment_detail" (Some k))
      else
        let form_page := Render "frontdesk/appointment_reschedule.html" in
        match method, new_date, new_time with
        | POST, Some d, Some tm =>
            if AppointmentRescheduleForm_is_valid clk db (Some appointment) new_date new_time
            then
              match Appointment.create clk db
                      (Appointment.patient appointment) (Appointment.doctor appointment)
                      d tm (Appointment.duration appointment)
                      (Appointment.appointment_type appointment)
                      (Appointment.reason_for_visit appointment)
                      (Appointment.symptoms appointment)
                      (Appointment.special_instructions appointment)
                      (Appointment.scheduled_by appointment)
                      (Some (Appointment.pk appointment)) with
              | None => mkOutcome db [] ServerError
              | Some (db1, created) =>
                  let new_appointment :=
                    Appointment.set_appointment_id
                      (Appointment.generate_appointment_id today rng db1) created in
                  match Appointment.save clk db1 new_appointment with
                  | None => mkOutcome db1 [] ServerError
                  | Some db2 =>
                      let old :=
                        Appointment.set_notes
                          ("Rescheduled to "
                           ++ str_date (Appointment.appointment_date new_appointment)
                           ++ " " ++ str_time (Appointment.appointment_time new_appointment)
                           ++ ". Reason: " ++ reason)
                          (Appointment.set_status Appointment.rescheduled appointment) in
                      match Appointment.save clk db2 old with
                      | None => mkOutcome db2 [] ServerError
                      | Some db3 =>
                          mkOutcome db3
                            [mkMessage success
                               ("Appointment rescheduled successfully! New appointment ID: "
                                ++ Appointment.appointment_id new_appointment)]
                            (Redirect "frontdesk:appointment_detail"
                               (Some (Appointment.pk new_appointment)))
                      end
                  end
              end
            else mkOutcome db [] form_page
        | _, _, _ => mkOutcome db [] form_page
        end
  end.

Definition confirm_appointment_view (clk : Clock) (db : Appointment.table) (k : Z)
  : Outcome :=
  match Appointment.get db k with
  | None => mkOutcome db [] Http404
  | Some appointment =>
      let back := Redirect "frontdesk:appointment_detail" (Some k) in
      if Appointment.status_eqb (Appointment.status appointment) Appointment.scheduled then
        match Appointment.mark_confirmed clk db appointment with
        | Some db' =>
            mkOutcome db'
              [mkMessage success
                 ("Appointment " ++ Appointment.appointment_id appointment ++ " confirmed.")]
              back
        | None => mkOutcome db [] ServerError
        end
      else
        mkOutcome db
          [mkMessage warning "Appointment is already confirmed or cannot be confirmed."]
          back
  end.

(** [patient_name] is [appointment.patient.get_full_name()], read through
    the foreign key. *)
Definition checkin_appointment_view (clk : Clock) (patient_name : Z -> string)
    (db : Appointment.table) (k : Z) : Outcome :=
  match Appointment.get db k with
  | None => mkOutcome db [] Http404
  | Some appointment =>
      let back := Redirect "frontdesk:appointment_detail" (Some k) in
      if Appointment.status_in (Appointment.status appointment)
           [Appointment.scheduled; Appointment.confirmed] then
        match Appointment.mark_checked_in clk db appointment with
        | Some db' =>
            mkOutcome db'
              [mkMessage success
                 ("Patient " ++ patient_name (Appointment.patient appointment)
                  ++ " checked in.")]
              back
        | None => mkOutcome db [] ServerError
        end
      else
        mkOutcome db [mkMessage warning "Cannot check in this appointment."] back
  end.

Definition complete_appointment_view (clk : Clock) (db : Appointment.table) (k : Z)
  : Outcome :=
  match Appointment.get db k with
  | None => mkOutcome db [] Http404
  | Some appointment =>
      let back := Redirect "frontdesk:appointment_detail" (Some k) in
      if Appointment.status_in (Appointment.status appointment)
           [Appointment.checked_in; Appointment.in_progress] then
        match Appointment.complete_appointment clk db appointment with
        | Some db' =>
            mkOutcome db'
              [mkMessage success
                 ("Appointment " ++ Appointment.appointment_id appointment
                  ++ " marked as completed.")]
              back
        | None => mkOutcome db [] ServerError
        end
      else
        mkOutcome db [mkMessage warning "Cannot complete this appointment."] back
  end.

(** The [queue_entries] of [queue_management_view]. *)
Definition queue_management_view (today : date) (db : Queue.table) : Queue.table :=
  Queue.order_by_priority_arrival (Queue.filter_date today db).

(** The [queue_entries] of [today_queue_view]. *)
Definition today_queue_view (today : date) (db : Queue.table) : Queue.table :=
  Queue.order_by_priority_arrival
    (Queue.filter_status_in [Queue.waiting; Queue.with_doctor]
       (Queue.filter_date today db)).

(** [add_to_queue_view] for a POST with a valid form, sent by a user
    who has a staff profile: the form builds the entry and
    [queue_entry.save()] stores it under a new key with the arrival
    instant. [None] is the [IntegrityError] of the unique
    [queue_number] column, which the view does not catch (its [except]
    names [FrontDeskStaff.DoesNotExist] only): nothing is stored.
    Otherwise the table and the stored entry. *)
Definition add_to_queue_view (clk : Clock) (today : date) (db : Queue.table)
    (data : QueueData) (staff_profile : Z) : option (Queue.table * Queue.t) :=
  let e := QueueForm_save today db data (Some staff_profile) in
  let now := timezone_now clk in
  let stored :=
    Queue.mk (Queue.next_pk db) (Queue.queue_number e) (Queue.patient e)
      (Queue.doctor e) (Queue.status e) (Queue.priority e) now
      (Queue.called_time e) (Queue.consultation_start_time e)
      (Queue.consultation_end_time e) (Queue.estimated_wait_time e)
      (Queue.reason_for_visit e) (Queue.notes e) (Queue.added_by e)
      (Queue.queue_date e) now now in
  if Queue.violates_unique db stored
  then None
  else Some ((db ++ [stored])%list, stored).

(** Sequential enqueueing: one request after the other, each on the
    date and at the instant given with it. A request that ends in the
    exception stores nothing and the next one runs on the same table.
    The outcomes are returned in the order of the requests: the stored
    entry, or [None] for the exception. *)
Fixpoint enqueue_all (db : Queue.table)
    (requests : list (Clock * date * QueueData * Z))
  : Queue.table * list (option Queue.t) :=
  match requests with
  | [] => (db, [])
  | (clk, today, data, staff) :: rest =>
      match add_to_queue_view clk today db data staff with
      | Some (db', e) =>
          let (db'', es) := enqueue_all db' rest in (db'', Some e :: es)
      | None =>
          let (db'', es) := enqueue_all db rest in (db'', None :: es)
      end
  end.

(** What a queue view leaves behind: the queue table, the doctor table,
    the messages and the response. *)
Record QueueOutcome := mkQueueOutcome {
  queue_after : Queue.table;
  doctors_after : DoctorTable.table;
  queue_messages : list Message;
  queue_response : Response
}.

(** The doctor part of [update_queue_status_view]: when the entry has a
    doctor, the flag is written and a message names the doctor. A
    foreign key without its row is an exception. *)
Definition set_doctor_flag (clk : Clock) (doctors : DoctorTable.table)
    (doctor : option Z) (flag : bool) (lvl : Level) (suffix : string)
  : option (DoctorTable.table * list Message) :=
  match doctor with
  | Some d =>
      match DoctorTable.get doctors d with
      | Some row =>
          Some (DoctorTable.save clk doctors (DoctorTable.set_is_available flag row),
                [mkMessage lvl ("Dr. " ++ DoctorTable.full_name row ++ suffix)])
      | None => None
      end
  | None => Some (doctors, [])
  end.

Definition update_queue_status_view (clk : Clock) (queue : Queue.table)
    (doctors : DoctorTable.table) (k : Z) (method : Method)
    (post_status : option string) : QueueOutcome :=
  match Queue.get queue k with
  | None => mkQueueOutcome queue doctors [] Http404
  | Some stored =>
      let back := Redirect "frontdesk:queue_management" None in
      match method with
      | POST =>
          match match post_status with
                | Some s => Queue.status_of_value s
                | None => None
                end with
          | Some new_status =>
              let queue_entry := Queue.set_status new_status stored in
              let updated (st : Queue.Status) :=
                mkMessage success
                  ("Queue status updated to " ++ Queue.status_display st) in
              match new_status with
              | Queue.with_doctor =>
                  let queue' := Queue.mark_with_doctor clk queue queue_entry in
                  match set_doctor_flag clk doctors (Queue.doctor queue_entry) false
                          info " is now marked as Busy" with
                  | Some (doctors', msgs) =>
                      mkQueueOutcome queue' doctors'
                        (msgs ++ [updated Queue.with_doctor])%list back
                  | None => mkQueueOutcome queue' doctors [] ServerError
                  end
              | Queue.completed =>
                  let queue' := Queue.mark_completed clk queue queue_entry in
                  match set_doctor_flag clk doctors (Queue.doctor queue_entry) true
                          success " is now Available" with
                  | Some (doctors', msgs) =>
                      mkQueueOutcome queue' doctors'
                        (msgs ++ [updated Queue.completed])%list back
                  | None => mkQueueOutcome queue' doctors [] ServerError
                  end
              | _ =>
                  mkQueueOutcome (Queue.save clk queue queue_entry) doctors
                    [updated new_status] back
              end
          | None => mkQueueOutcome queue doctors [mkMessage error "Invalid status"] back
          end
      | GET => mkQueueOutcome queue doctors [] back
      end
  end.

Definition remove_from_queue_view (clk : Clock) (queue : Queue.table)
    (doctors : DoctorTable.table) (k : Z) (method : Method) : QueueOutcome :=
  match Queue.get queue k with
  | None => mkQueueOutcome queue doctors [] Http404
  | Some stored =>
      let back := Redirect "frontdesk:queue_management" None in
      match method with
      | POST =>
          mkQueueOutcome (Queue.save clk queue (Queue.set_status Queue.cancelled stored))
            doctors
            [mkMessage success
               ("Queue entry #" ++ Queue.queue_number stored ++ " cancelled.")]
            back
      | GET => mkQueueOutcome queue doctors [] back
      end
  end.

End Views.

(* ===================================================================== *)
(** * Vocabulary of the properties *)
(* ===================================================================== *)

(** What it means for a stored appointment to occupy the slot
    [(d, dt, tm)]: same doctor, date and time, and an active status. *)
Definition occupies (d : Z) (dt : date) (tm : time) (a : Appointment.t) : Prop :=
  Appointment.doctor a = d /\ Appointment.appointment_date a = dt
  /\ Appointment.appointment_time a = tm
  /\ In (Appointment.status a) Appointment.active_statuses.

(** The row is not the instance the form works on. *)
Definition other_than (k : option Z) (a : Appointment.t) : Prop :=
  forall k', k = Some k' -> Appointment.pk a <> k'.

(** The slot lies in the past for the scheduling form. *)
Definition slot_in_past (clk : Clock) (dt : date) (tm : time) : bool :=
  make_aware clk (combine dt tm) <? timezone_now clk.

Module Example.

Definition jan15 : date := mkdate 2025 1 15.
Definition jan20 : date := mkdate 2025 1 20.

Definition dr_rao : Doctor.t := Doctor.mk 7 "Rao".

(** An appointment of patient 3 with doctor 7. *)
Definition appt (k : Z) (ident : string) (dt : date) (tm : time)
    (st : Appointment.Status) : Appointment.t :=
  Appointment.mk k ident 3 7 dt tm 30 st Appointment.routine "checkup" "" ""
    (Some 1) 0 false None None None None "" None None None "" false None 0 0.

(** 15 January 2025, 10:00 UTC; everything runs in UTC. *)
Definition clk_utc : Clock := mkClock (combine jan15 (mktime 10 0 0)) 0 0.

(** The same instant on a host whose local zone is UTC+05:30 while the
    current time zone of the application is UTC. *)
Definition clk_host_ahead : Clock :=
  mkClock (combine jan15 (mktime 10 0 0)) 0 (mktime 5 30 0).

(** The same instant on a host whose local zone is UTC-05:00. *)
Definition clk_host_behind : Clock :=
  mkClock (combine jan15 (mktime 10 0 0)) 0 (- mktime 5 0 0).

End Example.

(** The rank the specification gives the priorities: emergency before
    urgent before normal. *)
Definition spec_priority_rank (p : Queue.Priority) : Z :=
  match p with
  | Queue.emergency => 0
  | Queue.urgent => 1
  | Queue.normal => 2
  end.

(** The order the specification asks of a queue listing: by rank, and by
    arrival within a rank. *)
Definition spec_queue_order (a b : Queue.t) : Prop :=
  spec_priority_rank (Queue.priority a) < spec_priority_rank (Queue.priority b)
  \/ (spec_priority_rank (Queue.priority a) = spec_priority_rank (Queue.priority b)
      /\ Queue.arrival_time a <= Queue.arrival_time b).

(** The order the listing has: by the text of the priority, and by
    arrival within a priority. *)
Definition textual_queue_order (a b : Queue.t) : Prop :=
  Queue.order_leb a b = true.

Module QueueExample.

(** A waiting entry of 15 January 2025 without a doctor. *)
Definition entry (k : Z) (number : string) (p : Queue.Priority) (arrival : Z) : Queue.t :=
  Queue.mk k number 3 None Queue.waiting p arrival None None None 0 "" ""
    (Some 1) Example.jan15 arrival arrival.

Definition walk_in_normal : Queue.t :=
  entry 1 "Q20250115001" Queue.normal (combine Example.jan15 (mktime 9 0 0)).

Definition walk_in_urgent : Queue.t :=
  entry 2 "Q20250115002" Queue.urgent (combine Example.jan15 (mktime 9 5 0)).

Definition walk_in_emergency : Queue.t :=
  entry 3 "Q20250115003" Queue.emergency (combine Example.jan15 (mktime 9 10 0)).

End QueueExample.

(** What the specification asks of a status-transition view run on the
    stored appointment [a] with key [k]: outside the permitted
    predecessor states the table is left as it was and a warning is
    reported; the stored appointment changes only from a permitted state,
    and then to the target status; and from a permitted state the
    transition is carried out (for a stored row that clashes with no
    other row on the declared constraints). *)
Definition guarded_transition (o : Views.Outcome) (db : Appointment.table) (k : Z)
    (a : Appointment.t) (permitted : list Appointment.Status)
    (target : Appointment.Status) (warning_text : string) : Prop :=
  (~ In (Appointment.status a) permitted ->
   o = Views.mkOutcome db [Views.mkMessage Views.warning warning_text]
         (Views.Redirect "frontdesk:appointment_detail" (Some k)))
  /\ (forall a', Appointment.get (Views.db_after o) k = Some a' -> a' <> a ->
        In (Appointment.status a) permitted /\ Appointment.status a' = target)
  /\ (In (Appointment.status a) permitted ->
      Appointment.violates_unique db a = false ->
      exists a' msg,
        Appointment.get (Views.db_after o) k = Some a'
        /\ Appointment.status a' = target
        /\ Views.messages o = [Views.mkMessage Views.success msg]
        /\ Views.response o = Views.Redirect "frontdesk:appointment_detail" (Some k)).

(** The answer of the cancel view to an appointment that cannot be
    cancelled: the table as it was, an error message, and the redirect to
    the detail page. This is how the view reports an invalid state. *)
Definition cancel_refused (db : Appointment.table) (k : Z) : Views.Outcome :=
  Views.mkOutcome db
    [Views.mkMessage Views.error "This appointment cannot be cancelled."]
    (Views.Redirect "frontdesk:appointment_detail" (Some k)).

(** The cancel view went through: it redirects to the list. *)
Definition cancel_succeeded (o : Views.Outcome) : Prop :=
  Views.response o = Views.Redirect "frontdesk:appointment_list" None.

(** The reschedule view went through: a success message and the redirect
    to the detail page of the new appointment. *)
Definition reschedule_succeeded (o : Views.Outcome) (new_pk : Z) : Prop :=
  Views.response o = Views.Redirect "frontdesk:appointment_detail" (Some new_pk)
  /\ exists msg, Views.messages o = [Views.mkMessage Views.success msg].

(** The number of slot starts [start, start + step, ...] strictly below
    [end_]. *)
Definition slot_count (start end_ step : Z) : nat :=
  Z.to_nat ((end_ - start + step - 1) / step).

(** The slot starts of a window, in order. *)
Definition slot_starts (start end_ step : Z) : list time :=
  map (fun i => start + Z.of_nat i * step) (seq 0 (slot_count start end_ step)).

Module SlotExample.

(** The window 09:00 to 12:00 of doctor 7 on 20 January 2025. *)
Definition morning : DoctorAvailability.t :=
  DoctorAvailability.mk 1 7 Example.jan20 (mktime 9 0 0) (mktime 12 0 0) true 10 "".

(** One scheduled appointment at 09:30 in that window. *)
Definition booked_0930 : Appointment.table :=
  [Example.appt 1 "APT202501100001" Example.jan20 (mktime 9 30 0)
     Appointment.scheduled].

End SlotExample.

(** An enqueue request: the clock and the date it runs on, the cleaned
    form data and the staff profile of the caller. *)
Definition request_date (r : Clock * date * Forms.QueueData * Z) : date :=
  snd (fst (fst r)).

(** How many of the first [i] requests run on the date [today]. *)
Definition same_date_before (today : date)
    (requests : list (Clock * date * Forms.QueueData * Z)) (i : nat) : nat :=
  List.length (filter (fun r => date_eqb (request_date r) today) (firstn i requests)).

Module EnqueueExample.

Definition walk_in (p : Z) : Forms.QueueData :=
  Forms.mkQueueData p None Queue.normal "fever" "".

(** Two requests on 15 January, then one on 20 January, then a third on
    15 January. *)
Definition requests : list (Clock * date * Forms.QueueData * Z) :=
  [(Example.clk_utc, Example.jan15, walk_in 1, 4);
   (Example.clk_utc, Example.jan15, walk_in 2, 4);
   (Example.clk_utc, Example.jan20, walk_in 3, 4);
   (Example.clk_utc, Example.jan15, walk_in 4, 4)].

(** A thousand walk-ins on 15 January. *)
Definition busy_day : list (Clock * date * Forms.QueueData * Z) :=
  repeat (Example.clk_utc, Example.jan15, walk_in 1, 4) 1000.

End EnqueueExample.

(** A date as [date.today()] can give it: the year has four digits at
    most. *)
Definition valid_date (d : date) : Prop :=
  1 <= year d <= 9999 /\ 1 <= month d <= 12 /\ 1 <= day d <= 31.

(** The queue number of the date [d] with the sequence [k]. *)
Definition daily_number (d : date) (k : Z) : string :=
  "Q" ++ strftime_Ymd d ++ PyStr.format_0d 3 k.

(** The tables the enqueue view fills: every stored entry carries a
    number of its own date, with a sequence between 1 and the number of
    entries stored for that date. The empty table is one. *)
Definition numbered_by_date (db : Queue.table) : Prop :=
  forall e, In e db ->
    valid_date (Queue.queue_date e)
    /\ exists k,
         1 <= k <= Z.of_nat (List.length (Queue.filter_date (Queue.queue_date e) db))
         /\ Queue.queue_number e = daily_number (Queue.queue_date e) k.

(** After the words of the specification: ['Q'], the date as YYYYMMDD
    and a sequence of three digits. *)
Definition spec_three_digit_number (d : date) (s : string) : Prop :=
  exists a b c,
    PyStr.is_digit a = true /\ PyStr.is_digit b = true /\ PyStr.is_digit c = true
    /\ s = "Q" ++ strftime_Ymd d ++ String a (String b (String c "")).

(** The value of a decimal numeral, continuing from [acc]. *)
Fixpoint uint_value (d : Decimal.uint) (acc : Z) : Z :=
  match d with
  | Decimal.Nil => acc
  | Decimal.D0 r => uint_value r (10 * acc + 0)
  | Decimal.D1 r => uint_value r (10 * acc + 1)
  | Decimal.D2 r => uint_value r (10 * acc + 2)
  | Decimal.D3 r => uint_value r (10 * acc + 3)
  | Decimal.D4 r => uint_value r (10 * acc + 4)
  | Decimal.D5 r => uint_value r (10 * acc + 5)
  | Decimal.D6 r => uint_value r (10 * acc + 6)
  | Decimal.D7 r => uint_value r (10 * acc + 7)
  | Decimal.D8 r => uint_value r (10 * acc + 8)
  | Decimal.D9 r => uint_value r (10 * acc + 9)
  end.

(** The population of the random suffix of an appointment identifier:
    the 26 uppercase letters, then the 10 digits. *)
Definition suffix_alphabet : string := "ABCDEFGHIJKLMNOPQRSTUVWXYZ0123456789".

(** The character draw [j] of the generator picks from the 36. *)
Definition suffix_char (rng : nat -> nat) (j : nat) : ascii :=
  nth (rng j mod 36) (list_ascii_of_string suffix_alphabet) "0"%char.

(** The four characters of the fallback, in the order of the draws. *)
Definition random_suffix (rng : nat -> nat) : string :=
  String (suffix_char rng 0) (String (suffix_char rng 1)
    (String (suffix_char rng 2) (String (suffix_char rng 3) ""))).




Module IdExample.



(** The sequential candidate (number 3) and the fallback that the
    generator [fun j => j] draws ('ABCD') are both taken. *)
Definition both_taken : Appointment.table :=
  [Example.appt 1 "APT202501100001" Example.jan20 (mktime 9 0 0) Appointment.scheduled;
   Example.appt 2 "APT202501150003" Example.jan20 (mktime 9 30 0) Appointment.scheduled;
   Example.appt 3 "APT20250115ABCD" Example.jan20 (mktime 11 0 0) Appointment.scheduled].

End IdExample.

Fixpoint all_digits (s : string) : bool :=
  match s with
  | "" => true
  | String c r => PyStr.is_digit c && all_digits r
  end.

(** The value of a string of decimal digits, continuing from [acc]. *)
Fixpoint decimal_value_from (s : string) (acc : Z) : Z :=
  match s with
  | "" => acc
  | String c r => decimal_value_from r (10 * acc + PyStr.digit_value c)
  end.

Definition decimal_value (s : string) : Z := decimal_value_from s 0.

(** The row with the highest primary key of the table. *)
Definition latest_row (db : Patient.table) (last : Patient.t) : Prop :=
  In last db /\ forall p, In p db -> p = last \/ Patient.id p < Patient.id last.

(** The submitted [patient_id] is left empty: the key is missing or the
    value is blank. *)
Definition left_empty (raw : option string) : Prop :=
  match raw with
  | Some s => PyStr.strip s = ""
  | None => True
  end.

Module PatientExample.

(** Two patients registered with identifiers typed in by hand, the
    second one lower than the first. *)
Definition typed_in : Patient.table :=
  [Patient.mk 1 "PAT00005" "Asha" "Nair" true;
   Patient.mk 2 "PAT00002" "Ravi" "Iyer" true].

End PatientExample.

(* ===================================================================== *)
(** * Vocabulary of the further properties *)
(* ===================================================================== *)

(** The constraints the appointment table declares, as a property of the
    list of rows: keys are unique, and two different rows share neither
    their identifier nor their slot. *)
Definition consistent (db : Appointment.table) : Prop :=
  NoDup (map Appointment.pk db)
  /\ forall r1 r2, In r1 db -> In r2 db -> Appointment.pk r1 <> Appointment.pk r2 ->
       String.eqb (Appointment.appointment_id r1) (Appointment.appointment_id r2) = false
       /\ Appointment.same_slot r1 r2 = false.

(** One request to one of the five appointment views takes the table
    [db] to the table it leaves behind. *)
Inductive view_step (db : Appointment.table) : Appointment.table -> Prop :=
| step_cancel clk k method raw staff :
    view_step db
      (Views.db_after (Views.cancel_appointment_view clk db k method raw staff))
| step_reschedule clk today rng k method new_date new_time reason :
    view_step db
      (Views.db_after
         (Views.reschedule_appointment_view clk today rng db k method
            new_date new_time reason))
| step_confirm clk k :
    view_step db (Views.db_after (Views.confirm_appointment_view clk db k))
| step_checkin clk patient_name k :
    view_step db
      (Views.db_after (Views.checkin_appointment_view clk patient_name db k))
| step_complete clk k :
    view_step db (Views.db_after (Views.complete_appointment_view clk db k)).

(** Any number of such requests, one after the other. *)
Inductive view_steps (db : Appointment.table) : Appointment.table -> Prop :=
| steps_none : view_steps db db
| steps_more db' db'' : view_steps db db' -> view_step db' db'' -> view_steps db db''.

(** Every row readable in [db'] is readable unchanged in [db], or has a
    status among [targets]. *)
Definition writes_only (targets : list Appointment.Status)
    (db db' : Appointment.table) : Prop :=
  forall j r', Appointment.get db' j = Some r' ->
    Appointment.get db j = Some r' \/ In (Appointment.status r') targets.

(** The statuses the views assign. *)
Definition assigned_statuses : list Appointment.Status :=
  [Appointment.scheduled; Appointment.confirmed; Appointment.checked_in;
   Appointment.completed; Appointment.cancelled; Appointment.rescheduled].

(** The statuses no view leaves. *)
Definition terminal_statuses : list Appointment.Status :=
  [Appointment.completed; Appointment.cancelled; Appointment.no_show;
   Appointment.rescheduled].

(** The doctor an enqueue request names, if any. *)
Definition request_doctor (r : Clock * date * Forms.QueueData * Z) : option Z :=
  Forms.q_doctor (snd (fst r)).

(** The entry waits for doctor [d] on the date [today]. *)
Definition waiting_for (d : Z) (today : date) (q : Queue.t) : bool :=
  match Queue.doctor q with
  | Some d' => d' =? d
  | None => false
  end
  && Queue.status_eqb (Queue.status q) Queue.waiting
  && date_eqb (Queue.queue_date q) today.

(** The request names doctor [d] and runs on the date [today]. *)
Definition requests_doctor_on (d : Z) (today : date)
    (r : Clock * date * Forms.QueueData * Z) : bool :=
  match request_doctor r with
  | Some d' => d' =? d
  | None => false
  end
  && date_eqb (request_date r) today.

(** A request to one of the queue views. *)
Inductive QueueEvent :=
| Enqueue (clk : Clock) (today : date) (data : Forms.QueueData) (staff : Z)
| UpdateStatus (clk : Clock) (k : Z) (method : Views.Method) (post_status : option string)
| Remove (clk : Clock) (k : Z) (method : Views.Method).

(** The date of an enqueue request, nothing for the other requests. *)
Definition enqueue_date (ev : QueueEvent) : option date :=
  match ev with
  | Enqueue _ today _ _ => Some today
  | _ => None
  end.

(** The requests are served one after the other; the outcomes of the
    enqueue requests are collected in order: the stored entry, or
    [None] for a request that ended in the exception and stored
    nothing. *)
Fixpoint run_queue_events (queue : Queue.table) (doctors : DoctorTable.table)
    (events : list QueueEvent)
  : Queue.table * DoctorTable.table * list (option Queue.t) :=
  match events with
  | [] => (queue, doctors, [])
  | ev :: rest =>
      match ev with
      | Enqueue clk today data staff =>
          match Views.add_to_queue_view clk today queue data staff with
          | Some (queue', e) =>
              let '(q, d, es) := run_queue_events queue' doctors rest in
              (q, d, Some e :: es)
          | None =>
              let '(q, d, es) := run_queue_events queue doctors rest in
              (q, d, None :: es)
          end
      | UpdateStatus clk k method post_status =>
          let o := Views.update_queue_status_view clk queue doctors k method post_status in
          run_queue_events (Views.queue_after o) (Views.doctors_after o) rest
      | Remove clk k method =>
          let o := Views.remove_from_queue_view clk queue doctors k method in
          run_queue_events (Views.queue_after o) (Views.doctors_after o) rest
      end
  end.

(** The enqueue requests among the events, with their dates. *)
Definition enqueue_dates (events : list QueueEvent) : list date :=
  flat_map (fun ev => match enqueue_date ev with
                      | Some d => [d]
                      | None => []
                      end) events.

Module QueueStatusExample.

Definition dr_busy : DoctorTable.t := DoctorTable.mk 7 "DOC007" "Rao" false true 0.

(** A waiting entry of doctor 7. *)
Definition entry (k : Z) (st : Queue.Status) : Queue.t :=
  Queue.mk k "Q20250115001" 3 (Some 7) st Queue.normal 0 None None None 0 "" ""
    (Some 1) Example.jan15 0 0.

End QueueStatusExample.

(** The shape the [get] and [save] of every table share: the first row
    with a key, and the rewrite of the rows with the key of an instance,
    or its insertion at the end. *)
Definition keyed_lookup {A : Type} (key : A -> Z) (db : list A) (k : Z) : option A :=
  find (fun r => key r =? k) db.

Definition keyed_upsert {A : Type} (key : A -> Z) (db : list A) (b : A) : list A :=
  if existsb (fun r => key r =? key b) db
  then map (fun r => if key r =? key b then b else r) db
  else (db ++ [b])%list.

(** What a status request leaves of a queue table with unique keys:
    unique keys, as many entries of every date, and no date or number
    that was not there. *)
Definition same_daily_numbers (queue queue' : Queue.table) : Prop :=
  NoDup (map Queue.pk queue) ->
  NoDup (map Queue.pk queue')
  /\ (forall d, List.length (Queue.filter_date d queue')
                = List.length (Queue.filter_date d queue))
  /\ (forall e', In e' queue' ->
        exists e, In e queue
                  /\ Queue.queue_date e' = Queue.queue_date e
                  /\ Queue.queue_number e' = Queue.queue_number e).

(** How many of the first [i] dates are the date [today]. *)
Definition earlier_on (today : date) (dates : list date) (i : nat) : nat :=
  List.length (filter (fun d => date_eqb d today) (firstn i dates)).

(** The [n]-th anniversary of a date: the same month and day, [n] years
    later. *)
Definition anniversary (d : date) (n : Z) : date :=
  mkdate (year d + n) (month d) (day d).

Fixpoint all_space (s : string) : bool :=
  match s with
  | "" => true
  | String c r => PyStr.is_space c && all_space r
  end.

(** [a] comes before [b] in the list. *)
Definition listed_before {A : Type} (l : list A) (a b : A) : Prop :=
  exists l1 l2 l3, l = (l1 ++ a :: l2 ++ b :: l3)%list.

(* ===================================================================== *)
(** * Properties *)
(* ===================================================================== *)

(** ** Queries on the appointment table *)

Lemma date_eqb_eq (a b : date) : date_eqb a b = true <-> a = b.
Proof.
  unfold date_eqb. destruct a as [y m d], b as [y' m' d']; simpl.
  rewrite !andb_true_iff, !Z.eqb_eq. split.
  - intros [[-> ->] ->]. reflexivity.
  - intros E. inversion E. auto.
Qed.

Lemma date_eqb_refl (a : date) : date_eqb a a = true.
Proof. apply date_eqb_eq. reflexivity. Qed.


Lemma status_eqb_eq (s s' : Appointment.Status) :
  Appointment.status_eqb s s' = true <-> s = s'.
Proof. destruct s, s'; simpl; split; intros H; try reflexivity; discriminate. Qed.

Lemma status_in_In (s : Appointment.Status) (l : list Appointment.Status) :
  Appointment.status_in s l = true <-> In s l.
Proof.
  unfold Appointment.status_in. rewrite existsb_exists. split.
  - intros [x [Hx E]]. apply status_eqb_eq in E. subst. exact Hx.
  - intros H. exists s. split; [exact H | apply status_eqb_eq; reflexivity].
Qed.

Lemma filter_active_slot_In (db : Appointment.table) d dt tm a :
  In a (Appointment.filter_active_slot db d dt tm) <-> In a db /\ occupies d dt tm a.
Proof.
  unfold Appointment.filter_active_slot, occupies.
  rewrite filter_In, !andb_true_iff, !Z.eqb_eq, date_eqb_eq, status_in_In.
  tauto.
Qed.

Lemma exclude_pk_In (k : option Z) (q : Appointment.table) a :
  In a (Appointment.exclude_pk k q) <-> In a q /\ other_than k a.
Proof.
  unfold other_than. destruct k as [k|]; simpl.
  - rewrite filter_In, negb_true_iff, Z.eqb_neq. split.
    + intros [H1 H2]. split; [exact H1|]. intros k' E. inversion E. subst. exact H2.
    + intros [H1 H2]. split; [exact H1|]. apply H2. reflexivity.
  - split; [intros H; split; [exact H | intros k' E; discriminate] | tauto].
Qed.

Lemma exists_true (q : Appointment.table) :
  Appointment.exists_ q = true <-> exists a, In a q.
Proof.
  destruct q as [|x r]; simpl; split.
  - discriminate.
  - intros [a []].
  - intros _. exists x. left. reflexivity.
  - reflexivity.
Qed.

(** The conflict lookup of both forms finds a row exactly when a stored
    appointment other than the form's own occupies the slot. *)
Lemma conflict_lookup_spec (db : Appointment.table) (k : option Z) d dt tm :
  Appointment.exists_
    (Appointment.exclude_pk k (Appointment.filter_active_slot db d dt tm)) = true
  <-> exists a, In a db /\ occupies d dt tm a /\ other_than k a.
Proof.
  rewrite exists_true. split; intros [a H]; exists a.
  - apply exclude_pk_In in H. destruct H as [H1 H2].
    apply filter_active_slot_In in H1. tauto.
  - apply exclude_pk_In. rewrite filter_active_slot_In. tauto.
Qed.

(** ** Scheduling: [AppointmentForm.clean] *)



(** C1, as stated, fails: a slot that is taken and lies in the past is
    rejected with the past-date message, not with the slot-conflict
    message, because the form tests the past first. *)
Lemma schedule_conflict_unconditional_fails :
  ~ (forall (clk : Clock) (db : Appointment.table) (dt : date) (tm : time)
            (doc : Doctor.t),
        (exists a, In a db /\ occupies (Doctor.pk doc) dt tm a) ->
        Forms.AppointmentForm_clean clk db None (Some dt) (Some tm) (Some doc)
        = Forms.Raise (Forms.slot_conflict_message doc)).
Proof.
  intros H.
  specialize (H Example.clk_utc
                [Example.appt 1 "APT202501100001" Example.jan15 (mktime 9 0 0)
                   Appointment.scheduled]
                Example.jan15 (mktime 9 0 0) Example.dr_rao).
  assert (E : Forms.AppointmentForm_clean Example.clk_utc
                [Example.appt 1 "APT202501100001" Example.jan15 (mktime 9 0 0)
                   Appointment.scheduled]
                None (Some Example.jan15) (Some (mktime 9 0 0)) (Some Example.dr_rao)
              = Forms.Raise Forms.past_schedule_message) by (vm_compute; reflexivity).
  rewrite E in H.
  assert (C : Forms.Raise Forms.past_schedule_message
              = Forms.Raise (Forms.slot_conflict_message Example.dr_rao) -> False)
    by (vm_compute; discriminate).
  apply C, H.
  eexists. split; [left; reflexivity|].
  unfold occupies; simpl. repeat split; auto.
Qed.

(** C1, amended: for a slot that is not in the past, [AppointmentForm.clean]
    raises the slot-conflict error exactly when a stored appointment other
    than the form's own instance has the same doctor, date and time and a
    status among scheduled, confirmed, checked_in, and accepts exactly
    when there is none; a slot in the past is rejected with the past-date
    error whatever is stored. *)
Theorem schedule_clean_slot_conflict
    (clk : Clock) (db : Appointment.table) (instance_pk : option Z)
    (dt : date) (tm : time) (doc : Doctor.t) :
  let r := Forms.AppointmentForm_clean clk db instance_pk (Some dt) (Some tm) (Some doc) in
  let taken := exists a, In a db /\ occupies (Doctor.pk doc) dt tm a
                         /\ other_than (Forms.pk_or_none instance_pk) a in
  (slot_in_past clk dt tm = true -> r = Forms.Raise Forms.past_schedule_message)
  /\ (slot_in_past clk dt tm = false ->
      (taken -> r = Forms.Raise (Forms.slot_conflict_message doc))
      /\ (~ taken -> r = Forms.Cleaned)).
Proof.
  cbv zeta. unfold Forms.AppointmentForm_clean, slot_in_past.
  split.
  - intros ->. reflexivity.
  - intros ->. split; intros H.
    + apply conflict_lookup_spec in H. rewrite H. reflexivity.
    + destruct (Appointment.exists_ _) eqn:E; [|reflexivity].
      apply conflict_lookup_spec in E. contradiction.
Qed.

(** Both branches of the amended C1 at 15 January 2025, 10:00: the free
    slot at 11:00 is accepted, and it is refused once an appointment
    holds it. *)
Lemma schedule_clean_slot_conflict_witness :
  Forms.AppointmentForm_clean Example.clk_utc [] None
    (Some Example.jan15) (Some (mktime 11 0 0)) (Some Example.dr_rao) = Forms.Cleaned
  /\ Forms.AppointmentForm_clean Example.clk_utc
       [Example.appt 1 "APT202501100001" Example.jan15 (mktime 11 0 0)
          Appointment.confirmed]
       None (Some Example.jan15) (Some (mktime 11 0 0)) (Some Example.dr_rao)
     = Forms.Raise (Forms.slot_conflict_message Example.dr_rao).
Proof.
  split.
  - apply (schedule_clean_slot_conflict Example.clk_utc [] None
             Example.jan15 (mktime 11 0 0) Example.dr_rao).
    + vm_compute; reflexivity.
    + intros [a [[] _]].
  - apply (schedule_clean_slot_conflict Example.clk_utc
             [Example.appt 1 "APT202501100001" Example.jan15 (mktime 11 0 0)
                Appointment.confirmed]
             None Example.jan15 (mktime 11 0 0) Example.dr_rao).
    + vm_compute; reflexivity.
    + eexists. split; [left; reflexivity|]. split.
      * unfold occupies; simpl. repeat split; auto.
      * intros k' E; discriminate.
Defined.

(** ** Rescheduling validation against scheduling validation *)

(** Where the local zone of the process is the current time zone of the
    application, the two forms accept the same slots. *)
Lemma reschedule_clean_agrees_same_zone
    (clk : Clock) (db : Appointment.table) (a : Appointment.t)
    (dt : date) (tm : time) (doc : Doctor.t) :
  system_tz_offset clk = current_tz_offset clk ->
  Doctor.pk doc = Appointment.doctor a ->
  Appointment.pk a <> 0 ->
  Forms.accepts (Forms.AppointmentRescheduleForm_clean clk db (Some a) (Some dt) (Some tm))
  = Forms.accepts
      (Forms.AppointmentForm_clean clk db (Some (Appointment.pk a))
         (Some dt) (Some tm) (Some doc)).
Proof.
  intros Hz Hd Hk.
  unfold Forms.AppointmentRescheduleForm_clean, Forms.AppointmentForm_clean,
    Forms.pk_or_none, datetime_now, make_aware, timezone_now.
  rewrite Hz, Hd.
  replace (Appointment.pk a =? 0) with false by (symmetry; apply Z.eqb_neq, Hk).
  replace (combine dt tm <? utc_now clk + current_tz_offset clk)
    with (combine dt tm - current_tz_offset clk <? utc_now clk).
  - destruct (_ <? _); [reflexivity|].
    destruct (Appointment.exists_ _); reflexivity.
  - destruct (Z.ltb_spec (combine dt tm - current_tz_offset clk) (utc_now clk));
      destruct (Z.ltb_spec (combine dt tm) (utc_now clk + current_tz_offset clk));
      try reflexivity; lia.
Qed.

(** C4: the two validations disagree as soon as the local zone of the
    process is not the current time zone. At 10:00 UTC on a host at
    UTC+05:30, the slot of 12:00 the same day is accepted by the
    scheduling form and refused as past by the rescheduling form; on a
    host at UTC-05:00 the slot of 09:30, already past, is refused by the
    scheduling form and accepted by the rescheduling form. *)
Theorem reschedule_clean_differs_from_schedule :
  let a := Example.appt 1 "APT202501100001" Example.jan20 (mktime 9 0 0)
             Appointment.scheduled in
  (Forms.AppointmentForm_clean Example.clk_host_ahead [a] (Some 1)
     (Some Example.jan15) (Some (mktime 12 0 0)) (Some Example.dr_rao)
   = Forms.Cleaned
   /\ Forms.AppointmentRescheduleForm_clean Example.clk_host_ahead [a] (Some a)
        (Some Example.jan15) (Some (mktime 12 0 0))
      = Forms.Raise Forms.past_reschedule_message)
  /\ (Forms.AppointmentForm_clean Example.clk_host_behind [a] (Some 1)
        (Some Example.jan15) (Some (mktime 9 30 0)) (Some Example.dr_rao)
      = Forms.Raise Forms.past_schedule_message
      /\ Forms.AppointmentRescheduleForm_clean Example.clk_host_behind [a] (Some a)
           (Some Example.jan15) (Some (mktime 9 30 0))
         = Forms.Cleaned).
Proof. vm_compute. repeat split; reflexivity. Qed.

(** ** The queue listing *)

Lemma order_leb_total (a b : Queue.t) :
  Queue.order_leb a b = true \/ Queue.order_leb b a = true.
Proof.
  unfold Queue.order_leb.
  destruct (Queue.priority a), (Queue.priority b); simpl; auto;
    destruct (Z.leb_spec (Queue.arrival_time a) (Queue.arrival_time b));
    destruct (Z.leb_spec (Queue.arrival_time b) (Queue.arrival_time a)); auto; lia.
Qed.

Lemma order_leb_trans (a b c : Queue.t) :
  Queue.order_leb a b = true -> Queue.order_leb b c = true ->
  Queue.order_leb a c = true.
Proof.
  unfold Queue.order_leb.
  destruct (Queue.priority a), (Queue.priority b), (Queue.priority c); simpl;
    try discriminate; try reflexivity;
    rewrite !Z.leb_le; lia.
Qed.

Lemma insert_ordered_perm (x : Queue.t) (l : Queue.table) :
  Permutation (x :: l) (Queue.insert_ordered x l).
Proof.
  induction l as [|y r IH]; simpl.
  - apply Permutation_refl.
  - destruct (Queue.order_leb x y).
    + apply Permutation_refl.
    + eapply perm_trans; [apply perm_swap|]. apply perm_skip, IH.
Qed.

Lemma insert_ordered_sorted (x : Queue.t) (l : Queue.table) :
  StronglySorted textual_queue_order l ->
  StronglySorted textual_queue_order (Queue.insert_ordered x l).
Proof.
  induction 1 as [|y r Hs IH Hall]; simpl.
  - constructor; constructor.
  - destruct (Queue.order_leb x y) eqn:E.
    + constructor; [constructor; assumption|].
      constructor; [exact E|].
      rewrite Forall_forall in *. intros z Hz.
      eapply order_leb_trans; [exact E | apply Hall, Hz].
    + constructor; [exact IH|].
      rewrite Forall_forall in *. intros z Hz.
      apply Permutation_in with (l' := x :: r) in Hz;
        [|apply Permutation_sym, insert_ordered_perm].
      destruct Hz as [<- | Hz]; [|apply Hall, Hz].
      destruct (order_leb_total x y) as [C | C]; [congruence | exact C].
Qed.

(** What [order_by('priority', 'arrival_time')] yields: the same rows,
    sorted by the text of the priority and then by arrival, which puts
    emergency first, normal second and urgent last. *)
Lemma order_by_priority_arrival_sorted (q : Queue.table) :
  StronglySorted textual_queue_order (Queue.order_by_priority_arrival q)
  /\ Permutation q (Queue.order_by_priority_arrival q).
Proof.
  unfold Queue.order_by_priority_arrival.
  induction q as [|x r [IHs IHp]]; simpl.
  - split; constructor.
  - split.
    + apply insert_ordered_sorted, IHs.
    + eapply perm_trans; [apply perm_skip, IHp | apply insert_ordered_perm].
Qed.

(** The scenario of the specification holds: an emergency entry that
    arrives after two normal ones is listed first. *)
Example emergency_listed_first :
  Views.queue_management_view Example.jan15
    [QueueExample.walk_in_normal;
     QueueExample.entry 2 "Q20250115002" Queue.normal
       (combine Example.jan15 (mktime 9 5 0));
     QueueExample.walk_in_emergency]
  = [QueueExample.walk_in_emergency;
     QueueExample.walk_in_normal;
     QueueExample.entry 2 "Q20250115002" Queue.normal
       (combine Example.jan15 (mktime 9 5 0))].
Proof. vm_compute. reflexivity. Qed.

(** C2: the listing of both views is not in the order of the
    specification. With a normal entry arrived at 09:00 and an urgent one
    arrived at 09:05 on the same date, both views list the normal entry
    first: the priority column is compared as text, and "normal" sorts
    before "urgent". *)
Theorem queue_listing_normal_before_urgent :
  let db := [QueueExample.walk_in_normal; QueueExample.walk_in_urgent] in
  Views.queue_management_view Example.jan15 db
  = [QueueExample.walk_in_normal; QueueExample.walk_in_urgent]
  /\ Views.today_queue_view Example.jan15 db
     = [QueueExample.walk_in_normal; QueueExample.walk_in_urgent]
  /\ ~ StronglySorted spec_queue_order (Views.queue_management_view Example.jan15 db)
  /\ ~ StronglySorted spec_queue_order (Views.today_queue_view Example.jan15 db).
Proof.
  cbv zeta.
  assert (E1 : Views.queue_management_view Example.jan15
                 [QueueExample.walk_in_normal; QueueExample.walk_in_urgent]
               = [QueueExample.walk_in_normal; QueueExample.walk_in_urgent])
    by (vm_compute; reflexivity).
  assert (E2 : Views.today_queue_view Example.jan15
                 [QueueExample.walk_in_normal; QueueExample.walk_in_urgent]
               = [QueueExample.walk_in_normal; QueueExample.walk_in_urgent])
    by (vm_compute; reflexivity).
  rewrite E1, E2.
  assert (N : ~ StronglySorted spec_queue_order
                [QueueExample.walk_in_normal; QueueExample.walk_in_urgent]).
  { intros H. inversion H as [|x l _ Hall]; subst.
    inversion Hall as [|y l' Hxy _]; subst.
    destruct Hxy as [Hlt | [Heq _]]; simpl in *; [lia | discriminate]. }
  repeat split; assumption.
Qed.

(** ** The appointment table under [get], [save] and [create] *)

Lemma get_Some (db : Appointment.table) (k : Z) (a : Appointment.t) :
  Appointment.get db k = Some a -> In a db /\ Appointment.pk a = k.
Proof.
  unfold Appointment.get. intros H. apply find_some in H.
  destruct H as [H1 H2]. apply Z.eqb_eq in H2. auto.
Qed.

Lemma get_app_r (db : Appointment.table) (a : Appointment.t) (k : Z) :
  Appointment.get db k = None ->
  Appointment.get (db ++ [a])%list k = if Appointment.pk a =? k then Some a else None.
Proof.
  unfold Appointment.get. induction db as [|x r IH]; simpl.
  - reflexivity.
  - destruct (Appointment.pk x =? k); [discriminate | exact IH].
Qed.

Lemma get_app_l (db : Appointment.table) (a b : Appointment.t) (k : Z) :
  Appointment.get db k = Some b -> Appointment.get (db ++ [a])%list k = Some b.
Proof.
  unfold Appointment.get. induction db as [|x r IH]; simpl.
  - discriminate.
  - destruct (Appointment.pk x =? k); [trivial | exact IH].
Qed.

Lemma get_None_existsb (db : Appointment.table) (k : Z) :
  existsb (fun r => Appointment.pk r =? k) db = false <-> Appointment.get db k = None.
Proof.
  unfold Appointment.get. induction db as [|x r IH]; simpl.
  - tauto.
  - destruct (Appointment.pk x =? k); simpl; [split; discriminate | exact IH].
Qed.

Lemma get_rewrite_same (db : Appointment.table) (b : Appointment.t) :
  existsb (fun r => Appointment.pk r =? Appointment.pk b) db = true ->
  Appointment.get
    (map (fun r => if Appointment.pk r =? Appointment.pk b then b else r) db)
    (Appointment.pk b) = Some b.
Proof.
  unfold Appointment.get. induction db as [|x r IH]; simpl.
  - discriminate.
  - destruct (Appointment.pk x =? Appointment.pk b) eqn:E; simpl.
    + intros _. rewrite Z.eqb_refl. reflexivity.
    + rewrite E. exact IH.
Qed.

Lemma get_rewrite_other (db : Appointment.table) (b : Appointment.t) (k : Z) :
  k <> Appointment.pk b ->
  Appointment.get
    (map (fun r => if Appointment.pk r =? Appointment.pk b then b else r) db) k
  = Appointment.get db k.
Proof.
  intros Hk. unfold Appointment.get. induction db as [|x r IH]; simpl.
  - reflexivity.
  - destruct (Appointment.pk x =? Appointment.pk b) eqn:E.
    + apply Z.eqb_eq in E.
      assert (E1 : (Appointment.pk b =? k) = false) by (apply Z.eqb_neq; congruence).
      assert (E2 : (Appointment.pk x =? k) = false) by (apply Z.eqb_neq; congruence).
      rewrite E1, E2. exact IH.
    + destruct (Appointment.pk x =? k); [reflexivity | exact IH].
Qed.

(** After a successful [save] the table holds the instance, with its
    fresh [updated_at], under the instance's key. *)
Lemma save_get_same (clk : Clock) (db db' : Appointment.table) (b : Appointment.t) :
  Appointment.save clk db b = Some db' ->
  Appointment.get db' (Appointment.pk b)
  = Some (Appointment.set_updated_at (timezone_now clk) b).
Proof.
  unfold Appointment.save.
  destruct (Appointment.violates_unique _ _); [discriminate|].
  set (b' := Appointment.set_updated_at (timezone_now clk) b).
  change (Appointment.pk b) with (Appointment.pk b').
  destruct (existsb _ db) eqn:E; intros H; inversion H; subst; clear H.
  - exact (get_rewrite_same db b' E).
  - rewrite get_app_r by (apply get_None_existsb, E).
    rewrite Z.eqb_refl. reflexivity.
Qed.

(** ... and every other key reads what it read before. *)
Lemma save_get_other (clk : Clock) (db db' : Appointment.table)
    (b : Appointment.t) (k : Z) :
  Appointment.save clk db b = Some db' -> k <> Appointment.pk b ->
  Appointment.get db' k = Appointment.get db k.
Proof.
  unfold Appointment.save.
  destruct (Appointment.violates_unique _ _); [discriminate|].
  set (b' := Appointment.set_updated_at (timezone_now clk) b).
  intros H Hk.
  destruct (existsb _ db) eqn:E; inversion H; subst; clear H.
  - apply (get_rewrite_other db b' k). exact Hk.
  - destruct (Appointment.get db k) eqn:G.
    + apply get_app_l. exact G.
    + rewrite get_app_r by exact G.
      replace (Appointment.pk b' =? k) with false; [reflexivity|].
      symmetry. apply Z.eqb_neq. intros C. apply Hk. symmetry. exact C.
Qed.

(** The constraints look at the key, the identifier and the slot only. *)
Lemma violates_unique_ext (db : Appointment.table) (a b : Appointment.t) :
  Appointment.pk b = Appointment.pk a ->
  Appointment.appointment_id b = Appointment.appointment_id a ->
  Appointment.doctor b = Appointment.doctor a ->
  Appointment.appointment_date b = Appointment.appointment_date a ->
  Appointment.appointment_time b = Appointment.appointment_time a ->
  Appointment.violates_unique db b = Appointment.violates_unique db a.
Proof.
  intros E1 E2 E3 E4 E5. unfold Appointment.violates_unique, Appointment.same_slot.
  rewrite E1, E2, E3, E4, E5. reflexivity.
Qed.

(** A [save] that leaves key, identifier and slot alone goes through
    whenever the stored row does not clash with another row. *)
Lemma save_succeeds (clk : Clock) (db : Appointment.table) (a b : Appointment.t) :
  Appointment.violates_unique db a = false ->
  Appointment.pk b = Appointment.pk a ->
  Appointment.appointment_id b = Appointment.appointment_id a ->
  Appointment.doctor b = Appointment.doctor a ->
  Appointment.appointment_date b = Appointment.appointment_date a ->
  Appointment.appointment_time b = Appointment.appointment_time a ->
  exists db', Appointment.save clk db b = Some db'.
Proof.
  intros Hv E1 E2 E3 E4 E5. unfold Appointment.save.
  rewrite (violates_unique_ext db a) by (simpl; assumption).
  rewrite Hv. destruct (existsb _ db); eexists; reflexivity.
Qed.

Lemma next_pk_above (db : Appointment.table) (r : Appointment.t) :
  In r db -> Appointment.pk r < Appointment.next_pk db.
Proof.
  unfold Appointment.next_pk. induction db as [|x l IH]; cbn [fold_right In].
  - intros [].
  - intros [-> | H]; [lia | specialize (IH H); lia].
Qed.

Lemma get_next_pk (db : Appointment.table) :
  Appointment.get db (Appointment.next_pk db) = None.
Proof.
  destruct (Appointment.get db (Appointment.next_pk db)) eqn:G; [|reflexivity].
  apply get_Some in G. destruct G as [Hin Hpk].
  apply next_pk_above in Hin. lia.
Qed.

(** ** Status transitions: confirm, check in, complete *)

(** The three views share one shape: a test of the current status, then
    either the model method and a success message or a warning. *)
Lemma transition_shape (clk : Clock) (db : Appointment.table) (k : Z)
    (a b : Appointment.t) (permitted : list Appointment.Status)
    (target : Appointment.Status) (guard : bool) (ok_text warning_text : string) :
  Appointment.get db k = Some a ->
  (guard = true <-> In (Appointment.status a) permitted) ->
  Appointment.pk b = Appointment.pk a ->
  Appointment.appointment_id b = Appointment.appointment_id a ->
  Appointment.doctor b = Appointment.doctor a ->
  Appointment.appointment_date b = Appointment.appointment_date a ->
  Appointment.appointment_time b = Appointment.appointment_time a ->
  Appointment.status b = target ->
  guarded_transition
    (if guard then
       match Appointment.save clk db b with
       | Some db' =>
           Views.mkOutcome db' [Views.mkMessage Views.success ok_text]
             (Views.Redirect "frontdesk:appointment_detail" (Some k))
       | None => Views.mkOutcome db [] Views.ServerError
       end
     else
       Views.mkOutcome db [Views.mkMessage Views.warning warning_text]
         (Views.Redirect "frontdesk:appointment_detail" (Some k)))
    db k a permitted target warning_text.
Proof.
  intros G Hg E1 E2 E3 E4 E5 Et.
  destruct (get_Some _ _ _ G) as [_ Hk].
  unfold guarded_transition.
  destruct guard.
  - assert (P : In (Appointment.status a) permitted) by (apply Hg; reflexivity).
    destruct (Appointment.save clk db b) as [db'|] eqn:S; simpl.
    + pose proof (save_get_same _ _ _ _ S) as G'.
      rewrite E1, Hk in G'.
      split; [intros N; contradiction|]. split.
      * intros a' Ha' _. rewrite G' in Ha'. inversion Ha'. subst a'.
        split; [exact P | exact Et].
      * intros _ _. exists (Appointment.set_updated_at (timezone_now clk) b), ok_text.
        repeat split; [exact G' | exact Et].
    + split; [intros N; contradiction|]. split.
      * intros a' Ha' Hne. rewrite G in Ha'. inversion Ha'. congruence.
      * intros _ V. exfalso.
        destruct (save_succeeds clk db a b V E1 E2 E3 E4 E5) as [db' S'].
        congruence.
  - assert (N : ~ In (Appointment.status a) permitted).
    { intros C. apply Hg in C. discriminate. }
    simpl. split; [reflexivity|]. split.
    + intros a' Ha' Hne. rewrite G in Ha'. inversion Ha'. congruence.
    + intros P. contradiction.
Qed.

Lemma confirm_view_guarded (clk : Clock) (db : Appointment.table) (k : Z)
    (a : Appointment.t) :
  Appointment.get db k = Some a ->
  guarded_transition (Views.confirm_appointment_view clk db k) db k a
    [Appointment.scheduled] Appointment.confirmed
    "Appointment is already confirmed or cannot be confirmed.".
Proof.
  intros G. unfold Views.confirm_appointment_view, Appointment.mark_confirmed.
  rewrite G. cbv zeta.
  apply transition_shape; try reflexivity; try exact G.
  rewrite status_eqb_eq. simpl. intuition congruence.
Qed.

Lemma checkin_view_guarded (clk : Clock) (patient_name : Z -> string)
    (db : Appointment.table) (k : Z) (a : Appointment.t) :
  Appointment.get db k = Some a ->
  guarded_transition (Views.checkin_appointment_view clk patient_name db k) db k a
    [Appointment.scheduled; Appointment.confirmed] Appointment.checked_in
    "Cannot check in this appointment.".
Proof.
  intros G. unfold Views.checkin_appointment_view, Appointment.mark_checked_in.
  rewrite G. cbv zeta.
  apply transition_shape; try reflexivity; try exact G.
  apply status_in_In.
Qed.

Lemma complete_view_guarded (clk : Clock) (db : Appointment.table) (k : Z)
    (a : Appointment.t) :
  Appointment.get db k = Some a ->
  guarded_transition (Views.complete_appointment_view clk db k) db k a
    [Appointment.checked_in; Appointment.in_progress] Appointment.completed
    "Cannot complete this appointment.".
Proof.
  intros G. unfold Views.complete_appointment_view, Appointment.complete_appointment.
  rewrite G. cbv zeta.
  apply transition_shape; try reflexivity; try exact G.
  apply status_in_In.
Qed.

(** C6: each status-transition view is applied only from its permitted
    predecessor states (confirm from scheduled; check-in from scheduled
    or confirmed; complete from checked_in or in_progress), and from any
    other state it leaves the table as it was and answers with a warning
    message and the usual redirect, not with an error. *)
Theorem status_transitions_guarded (clk : Clock) (patient_name : Z -> string)
    (db : Appointment.table) (k : Z) (a : Appointment.t) :
  Appointment.get db k = Some a ->
  guarded_transition (Views.confirm_appointment_view clk db k) db k a
    [Appointment.scheduled] Appointment.confirmed
    "Appointment is already confirmed or cannot be confirmed."
  /\ guarded_transition (Views.checkin_appointment_view clk patient_name db k) db k a
       [Appointment.scheduled; Appointment.confirmed] Appointment.checked_in
       "Cannot check in this appointment."
  /\ guarded_transition (Views.complete_appointment_view clk db k) db k a
       [Appointment.checked_in; Appointment.in_progress] Appointment.completed
       "Cannot complete this appointment.".
Proof.
  intros G. split; [|split].
  - apply confirm_view_guarded, G.
  - apply checkin_view_guarded, G.
  - apply complete_view_guarded, G.
Qed.

(** C6 on a table with one confirmed appointment: confirming it again
    and completing it only warn, checking it in goes through. *)
Lemma status_transitions_guarded_witness :
  let a := Example.appt 1 "APT202501100001" Example.jan20 (mktime 9 0 0)
             Appointment.confirmed in
  Appointment.get [a] 1 = Some a
  /\ guarded_transition (Views.confirm_appointment_view Example.clk_utc [a] 1) [a] 1 a
       [Appointment.scheduled] Appointment.confirmed
       "Appointment is already confirmed or cannot be confirmed."
  /\ guarded_transition
       (Views.checkin_appointment_view Example.clk_utc (fun _ => "Asha Nair") [a] 1)
       [a] 1 a
       [Appointment.scheduled; Appointment.confirmed] Appointment.checked_in
       "Cannot check in this appointment."
  /\ guarded_transition (Views.complete_appointment_view Example.clk_utc [a] 1) [a] 1 a
       [Appointment.checked_in; Appointment.in_progress] Appointment.completed
       "Cannot complete this appointment.".
Proof.
  cbv zeta. split; [reflexivity|].
  apply (status_transitions_guarded Example.clk_utc (fun _ => "Asha Nair")
           [Example.appt 1 "APT202501100001" Example.jan20 (mktime 9 0 0)
              Appointment.confirmed] 1).
  reflexivity.
Defined.

(** ** Cancelling *)

Lemma can_cancel_true (clk : Clock) (a : Appointment.t) :
  Appointment.can_cancel clk a = true <->
  In (Appointment.status a) [Appointment.scheduled; Appointment.confirmed]
  /\ Appointment.is_past clk a = false.
Proof.
  unfold Appointment.can_cancel.
  rewrite andb_true_iff, negb_true_iff, status_in_In. tauto.
Qed.

Lemma cancel_view_refuses (clk : Clock) (db : Appointment.table) (k : Z)
    (a : Appointment.t) (method : Views.Method) (raw : option string)
    (staff : option Z) :
  Appointment.get db k = Some a ->
  Appointment.can_cancel clk a = false ->
  Views.cancel_appointment_view clk db k method raw staff = cancel_refused db k.
Proof.
  intros G C. unfold Views.cancel_appointment_view. rewrite G, C. reflexivity.
Qed.

(** C5: a cancel request for an appointment that is already cancelled is
    refused with an error and changes nothing, so the reason, the actor
    and the timestamp of the first cancellation stay as they are. The
    view goes through only for a status among scheduled, confirmed and a
    slot that is not past; the stored appointment then has the status
    cancelled, the reason of the form, the staff profile of the caller
    and the instant of the call, and a further cancel request is refused.
    Whenever the view does not go through, the table is left as it
    was. *)
Theorem cancel_view_guarded (clk : Clock) (db : Appointment.table) (k : Z)
    (a : Appointment.t) (method : Views.Method) (raw : option string)
    (staff : option Z) :
  Appointment.get db k = Some a ->
  let o := Views.cancel_appointment_view clk db k method raw staff in
  (Appointment.status a = Appointment.cancelled -> o = cancel_refused db k)
  /\ (cancel_succeeded o ->
      In (Appointment.status a) [Appointment.scheduled; Appointment.confirmed]
      /\ Appointment.is_past clk a = false
      /\ exists reason s a',
           method = Views.POST
           /\ Forms.AppointmentCancelForm_clean raw = Some reason
           /\ staff = Some s
           /\ Appointment.get (Views.db_after o) k = Some a'
           /\ Appointment.status a' = Appointment.cancelled
           /\ Appointment.cancellation_reason a' = reason
           /\ Appointment.cancelled_by a' = Some s
           /\ Appointment.cancelled_at a' = Some (timezone_now clk)
           /\ forall clk2 method2 raw2 staff2,
                Views.cancel_appointment_view clk2 (Views.db_after o) k
                  method2 raw2 staff2
                = cancel_refused (Views.db_after o) k)
  /\ (~ cancel_succeeded o -> Views.db_after o = db).
Proof.
  intros G o. subst o.
  destruct (get_Some _ _ _ G) as [_ Hk].
  split; [|split].
  - intros Hs. apply cancel_view_refuses with (a := a); [exact G|].
    unfold Appointment.can_cancel. rewrite Hs. reflexivity.
  - unfold cancel_succeeded, Views.cancel_appointment_view. rewrite G.
    destruct (Appointment.can_cancel clk a) eqn:C; simpl; [|discriminate].
    apply can_cancel_true in C. destruct C as [Hst Hp].
    destruct method; simpl; [discriminate|].
    destruct (Forms.AppointmentCancelForm_clean raw) as [reason|]; simpl;
      [|discriminate].
    destruct staff as [s|]; simpl; [|discriminate].
    destruct (Appointment.cancel_appointment clk db a reason (Some s))
      as [db'|] eqn:S; simpl; [|discriminate].
    intros _. split; [exact Hst|]. split; [exact Hp|].
    unfold Appointment.cancel_appointment in S.
    pose proof (save_get_same _ _ _ _ S) as G'. simpl in G'. rewrite Hk in G'.
    eexists reason, s, _.
    do 3 (split; [reflexivity|]). split; [exact G'|].
    do 4 (split; [reflexivity|]).
    intros clk2 method2 raw2 staff2.
    eapply cancel_view_refuses; [exact G' | reflexivity].
  - unfold cancel_succeeded, Views.cancel_appointment_view. rewrite G.
    destruct (Appointment.can_cancel clk a); simpl; [|reflexivity].
    destruct method; simpl; [reflexivity|].
    destruct (Forms.AppointmentCancelForm_clean raw); simpl; [|reflexivity].
    destruct staff; simpl; [|reflexivity].
    destruct (Appointment.cancel_appointment clk db a _ _); simpl; [|reflexivity].
    intros N. exfalso. apply N. reflexivity.
Qed.

(** C5 on one scheduled appointment of 20 January, cancelled on 15
    January: the stored row after the request. *)
Lemma cancel_view_guarded_witness :
  let a := Example.appt 1 "APT202501100001" Example.jan20 (mktime 9 0 0)
             Appointment.scheduled in
  let o := Views.cancel_appointment_view Example.clk_utc [a] 1 Views.POST
             (Some " patient called ") (Some 4) in
  cancel_succeeded o
  /\ (exists a', Appointment.get (Views.db_after o) 1 = Some a'
                 /\ Appointment.status a' = Appointment.cancelled
                 /\ Appointment.cancellation_reason a' = "patient called"
                 /\ Appointment.cancelled_by a' = Some 4
                 /\ Appointment.cancelled_at a' = Some (utc_now Example.clk_utc)).
Proof.
  cbv zeta.
  assert (S : cancel_succeeded
                (Views.cancel_appointment_view Example.clk_utc
                   [Example.appt 1 "APT202501100001" Example.jan20 (mktime 9 0 0)
                      Appointment.scheduled] 1 Views.POST
                   (Some " patient called ") (Some 4)))
    by (vm_compute; reflexivity).
  split; [exact S|].
  destruct (cancel_view_guarded Example.clk_utc
              [Example.appt 1 "APT202501100001" Example.jan20 (mktime 9 0 0)
                 Appointment.scheduled] 1
              (Example.appt 1 "APT202501100001" Example.jan20 (mktime 9 0 0)
                 Appointment.scheduled)
              Views.POST (Some " patient called ") (Some 4) eq_refl)
    as [_ [H _]].
  destruct (H S) as [_ [_ [reason [s [a' [_ [Hr [Hs [Hg [Hst [Hcr [Hby [Hat _]]]]]]]]]]]]].
  exists a'. 
  assert (reason = "patient called") by (vm_compute in Hr; congruence).
  assert (s = 4) by congruence.
  subst. repeat split; assumption.
Defined.

(** ** Rescheduling *)

Lemma get_app_other (db : Appointment.table) (c : Appointment.t) (j : Z) :
  j <> Appointment.pk c ->
  Appointment.get (db ++ [c])%list j = Appointment.get db j.
Proof.
  intros Hj. destruct (Appointment.get db j) eqn:G.
  - apply get_app_l, G.
  - rewrite get_app_r by exact G.
    destruct (Z.eqb_spec (Appointment.pk c) j); [congruence | reflexivity].
Qed.

(** C3: when the reschedule view goes through for the stored appointment
    [a] with key [k], the appointment had a status among scheduled,
    confirmed and was not past; the table holds a new appointment, under
    a key that was not in use, with the patient, doctor, duration,
    appointment type and reason for visit of [a], the requested date and
    time and [rescheduled_from] pointing to [k]; the original is still
    stored under [k], with status rescheduled and the doctor, date and
    time it had; and no other key reads differently. *)
Theorem reschedule_creates_linked_copy
    (clk : Clock) (today : date) (rng : nat -> nat) (db : Appointment.table)
    (k : Z) (a : Appointment.t) (method : Views.Method)
    (new_date : option date) (new_time : option time) (reason : string)
    (new_pk : Z) :
  Appointment.get db k = Some a ->
  let o := Views.reschedule_appointment_view clk today rng db k method
             new_date new_time reason in
  reschedule_succeeded o new_pk ->
  In (Appointment.status a) [Appointment.scheduled; Appointment.confirmed]
  /\ Appointment.is_past clk a = false
  /\ new_pk <> k
  /\ Appointment.get db new_pk = None
  /\ (exists n d tm,
        new_date = Some d /\ new_time = Some tm
        /\ Appointment.get (Views.db_after o) new_pk = Some n
        /\ Appointment.patient n = Appointment.patient a
        /\ Appointment.doctor n = Appointment.doctor a
        /\ Appointment.duration n = Appointment.duration a
        /\ Appointment.appointment_type n = Appointment.appointment_type a
        /\ Appointment.reason_for_visit n = Appointment.reason_for_visit a
        /\ Appointment.rescheduled_from n = Some k
        /\ Appointment.appointment_date n = d
        /\ Appointment.appointment_time n = tm
        /\ Appointment.status n = Appointment.scheduled)
  /\ (exists a',
        Appointment.get (Views.db_after o) k = Some a'
        /\ Appointment.status a' = Appointment.rescheduled
        /\ Appointment.appointment_id a' = Appointment.appointment_id a
        /\ Appointment.patient a' = Appointment.patient a
        /\ Appointment.doctor a' = Appointment.doctor a
        /\ Appointment.appointment_date a' = Appointment.appointment_date a
        /\ Appointment.appointment_time a' = Appointment.appointment_time a)
  /\ (forall j, j <> k -> j <> new_pk ->
        Appointment.get (Views.db_after o) j = Appointment.get db j).
Proof.
  intros G o. subst o.
  destruct (get_Some _ _ _ G) as [Hin Hk].
  unfold reschedule_succeeded, Views.reschedule_appointment_view. rewrite G.
  destruct (Appointment.can_reschedule clk a) eqn:C; simpl.
  2:{ intros [_ [msg Hm]]. discriminate. }
  apply can_cancel_true in C. destruct C as [Hst Hp].
  destruct method; [intros [H _]; discriminate|].
  destruct new_date as [d|]; [|intros [H _]; discriminate].
  destruct new_time as [tm|]; [|intros [H _]; discriminate].
  destruct (Forms.AppointmentRescheduleForm_is_valid _ _ _ _ _);
    [|intros [H _]; discriminate].
  unfold Appointment.create.
  destruct (Appointment.violates_unique db _); [intros [H _]; discriminate|].
  set (c := Appointment.mk (Appointment.next_pk db) _ _ _ _ _ _ _ _ _ _ _ _ _ _ _ _ _ _ _ _ _ _ _ _ _ _ _).
  set (n := Appointment.set_appointment_id _ c).
  destruct (Appointment.save clk (db ++ [c])%list n) as [db2|] eqn:S2;
    [|intros [H _]; discriminate].
  set (old := Appointment.set_notes _ _).
  destruct (Appointment.save clk db2 old) as [db3|] eqn:S3;
    [|intros [H _]; discriminate].
  simpl. intros [Hr _]. inversion Hr as [Hnew]. clear Hr.
  assert (Hfresh : Appointment.next_pk db <> k).
  { apply next_pk_above in Hin. lia. }
  assert (Hold : Appointment.pk old = k) by exact Hk.
  assert (Hn : Appointment.pk n = Appointment.next_pk db) by reflexivity.
  split; [exact Hst|]. split; [exact Hp|]. split; [exact Hfresh|].
  split; [apply get_next_pk|].
  split; [|split].
  - exists (Appointment.set_updated_at (timezone_now clk) n), d, tm.
    do 2 (split; [reflexivity|]). split.
    + rewrite (save_get_other _ _ _ _ _ S3) by (rewrite Hold; exact Hfresh).
      rewrite <- Hn. apply (save_get_same _ _ _ _ S2).
    + simpl. rewrite Hk. repeat split; reflexivity.
  - exists (Appointment.set_updated_at (timezone_now clk) old).
    split; [|repeat split; reflexivity].
    rewrite <- Hold. apply (save_get_same _ _ _ _ S3).
  - intros j Hj1 Hj2.
    rewrite (save_get_other _ _ _ _ _ S3) by (rewrite Hold; exact Hj1).
    rewrite (save_get_other _ _ _ _ _ S2) by (rewrite Hn; exact Hj2).
    apply get_app_other. exact Hj2.
Qed.

(** C3 on one scheduled appointment of 20 January 09:00, moved to 10:00
    on 15 January: the new row under key 2 points back to key 1, which
    still holds the original, now rescheduled. *)
Lemma reschedule_creates_linked_copy_witness :
  let a := Example.appt 1 "APT202501100001" Example.jan20 (mktime 9 0 0)
             Appointment.scheduled in
  let o := Views.reschedule_appointment_view Example.clk_utc Example.jan15
             (fun j => j) [a] 1 Views.POST
             (Some Example.jan20) (Some (mktime 10 0 0)) "doctor away" in
  reschedule_succeeded o 2
  /\ (exists n, Appointment.get (Views.db_after o) 2 = Some n
                /\ Appointment.rescheduled_from n = Some 1
                /\ Appointment.doctor n = 7)
  /\ (exists a', Appointment.get (Views.db_after o) 1 = Some a'
                 /\ Appointment.status a' = Appointment.rescheduled
                 /\ Appointment.appointment_time a' = mktime 9 0 0).
Proof.
  cbv zeta.
  assert (S : reschedule_succeeded
                (Views.reschedule_appointment_view Example.clk_utc Example.jan15
                   (fun j => j)
                   [Example.appt 1 "APT202501100001" Example.jan20 (mktime 9 0 0)
                      Appointment.scheduled] 1 Views.POST
                   (Some Example.jan20) (Some (mktime 10 0 0)) "doctor away") 2).
  { split; [vm_compute; reflexivity|]. eexists. vm_compute. reflexivity. }
  split; [exact S|].
  destruct (reschedule_creates_linked_copy Example.clk_utc Example.jan15
              (fun j => j)
              [Example.appt 1 "APT202501100001" Example.jan20 (mktime 9 0 0)
                 Appointment.scheduled] 1
              (Example.appt 1 "APT202501100001" Example.jan20 (mktime 9 0 0)
                 Appointment.scheduled)
              Views.POST (Some Example.jan20) (Some (mktime 10 0 0)) "doctor away"
              2 eq_refl S)
    as [_ [_ [_ [_ [[n [d [tm Hn]]] [[a' Ha'] _]]]]]].
  split.
  - exists n. intuition.
  - exists a'. intuition.
Defined.

(** ** Available time slots *)

Lemma is_booked_spec (appts : Appointment.table) (self : DoctorAvailability.t)
    (tm : time) :
  DoctorAvailability.is_booked appts self tm = true <->
  exists a, In a appts
            /\ occupies (DoctorAvailability.doctor self)
                 (DoctorAvailability.date_ self) tm a.
Proof.
  unfold DoctorAvailability.is_booked. rewrite exists_true.
  split; intros [a H]; exists a; apply filter_active_slot_In; exact H.
Qed.

(** The loop, run from [cur] with [n] slot starts left below the end. *)
Lemma slots_loop_run (appts : Appointment.table) (self : DoctorAvailability.t)
    (end_ d : Z) (n : nat) :
  forall (cur : Z) (acc : list DoctorAvailability.Slot) (fuel : nat),
    (n < fuel)%nat ->
    end_ <= cur + Z.of_nat n * timedelta_minutes d ->
    (forall i, (i < n)%nat -> cur + Z.of_nat i * timedelta_minutes d < end_) ->
    DoctorAvailability.slots_loop fuel appts self cur end_ d acc
    = Some (acc ++ map (fun i =>
                          let tm := time_of (cur + Z.of_nat i * timedelta_minutes d) in
                          DoctorAvailability.mkSlot tm
                            (negb (DoctorAvailability.is_booked appts self tm)))
                       (seq 0 n))%list.
Proof.
  induction n as [|m IH]; intros cur acc fuel Hf Hend Hlt.
  - destruct fuel as [|f]; [lia|]. simpl.
    replace (cur <? end_) with false by (symmetry; apply Z.ltb_ge; lia).
    rewrite app_nil_r. reflexivity.
  - destruct fuel as [|f]; [lia|]. cbn [DoctorAvailability.slots_loop].
    assert (H0 : cur < end_).
    { specialize (Hlt 0%nat). simpl in Hlt. rewrite Z.add_0_r in Hlt. apply Hlt. lia. }
    replace (cur <? end_) with true by (symmetry; apply Z.ltb_lt; exact H0).
    rewrite IH.
    + rewrite <- app_assoc. f_equal. f_equal. cbn [seq map app].
      replace (cur + Z.of_nat 0 * timedelta_minutes d) with cur by lia.
      f_equal. rewrite <- seq_shift, map_map. apply map_ext. intros i.
      replace (cur + timedelta_minutes d + Z.of_nat i * timedelta_minutes d)
        with (cur + Z.of_nat (S i) * timedelta_minutes d) by lia.
      reflexivity.
    + lia.
    + lia.
    + intros i Hi. specialize (Hlt (S i)). 
      replace (cur + timedelta_minutes d + Z.of_nat i * timedelta_minutes d)
        with (cur + Z.of_nat (S i) * timedelta_minutes d) by lia.
      apply Hlt. lia.
Qed.

Lemma slot_count_reaches_end (start end_ step : Z) :
  0 < step ->
  end_ <= start + Z.of_nat (slot_count start end_ step) * step.
Proof.
  intros Hs. unfold slot_count.
  pose proof (Z.div_mod (end_ - start + step - 1) step ltac:(lia)) as E.
  pose proof (Z.mod_pos_bound (end_ - start + step - 1) step Hs) as B.
  set (q := (end_ - start + step - 1) / step) in *.
  destruct (Z_lt_le_dec q 0) as [Hq | Hq].
  - replace (Z.to_nat q) with 0%nat by lia. simpl. nia.
  - rewrite Z2Nat.id by exact Hq. nia.
Qed.

Lemma slot_count_below_end (start end_ step : Z) (i : nat) :
  0 < step -> (i < slot_count start end_ step)%nat ->
  start + Z.of_nat i * step < end_.
Proof.
  intros Hs Hi. unfold slot_count in Hi.
  pose proof (Z.div_mod (end_ - start + step - 1) step ltac:(lia)) as E.
  pose proof (Z.mod_pos_bound (end_ - start + step - 1) step Hs) as B.
  set (q := (end_ - start + step - 1) / step) in *.
  assert (Hq : Z.of_nat i < q) by lia.
  nia.
Qed.

Lemma slot_starts_In (start end_ step t : Z) :
  0 < step ->
  In t (slot_starts start end_ step) <->
  exists i, 0 <= i /\ t = start + i * step /\ t < end_.
Proof.
  intros Hs. unfold slot_starts. rewrite in_map_iff. split.
  - intros [i [<- Hi]]. apply in_seq in Hi. exists (Z.of_nat i).
    split; [lia|]. split; [reflexivity|].
    apply slot_count_below_end; [exact Hs | lia].
  - intros [i [Hi [-> Hlt]]]. exists (Z.to_nat i).
    rewrite Z2Nat.id by exact Hi. split; [reflexivity|].
    apply in_seq. split; [lia|]. simpl.
    pose proof (slot_count_reaches_end start end_ step Hs) as R.
    destruct (Nat.lt_ge_cases (Z.to_nat i) (slot_count start end_ step)) as [L | L];
      [exact L|].
    exfalso.
    assert (Z.of_nat (slot_count start end_ step) <= i) by lia.
    nia.
Qed.

Lemma slot_starts_sorted (start end_ step : Z) :
  0 < step -> StronglySorted Z.lt (slot_starts start end_ step).
Proof.
  intros Hs. unfold slot_starts.
  generalize (slot_count start end_ step) as n. intros n.
  generalize 0%nat as b. induction n as [|m IH]; intros b; simpl.
  - constructor.
  - constructor; [apply IH|].
    apply Forall_forall. intros t Ht. apply in_map_iff in Ht.
    destruct Ht as [i [<- Hi]]. apply in_seq in Hi. nia.
Qed.

Lemma time_of_same_day (today : date) (t : Z) :
  valid_time t -> time_of (combine today t) = t.
Proof.
  intros V. unfold time_of, combine, valid_time in *.
  rewrite Z.add_comm, Z_mod_plus_full. apply Z.mod_small. exact V.
Qed.

Lemma timedelta_minutes_pos (d : Z) : 0 < d -> 0 < timedelta_minutes d.
Proof. unfold timedelta_minutes, usec_per_minute, usec_per_second. lia. Qed.

(** With enough iterations allowed, the loop returns one entry per slot
    start of the window, in order. *)
Lemma available_time_slots_closed_form
    (appts : Appointment.table) (today : date) (self : DoctorAvailability.t)
    (d : Z) (fuel : nat) :
  0 < d ->
  valid_time (DoctorAvailability.start_time self) ->
  valid_time (DoctorAvailability.end_time self) ->
  (slot_count (DoctorAvailability.start_time self) (DoctorAvailability.end_time self)
     (timedelta_minutes d) < fuel)%nat ->
  DoctorAvailability.get_available_time_slots fuel appts today self d
  = Some (map (fun tm => DoctorAvailability.mkSlot tm
                           (negb (DoctorAvailability.is_booked appts self tm)))
              (slot_starts (DoctorAvailability.start_time self)
                 (DoctorAvailability.end_time self) (timedelta_minutes d))).
Proof.
  intros Hd Vs Ve Hf.
  pose proof (timedelta_minutes_pos d Hd) as Hstep.
  unfold DoctorAvailability.get_available_time_slots.
  set (start := DoctorAvailability.start_time self) in *.
  set (end_ := DoctorAvailability.end_time self) in *.
  rewrite (slots_loop_run appts self (combine today end_) d
             (slot_count start end_ (timedelta_minutes d))).
  - cbn [app]. f_equal. unfold slot_starts. rewrite map_map.
    apply map_ext_in. intros i Hi. apply in_seq in Hi. cbv zeta.
    assert (L : start + Z.of_nat i * timedelta_minutes d < end_)
      by (apply slot_count_below_end; [exact Hstep | lia]).
    replace (combine today start + Z.of_nat i * timedelta_minutes d)
      with (combine today (start + Z.of_nat i * timedelta_minutes d))
      by (unfold combine; lia).
    rewrite time_of_same_day; [reflexivity|].
    unfold valid_time in *. split; [nia | lia].
  - exact Hf.
  - pose proof (slot_count_reaches_end start end_ _ Hstep). unfold combine. lia.
  - intros i Hi. pose proof (slot_count_below_end start end_ _ i Hstep Hi).
    unfold combine. lia.
Qed.

(** C7: for a window with valid times and a positive slot duration [d],
    [get_available_time_slots] returns (the loop ends, within one more
    iteration than there are slots) one entry per slot start
    [start, start + d, start + 2d, ...] strictly below the end of the
    window, in ascending order, and an entry is marked unavailable
    exactly when a stored appointment of that doctor and date starts at
    that time with a status among scheduled, confirmed, checked_in. For
    the window 09:00 to 12:00 with 30-minute slots and one scheduled
    appointment at 09:30, the 09:30 entry is booked and the entries of
    09:00, 10:00, 10:30, 11:00 and 11:30 are available. *)
Theorem available_time_slots_spec
    (appts : Appointment.table) (today : date) (self : DoctorAvailability.t)
    (d : Z) :
  0 < d ->
  valid_time (DoctorAvailability.start_time self) ->
  valid_time (DoctorAvailability.end_time self) ->
  let start := DoctorAvailability.start_time self in
  let end_ := DoctorAvailability.end_time self in
  let step := timedelta_minutes d in
  (forall fuel, (slot_count start end_ step < fuel)%nat ->
     exists slots,
       DoctorAvailability.get_available_time_slots fuel appts today self d = Some slots
       /\ map DoctorAvailability.slot_time slots = slot_starts start end_ step
       /\ forall s, In s slots ->
            (DoctorAvailability.available s = false <->
             exists a, In a appts
                       /\ occupies (DoctorAvailability.doctor self)
                            (DoctorAvailability.date_ self)
                            (DoctorAvailability.slot_time s) a))
  /\ (forall t, In t (slot_starts start end_ step) <->
                exists i, 0 <= i /\ t = start + i * step /\ t < end_)
  /\ StronglySorted Z.lt (slot_starts start end_ step)
  /\ DoctorAvailability.get_available_time_slots 7 SlotExample.booked_0930 today
       SlotExample.morning 30
     = Some [DoctorAvailability.mkSlot (mktime 9 0 0) true;
             DoctorAvailability.mkSlot (mktime 9 30 0) false;
             DoctorAvailability.mkSlot (mktime 10 0 0) true;
             DoctorAvailability.mkSlot (mktime 10 30 0) true;
             DoctorAvailability.mkSlot (mktime 11 0 0) true;
             DoctorAvailability.mkSlot (mktime 11 30 0) true].
Proof.
  intros Hd Vs Ve start end_ step.
  pose proof (timedelta_minutes_pos d Hd) as Hstep.
  split; [|split; [|split]].
  - intros fuel Hf. eexists. split.
    + apply available_time_slots_closed_form; assumption.
    + split.
      * rewrite map_map. simpl. apply map_id.
      * intros s Hs. apply in_map_iff in Hs. destruct Hs as [tm [<- _]]. simpl.
        rewrite negb_false_iff. apply is_booked_spec.
  - intros t. apply slot_starts_In. exact Hstep.
  - apply slot_starts_sorted. exact Hstep.
  - rewrite available_time_slots_closed_form.
    + vm_compute. reflexivity.
    + lia.
    + vm_compute. split; [discriminate | reflexivity].
    + vm_compute. split; [discriminate | reflexivity].
    + vm_compute. lia.
Qed.

(** C7 on the window of the scenario with 45-minute slots: four slot
    starts, 09:00, 09:45, 10:30 and 11:15. *)
Lemma available_time_slots_spec_witness :
  (0 < 45)
  /\ slot_starts (mktime 9 0 0) (mktime 12 0 0) (timedelta_minutes 45)
     = [mktime 9 0 0; mktime 9 45 0; mktime 10 30 0; mktime 11 15 0]
  /\ exists slots,
       DoctorAvailability.get_available_time_slots 5 SlotExample.booked_0930
         Example.jan15 SlotExample.morning 45 = Some slots
       /\ map DoctorAvailability.slot_time slots
          = slot_starts (mktime 9 0 0) (mktime 12 0 0) (timedelta_minutes 45).
Proof.
  split; [lia|]. split; [vm_compute; reflexivity|].
  destruct (available_time_slots_spec SlotExample.booked_0930 Example.jan15
              SlotExample.morning 45) as [H _].
  - lia.
  - vm_compute. split; [discriminate | reflexivity].
  - vm_compute. split; [discriminate | reflexivity].
  - destruct (H 5%nat) as [slots [E [M _]]].
    + vm_compute. lia.
    + exists slots. split; [exact E | exact M].
Defined.

(** ** Decimal digits: what [format] writes, [int] reads back *)

Lemma digit_not_special (c : ascii) :
  PyStr.is_digit c = true ->
  PyStr.is_space c = false /\ c <> "P"%char /\ c <> "-"%char /\ c <> "+"%char.
Proof.
  destruct c as [[] [] [] [] [] [] [] []]; vm_compute; intros H;
    try discriminate H; repeat split; discriminate.
Qed.

Lemma rstrip_digits (s : string) :
  all_digits s = true -> PyStr.rstrip s = s.
Proof.
  induction s as [|c r IH]; [reflexivity|].
  cbn [all_digits]. rewrite andb_true_iff. intros [Hc Hr].
  destruct (digit_not_special c Hc) as [Hs _].
  cbn [PyStr.rstrip]. rewrite IH by exact Hr. rewrite Hs.
  destruct r; reflexivity.
Qed.

Lemma parse_digits_value (s : string) :
  all_digits s = true ->
  forall acc b, (s <> "" \/ b = true) ->
    PyStr.parse_digits s acc b = Some (decimal_value_from s acc).
Proof.
  induction s as [|c r IH]; intros H acc b Hne.
  - destruct Hne as [C | ->]; [congruence | reflexivity].
  - cbn [all_digits] in H. apply andb_true_iff in H. destruct H as [Hc Hr].
    cbn [PyStr.parse_digits decimal_value_from]. rewrite Hc.
    apply IH; [exact Hr | right; reflexivity].
Qed.

(** [int] of a non-empty string of digits is its decimal value. *)
Lemma int_digits (ds : string) :
  ds <> "" -> all_digits ds = true -> PyStr.int ds = Some (decimal_value ds).
Proof.
  intros Hne H. unfold PyStr.int, PyStr.strip.
  destruct ds as [|c r]; [congruence|].
  pose proof H as H'. cbn [all_digits] in H'. apply andb_true_iff in H'.
  destruct H' as [Hc _].
  destruct (digit_not_special c Hc) as [Hs [_ [Hm Hp]]].
  cbn [PyStr.lstrip]. rewrite Hs. rewrite rstrip_digits by exact H.
  assert (P : PyStr.parse_digits (String c r) 0 false
              = Some (decimal_value (String c r))).
  { apply parse_digits_value; [exact H | left; discriminate]. }
  destruct c as [[] [] [] [] [] [] [] []];
    try (exfalso; apply Hm; reflexivity);
    try (exfalso; apply Hp; reflexivity);
    exact P.
Qed.

Lemma all_digits_app (s t : string) :
  all_digits (s ++ t) = all_digits s && all_digits t.
Proof.
  induction s as [|c r IH]; [reflexivity|].
  cbn [String.append all_digits]. rewrite IH, andb_assoc. reflexivity.
Qed.

Lemma zeros_digits (n : nat) : all_digits (PyStr.zeros n) = true.
Proof. induction n as [|n IH]; [reflexivity | exact IH]. Qed.

Lemma zeros_length (n : nat) : String.length (PyStr.zeros n) = n.
Proof. induction n as [|n IH]; [reflexivity | simpl; f_equal; exact IH]. Qed.

Lemma decimal_value_zeros (n : nat) (s : string) :
  decimal_value_from (PyStr.zeros n ++ s) 0 = decimal_value_from s 0.
Proof. induction n as [|n IH]; [reflexivity | exact IH]. Qed.

Lemma string_of_uint_digits (d : Decimal.uint) :
  all_digits (NilEmpty.string_of_uint d) = true.
Proof. induction d; [reflexivity | exact IHd ..]. Qed.

Lemma string_of_uint_value (d : Decimal.uint) :
  forall acc, decimal_value_from (NilEmpty.string_of_uint d) acc = uint_value d acc.
Proof. induction d; intros acc; [reflexivity | apply IHd ..]. Qed.

Lemma of_uint_acc_value (d : Decimal.uint) :
  forall acc, Z.pos (Pos.of_uint_acc d acc) = uint_value d (Z.pos acc).
Proof.
  induction d; intros acc; cbn [Pos.of_uint_acc uint_value];
    [reflexivity | rewrite IHd; f_equal; lia ..].
Qed.

Lemma of_uint_value (d : Decimal.uint) : Z.of_N (Pos.of_uint d) = uint_value d 0.
Proof.
  induction d; cbn [Pos.of_uint uint_value];
    [reflexivity | exact IHd | cbn [Z.of_N]; rewrite of_uint_acc_value; reflexivity ..].
Qed.

(** [str(n)] of a number that is not negative: a non-empty string of
    digits whose value is [n]. *)
Lemma str_int_digits (n : Z) :
  0 <= n ->
  PyStr.str_int n <> "" /\ all_digits (PyStr.str_int n) = true
  /\ decimal_value (PyStr.str_int n) = n.
Proof.
  intros Hn. destruct n as [|p|p]; [| |lia].
  - vm_compute. repeat split. discriminate.
  - unfold PyStr.str_int. cbn [Z.to_int NilZero.string_of_int].
    pose proof (Unsigned.of_to p) as R.
    pose proof (of_uint_value (Pos.to_uint p)) as V. rewrite R in V. cbn [Z.of_N] in V.
    unfold NilZero.string_of_uint.
    destruct (Pos.to_uint p) eqn:E; [discriminate R | ..];
      (split; [discriminate|]);
      (split; [apply string_of_uint_digits|]);
      unfold decimal_value; rewrite string_of_uint_value; symmetry; exact V.
Qed.

(** The format [0<width>d] of a number that is not negative. *)
Lemma format_0d_digits (width : nat) (n : Z) :
  0 <= n ->
  PyStr.format_0d width n <> "" /\ all_digits (PyStr.format_0d width n) = true
  /\ decimal_value (PyStr.format_0d width n) = n.
Proof.
  intros Hn. destruct (str_int_digits n Hn) as [Hne [Hd Hv]].
  unfold PyStr.format_0d.
  replace (n <? 0) with false by (symmetry; apply Z.ltb_ge; exact Hn).
  rewrite Z.abs_eq by exact Hn. cbn [String.append String.length].
  split; [|split].
  - destruct (PyStr.zeros _); [exact Hne | discriminate].
  - rewrite all_digits_app, zeros_digits. exact Hd.
  - unfold decimal_value. rewrite decimal_value_zeros. exact Hv.
Qed.

(** What [format] writes, [int] reads back. *)
Lemma int_format_0d (width : nat) (n : Z) :
  0 <= n -> PyStr.int (PyStr.format_0d width n) = Some n.
Proof.
  intros Hn. destruct (format_0d_digits width n Hn) as [Hne [Hd Hv]].
  rewrite int_digits by assumption. rewrite Hv. reflexivity.
Qed.

Lemma format_0d_inj (width : nat) (n m : Z) :
  0 <= n -> 0 <= m -> PyStr.format_0d width n = PyStr.format_0d width m -> n = m.
Proof.
  intros Hn Hm E. pose proof (int_format_0d width n Hn) as R.
  rewrite E, (int_format_0d width m Hm) in R. congruence.
Qed.

(** Below [10 ^ width] the format has exactly [width] characters. *)
Lemma format_0d_length (width : nat) (bound : Z) (n : Z) :
  forallb (fun i => Nat.eqb (String.length (PyStr.format_0d width (Z.of_nat i))) width)
          (seq 0 (Z.to_nat bound)) = true ->
  0 <= n < bound ->
  String.length (PyStr.format_0d width n) = width.
Proof.
  intros A Hn. rewrite forallb_forall in A. specialize (A (Z.to_nat n)).
  rewrite Z2Nat.id in A by lia. apply Nat.eqb_eq, A, in_seq. lia.
Qed.

Lemma format_04d_length (n : Z) :
  0 <= n <= 9999 -> String.length (PyStr.format_0d 4 n) = 4%nat.
Proof.
  intros H. apply (format_0d_length 4 10000); [vm_compute; reflexivity | lia].
Qed.

Lemma format_03d_length (n : Z) :
  0 <= n <= 999 -> String.length (PyStr.format_0d 3 n) = 3%nat.
Proof.
  intros H. apply (format_0d_length 3 1000); [vm_compute; reflexivity | lia].
Qed.

Lemma format_02d_length (n : Z) :
  0 <= n <= 99 -> String.length (PyStr.format_0d 2 n) = 2%nat.
Proof.
  intros H. apply (format_0d_length 2 100); [vm_compute; reflexivity | lia].
Qed.

Lemma append_inj_length (a b c d : string) :
  String.length a = String.length c -> (a ++ b = c ++ d)%string -> a = c /\ b = d.
Proof.
  revert c. induction a as [|x a IH]; intros [|y c] L E; try discriminate L.
  - split; [reflexivity | exact E].
  - cbn [String.append] in E. inversion E. subst y.
    destruct (IH c) as [-> ->]; [simpl in L; lia | assumption | split; reflexivity].
Qed.

Lemma strftime_Ymd_length (d : date) :
  valid_date d -> String.length (strftime_Ymd d) = 8%nat.
Proof.
  intros [Hy [Hm Hd]]. unfold strftime_Ymd.
  assert (L : forall a b, String.length (a ++ b) = (String.length a + String.length b)%nat).
  { induction a as [|x a IH]; intros b; [reflexivity | simpl; f_equal; apply IH]. }
  rewrite !L, format_04d_length, !format_02d_length by lia. reflexivity.
Qed.

Lemma strftime_Ymd_inj (d d' : date) :
  valid_date d -> valid_date d' -> strftime_Ymd d = strftime_Ymd d' -> d = d'.
Proof.
  intros [Hy [Hm Hd]] [Hy' [Hm' Hd']] E. unfold strftime_Ymd in E.
  apply append_inj_length in E.
  2:{ rewrite !format_04d_length by lia. reflexivity. }
  destruct E as [E1 E].
  apply append_inj_length in E.
  2:{ rewrite !format_02d_length by lia. reflexivity. }
  destruct E as [E2 E3].
  apply format_0d_inj in E1; [|lia|lia].
  apply format_0d_inj in E2; [|lia|lia].
  apply format_0d_inj in E3; [|lia|lia].
  destruct d, d'. simpl in *. congruence.
Qed.

(** Two queue numbers are the same only for the same date and the same
    sequence. *)
Lemma daily_number_inj (d d' : date) (k k' : Z) :
  valid_date d -> valid_date d' -> 0 <= k -> 0 <= k' ->
  daily_number d k = daily_number d' k' -> d = d' /\ k = k'.
Proof.
  intros V V' Hk Hk' E. unfold daily_number in E.
  cbn [String.append] in E. inversion E as [E0]. clear E.
  apply append_inj_length in E0.
  2:{ rewrite !strftime_Ymd_length by assumption. reflexivity. }
  destruct E0 as [E1 E2]. split.
  - apply strftime_Ymd_inj; assumption.
  - apply (format_0d_inj 3); assumption.
Qed.

(** ** Queue numbers *)

Lemma filter_date_app (d : date) (db : Queue.table) (e : Queue.t) :
  List.length (Queue.filter_date d (db ++ [e])%list)
  = (List.length (Queue.filter_date d db)
     + (if date_eqb (Queue.queue_date e) d then 1 else 0))%nat.
Proof.
  unfold Queue.filter_date. rewrite filter_app, length_app. cbn [filter].
  destruct (date_eqb (Queue.queue_date e) d); reflexivity.
Qed.

(** What an enqueue request that goes through stores. *)
Lemma add_to_queue_stored (clk : Clock) (today : date) (db db' : Queue.table)
    (data : Forms.QueueData) (staff : Z) (e : Queue.t) :
  Views.add_to_queue_view clk today db data staff = Some (db', e) ->
  db' = (db ++ [e])%list
  /\ Queue.pk e = Queue.next_pk db
  /\ Queue.queue_date e = today
  /\ Queue.queue_number e = Queue.generate_queue_number today db
  /\ Queue.status e = Queue.waiting
  /\ Queue.doctor e = Forms.q_doctor data
  /\ Queue.estimated_wait_time e
     = match Forms.q_doctor data with
       | Some d => Z.of_nat (List.length (filter (waiting_for d today) db)) * 15
       | None => 0
       end.
Proof.
  unfold Views.add_to_queue_view. cbv zeta.
  destruct (Queue.violates_unique db _); [discriminate|].
  intros H. inversion H. subst db'. clear H.
  repeat (split; [reflexivity|]). reflexivity.
Qed.

(** The request ends in the integrity error exactly when the number it
    generates is the number of a stored entry. *)
Lemma add_to_queue_refused (clk : Clock) (today : date) (db : Queue.table)
    (data : Forms.QueueData) (staff : Z) :
  Views.add_to_queue_view clk today db data staff = None
  <-> exists r, In r db
                /\ Queue.queue_number r = Queue.generate_queue_number today db.
Proof.
  unfold Views.add_to_queue_view. cbv zeta.
  unfold Queue.violates_unique. cbn [Queue.queue_number Forms.QueueForm_save].
  destruct (existsb _ db) eqn:X.
  - split; [intros _ | reflexivity].
    apply existsb_exists in X. destruct X as [r [Hr E]].
    exists r. split; [exact Hr | apply String.eqb_eq, E].
  - split; [discriminate|]. intros [r [Hr E]]. exfalso.
    rewrite <- not_true_iff_false in X. apply X, existsb_exists.
    exists r. split; [exact Hr | apply String.eqb_eq, E].
Qed.

(** On a table the enqueue view filled, the next number of any date is
    free. *)
Lemma generated_number_free (db : Queue.table) (today : date) :
  numbered_by_date db -> valid_date today ->
  forall r, In r db -> Queue.queue_number r <> Queue.generate_queue_number today db.
Proof.
  intros N V r Hr E. destruct (N r Hr) as [Vr [k [Hk Hn]]].
  rewrite Hn in E.
  change (Queue.generate_queue_number today db)
    with (daily_number today (Queue.next_sequence today db)) in E.
  unfold Queue.next_sequence in E.
  apply daily_number_inj in E; [|assumption|assumption|lia|lia].
  destruct E as [Ed Ek]. rewrite Ed in Hk. lia.
Qed.

Lemma enqueue_goes_through (clk : Clock) (today : date) (db : Queue.table)
    (data : Forms.QueueData) (staff : Z) :
  numbered_by_date db -> valid_date today ->
  exists e, Views.add_to_queue_view clk today db data staff = Some ((db ++ [e])%list, e).
Proof.
  intros N V.
  destruct (Views.add_to_queue_view clk today db data staff) as [[db' e]|] eqn:A.
  - exists e. destruct (add_to_queue_stored _ _ _ _ _ _ _ A) as [-> _]. reflexivity.
  - apply add_to_queue_refused in A. destruct A as [r [Hr E]].
    exfalso. exact (generated_number_free db today N V r Hr E).
Qed.

Lemma numbered_by_date_enqueue (clk : Clock) (today : date) (db db' : Queue.table)
    (data : Forms.QueueData) (staff : Z) (e : Queue.t) :
  numbered_by_date db -> valid_date today ->
  Views.add_to_queue_view clk today db data staff = Some (db', e) ->
  numbered_by_date db'.
Proof.
  intros N V A.
  destruct (add_to_queue_stored _ _ _ _ _ _ _ A) as [-> [_ [Hd [Hn _]]]].
  intros e' He'. apply in_app_iff in He'. destruct He' as [He' | [<- | []]].
  - destruct (N e' He') as [Ve [k [Hk Hk']]]. split; [exact Ve|].
    exists k. split; [|exact Hk']. rewrite filter_date_app.
    destruct (date_eqb (Queue.queue_date e) (Queue.queue_date e')); lia.
  - rewrite Hd. split; [exact V|].
    exists (Queue.next_sequence today db). split; [|exact Hn].
    rewrite filter_date_app, Hd, date_eqb_refl. unfold Queue.next_sequence. lia.
Qed.

Lemma numbered_by_date_enqueue_all
    (requests : list (Clock * date * Forms.QueueData * Z)) :
  forall db : Queue.table,
    numbered_by_date db ->
    (forall r, In r requests -> valid_date (request_date r)) ->
    numbered_by_date (fst (Views.enqueue_all db requests)).
Proof.
  induction requests as [|[[[clk today] data] staff] rest IH]; intros db N V.
  - exact N.
  - assert (Vt : valid_date today) by (apply (V (clk, today, data, staff)); left; reflexivity).
    destruct (enqueue_goes_through clk today db data staff N Vt) as [e A].
    pose proof (numbered_by_date_enqueue _ _ _ _ _ _ _ N Vt A) as N'.
    cbn [Views.enqueue_all]. rewrite A.
    specialize (IH (db ++ [e])%list N' (fun r H => V r (or_intror H))).
    destruct (Views.enqueue_all (db ++ [e])%list rest) as [db'' es]. exact IH.
Qed.

(** The number given to the request at position [i] of a sequential run
    that starts from the table [db]. *)
Lemma enqueue_all_number (requests : list (Clock * date * Forms.QueueData * Z)) :
  forall (db : Queue.table) (i : nat) (r : Clock * date * Forms.QueueData * Z),
    numbered_by_date db ->
    (forall r', In r' requests -> valid_date (request_date r')) ->
    nth_error requests i = Some r ->
    exists e,
      nth_error (snd (Views.enqueue_all db requests)) i = Some (Some e)
      /\ Queue.queue_date e = request_date r
      /\ Queue.queue_number e
         = daily_number (request_date r)
             (Z.of_nat (List.length (Queue.filter_date (request_date r) db))
              + Z.of_nat (same_date_before (request_date r) requests i) + 1).
Proof.
  induction requests as [|[[[clk today] data] staff] rest IH]; intros db i r N V Hr.
  - destruct i; discriminate.
  - assert (Vt : valid_date today) by (apply (V (clk, today, data, staff)); left; reflexivity).
    destruct (enqueue_goes_through clk today db data staff N Vt) as [e0 A].
    pose proof (numbered_by_date_enqueue _ _ _ _ _ _ _ N Vt A) as N'.
    destruct (add_to_queue_stored _ _ _ _ _ _ _ A) as [_ [_ [Hd0 [Hn0 _]]]].
    cbn [Views.enqueue_all]. rewrite A.
    specialize (IH (db ++ [e0])%list).
    destruct (Views.enqueue_all (db ++ [e0])%list rest) as [db'' es].
    cbn [snd] in IH |- *. destruct i as [|j].
    + cbn [nth_error] in Hr |- *. inversion Hr. subst r. clear Hr.
      exists e0. split; [reflexivity|]. split; [exact Hd0|].
      rewrite Hn0. unfold request_date, same_date_before. cbn.
      unfold Queue.generate_queue_number, Queue.next_sequence, daily_number.
      do 3 f_equal. lia.
    + cbn [nth_error] in Hr |- *.
      destruct (IH j r N' (fun r' H => V r' (or_intror H)) Hr) as [e [He [Hd Hn]]].
      exists e. split; [exact He|]. split; [exact Hd|].
      rewrite Hn. f_equal. rewrite filter_date_app, Hd0.
      unfold same_date_before. cbn [firstn filter request_date fst snd].
      destruct (date_eqb today (request_date r)); cbn [List.length]; lia.
Qed.

(** C8, as stated, fails: the sequence is formatted with [03d], a
    minimum width. In a sequential run of a thousand enqueue requests on
    15 January 2025, from the empty table, the thousandth entry is
    stored with the number Q202501151000, whose sequence has four
    digits. *)
Lemma queue_number_three_digits_fails :
  ~ (forall (requests : list (Clock * date * Forms.QueueData * Z)) (i : nat) (e : Queue.t),
       (forall r, In r requests -> valid_date (request_date r)) ->
       nth_error (snd (Views.enqueue_all [] requests)) i = Some (Some e) ->
       spec_three_digit_number (Queue.queue_date e) (Queue.queue_number e)).
Proof.
  intros H.
  assert (V : forall r, In r EnqueueExample.busy_day -> valid_date (request_date r)).
  { intros r Hr. apply repeat_spec in Hr. subst r. vm_compute.
    repeat split; discriminate. }
  destruct (enqueue_all_number EnqueueExample.busy_day [] 999%nat
              (Example.clk_utc, Example.jan15, EnqueueExample.walk_in 1, 4)
              (fun e (He : In e []) => match He with end) V eq_refl)
    as [e [He [Hd Hn]]].
  destruct (H EnqueueExample.busy_day 999%nat e V He) as [a [b [c [_ [_ [_ E]]]]]].
  rewrite Hn, Hd in E. vm_compute in E. discriminate E.
Qed.

(** C8, amended: in a sequential run of enqueue requests on valid dates,
    started from a table the enqueue view filled (the empty table is
    one), every request is stored, and the entry of the request at
    position [i] carries the date of its request and the number
    ['Q' + YYYYMMDD + sequence]; the sequence is one more than the number
    of entries of that date stored before it (those of the starting
    table and those of the earlier requests), written with [03d], so it
    is 1 on a date without entries and goes up by exactly one with every
    further entry of the date. The written sequence reads back as the
    number; it has three digits as long as the number is at most 999. *)
Theorem queue_numbers_sequential
    (db : Queue.table) (requests : list (Clock * date * Forms.QueueData * Z)) :
  numbered_by_date db ->
  (forall r, In r requests -> valid_date (request_date r)) ->
  (forall i r, nth_error requests i = Some r ->
     let k := Z.of_nat (List.length (Queue.filter_date (request_date r) db))
              + Z.of_nat (same_date_before (request_date r) requests i) + 1 in
     exists e,
       nth_error (snd (Views.enqueue_all db requests)) i = Some (Some e)
       /\ Queue.queue_date e = request_date r
       /\ Queue.queue_number e
          = "Q" ++ strftime_Ymd (request_date r) ++ PyStr.format_0d 3 k
       /\ PyStr.int (PyStr.format_0d 3 k) = Some k
       /\ (k <= 999 -> String.length (PyStr.format_0d 3 k) = 3%nat))
  /\ (forall today, Queue.filter_date today db = [] ->
        Queue.next_sequence today db = 1
        /\ Queue.generate_queue_number today db = "Q" ++ strftime_Ymd today ++ "001")
  /\ numbered_by_date (fst (Views.enqueue_all db requests)).
Proof.
  intros N V. split; [|split].
  - intros i r Hr k.
    destruct (enqueue_all_number requests db i r N V Hr) as [e [He [Hd Hn]]].
    exists e. split; [exact He|]. split; [exact Hd|]. split; [exact Hn|]. split.
    + apply int_format_0d. subst k. lia.
    + intros Hk. apply format_03d_length. subst k. lia.
  - intros today E. unfold Queue.generate_queue_number, Queue.next_sequence.
    rewrite E. split; reflexivity.
  - apply numbered_by_date_enqueue_all; assumption.
Qed.

(** C8 on an empty table: two requests on 15 January, one on 20 January,
    a third on 15 January. *)
Lemma queue_numbers_sequential_witness :
  map (option_map Queue.queue_number) (snd (Views.enqueue_all [] EnqueueExample.requests))
  = [Some "Q20250115001"; Some "Q20250115002"; Some "Q20250120001"; Some "Q20250115003"]
  /\ exists e,
       nth_error (snd (Views.enqueue_all [] EnqueueExample.requests)) 3 = Some (Some e)
       /\ Queue.queue_number e = "Q20250115003".
Proof.
  split; [vm_compute; reflexivity|].
  assert (N : numbered_by_date []) by (intros e []).
  assert (V : forall r, In r EnqueueExample.requests -> valid_date (request_date r)).
  { intros r [<- | [<- | [<- | [<- | []]]]]; vm_compute; repeat split; discriminate. }
  destruct (proj1 (queue_numbers_sequential [] EnqueueExample.requests N V) 3%nat
              (Example.clk_utc, Example.jan15, EnqueueExample.walk_in 4, 4) eq_refl)
    as [e [He [_ [Hn _]]]].
  exists e. split; [exact He|]. rewrite Hn. vm_compute. reflexivity.
Defined.

(** ** Appointment identifiers *)








(** ** Patient identifiers *)

Lemma insert_desc_first (x : Patient.t) (l : Patient.table) :
  Patient.first (Patient.insert_desc x l)
  = match Patient.first l with
    | None => Some x
    | Some y => if Patient.id y <=? Patient.id x then Some x else Some y
    end.
Proof.
  destruct l as [|y r]; simpl; [reflexivity|].
  destruct (Patient.id y <=? Patient.id x); reflexivity.
Qed.

(** [order_by('-id').first()] is a row of the table whose key no other
    row exceeds, and there is one as soon as the table has a row. *)
Lemma first_order_by_desc_id (db : Patient.table) :
  match Patient.first (Patient.order_by_desc_id db) with
  | None => db = []
  | Some m => In m db /\ forall p, In p db -> Patient.id p <= Patient.id m
  end.
Proof.
  induction db as [|x r IH]; [reflexivity|].
  unfold Patient.order_by_desc_id in *. cbn [fold_right].
  rewrite insert_desc_first.
  destruct (Patient.first (fold_right Patient.insert_desc [] r)) as [y|].
  - destruct IH as [Hy Hmax].
    destruct (Z.leb_spec (Patient.id y) (Patient.id x)) as [L | L].
    + split; [left; reflexivity|].
      intros p [<- | Hp]; [lia | specialize (Hmax p Hp); lia].
    + split; [right; exact Hy|].
      intros p [<- | Hp]; [lia | apply Hmax, Hp].
  - subst r. split; [left; reflexivity|]. intros p [<- | []]. lia.
Qed.

Lemma first_is_latest_row (db : Patient.table) (last : Patient.t) :
  latest_row db last -> Patient.first (Patient.order_by_desc_id db) = Some last.
Proof.
  intros [Hin Hmax]. pose proof (first_order_by_desc_id db) as F.
  destruct (Patient.first (Patient.order_by_desc_id db)) as [m|].
  - destruct F as [Hm Hle]. f_equal.
    destruct (Hmax m Hm) as [E | L]; [exact E|].
    specialize (Hle last Hin). lia.
  - subst db. destruct Hin.
Qed.

Lemma replace_digits (s : string) :
  all_digits s = true -> PyStr.replace_from "PAT" "" s 0 = s.
Proof.
  induction s as [|c r IH]; [reflexivity|].
  cbn [all_digits]. rewrite andb_true_iff. intros [Hc Hr].
  destruct (digit_not_special c Hc) as [_ [HP _]].
  cbn [PyStr.replace_from String.prefix].
  destruct (ascii_dec "P" c) as [E | _]; [congruence|].
  rewrite IH by exact Hr. reflexivity.
Qed.

Lemma replace_PAT_prefix (ds : string) :
  all_digits ds = true -> PyStr.replace "PAT" "" ("PAT" ++ ds) = ds.
Proof.
  intros H. unfold PyStr.replace. simpl.
  replace (prefix "" ds) with true by (destruct ds; reflexivity).
  apply replace_digits, H.
Qed.

(** The generation branch of [clean_patient_id], taken on its own: for
    an empty value the method returns 'PAT00001' on an empty table, and
    otherwise reads the identifier of the row with the highest primary
    key and adds one to its number. *)
Lemma clean_patient_id_generation_branch (db : Patient.table) :
  (db = [] -> Forms.PatientForm_clean_patient_id db "" = Forms.Ok "PAT00001")
  /\ (forall last ds,
        latest_row db last ->
        Patient.patient_id last = "PAT" ++ ds -> ds <> "" -> all_digits ds = true ->
        Forms.PatientForm_clean_patient_id db ""
        = Forms.Ok ("PAT" ++ PyStr.format_0d 5 (decimal_value ds + 1))).
Proof.
  split.
  - intros ->. reflexivity.
  - intros last ds Hl Hid Hne Hd. unfold Forms.PatientForm_clean_patient_id.
    rewrite (first_is_latest_row db last Hl), Hid.
    rewrite replace_PAT_prefix by exact Hd.
    rewrite int_digits by assumption. reflexivity.
Qed.

(** With PAT00005 stored first and PAT00002 second, the branch would
    give PAT00003. *)
Example generation_branch_reads_latest_row :
  Forms.PatientForm_clean_patient_id PatientExample.typed_in "" = Forms.Ok "PAT00003".
Proof. vm_compute. reflexivity. Qed.

(** A value the field accepts is the submitted one, stripped, and is not
    empty. *)
Lemma CharField_clean_Ok (limit : nat) (raw : option string) (value : string) :
  Forms.CharField_clean limit raw = Forms.Ok value ->
  value <> "" /\ exists s, raw = Some s /\ value = PyStr.strip s.
Proof.
  unfold Forms.CharField_clean. cbv zeta.
  destruct raw as [s|]; [|discriminate].
  destruct (PyStr.strip s) as [|c r] eqn:E; [discriminate|].
  destruct ((_ ++ _)%list); [|discriminate].
  intros H. inversion H. split; [discriminate|].
  exists s. split; [reflexivity | symmetry; exact E].
Qed.

Lemma CharField_clean_left_empty (limit : nat) (raw : option string) :
  left_empty raw -> Forms.CharField_clean limit raw = Forms.Invalid [Forms.required_message].
Proof.
  unfold Forms.CharField_clean, left_empty. cbv zeta.
  destruct raw as [s|]; [intros ->|]; reflexivity.
Qed.

(** C9: the identifier is never generated. [patient_id] is a required
    field of the form, so for every patient table a submission that
    leaves it empty (no value, an empty or a blank one) is refused with
    'This field is required.' before [clean_patient_id] is called, where
    the specification has 'PAT00001' or the next identifier; and
    whenever the cleaning gives an identifier, it is the submitted
    value, stripped. *)
Theorem patient_id_left_empty_is_refused (db : Patient.table) :
  (forall raw, left_empty raw ->
     Forms.PatientForm_clean_fields_patient_id db raw
     = Forms.Invalid ["This field is required."])
  /\ Forms.PatientForm_clean_fields_patient_id db None
     = Forms.Invalid ["This field is required."]
  /\ Forms.PatientForm_clean_fields_patient_id db (Some "")
     = Forms.Invalid ["This field is required."]
  /\ Forms.PatientForm_clean_fields_patient_id db (Some "   ")
     = Forms.Invalid ["This field is required."]
  /\ (forall raw ident,
        Forms.PatientForm_clean_fields_patient_id db raw = Forms.Ok ident ->
        ident <> "" /\ exists s, raw = Some s /\ ident = PyStr.strip s)
  /\ Forms.PatientForm_clean_fields_patient_id db (Some " PAT00042 ")
     = Forms.Ok "PAT00042".
Proof.
  assert (E : forall raw, left_empty raw ->
                Forms.PatientForm_clean_fields_patient_id db raw
                = Forms.Invalid ["This field is required."]).
  { intros raw H. unfold Forms.PatientForm_clean_fields_patient_id.
    rewrite (CharField_clean_left_empty 20 raw H). reflexivity. }
  split; [exact E|].
  split; [apply E; exact I|].
  split; [apply E; reflexivity|].
  split; [apply E; reflexivity|].
  split; [|reflexivity].
  intros raw ident. unfold Forms.PatientForm_clean_fields_patient_id.
  destruct (Forms.CharField_clean 20 raw) as [value| |] eqn:C; try discriminate.
  destruct (CharField_clean_Ok 20 raw value C) as [Hne [s [Hs Hv]]].
  unfold Forms.PatientForm_clean_patient_id.
  destruct value as [|c r]; [congruence|].
  intros H. inversion H. subst ident.
  split; [discriminate|]. exists s. split; assumption.
Qed.

(* ===================================================================== *)
(** * Further properties *)
(* ===================================================================== *)

(** ** What the appointment views write *)

Lemma save_get_cases (clk : Clock) (db db' : Appointment.table)
    (b : Appointment.t) (j : Z) (r' : Appointment.t) :
  Appointment.save clk db b = Some db' ->
  Appointment.get db' j = Some r' ->
  Appointment.get db j = Some r'
  \/ (j = Appointment.pk b /\ r' = Appointment.set_updated_at (timezone_now clk) b).
Proof.
  intros S G. destruct (Z.eq_dec j (Appointment.pk b)) as [-> | N].
  - right. rewrite (save_get_same _ _ _ _ S) in G. inversion G. auto.
  - left. rewrite <- (save_get_other _ _ _ _ _ S N). exact G.
Qed.

Lemma app_get_cases (db : Appointment.table) (c : Appointment.t) (j : Z)
    (r' : Appointment.t) :
  Appointment.get (db ++ [c])%list j = Some r' ->
  Appointment.get db j = Some r' \/ r' = c.
Proof.
  destruct (Appointment.get db j) as [r|] eqn:G.
  - rewrite (get_app_l _ _ _ _ G). auto.
  - rewrite (get_app_r _ _ _ G).
    destruct (Appointment.pk c =? j); [|discriminate].
    intros E. inversion E. auto.
Qed.

Lemma writes_only_refl (targets : list Appointment.Status) (db : Appointment.table) :
  writes_only targets db db.
Proof. intros j r' G. left. exact G. Qed.

Lemma writes_only_trans (targets : list Appointment.Status)
    (db db' db'' : Appointment.table) :
  writes_only targets db db' -> writes_only targets db' db'' ->
  writes_only targets db db''.
Proof.
  intros H1 H2 j r' G. destruct (H2 j r' G) as [G' | I]; [|right; exact I].
  apply H1, G'.
Qed.

Lemma save_writes (targets : list Appointment.Status) (clk : Clock)
    (db db' : Appointment.table) (b : Appointment.t) :
  In (Appointment.status b) targets ->
  Appointment.save clk db b = Some db' ->
  writes_only targets db db'.
Proof.
  intros I S j r' G. destruct (save_get_cases _ _ _ _ _ _ S G) as [G' | [_ ->]].
  - left. exact G'.
  - right. exact I.
Qed.

Lemma app_writes (targets : list Appointment.Status) (db : Appointment.table)
    (c : Appointment.t) :
  In (Appointment.status c) targets -> writes_only targets db (db ++ [c])%list.
Proof.
  intros I j r' G. destruct (app_get_cases _ _ _ _ G) as [G' | ->]; auto.
Qed.

Ltac in_assigned := unfold assigned_statuses; simpl; tauto.

Lemma view_step_writes (db db' : Appointment.table) :
  view_step db db' -> writes_only assigned_statuses db db'.
Proof.
  intros [clk k method raw staff
         | clk today rng k method new_date new_time reason
         | clk k | clk patient_name k | clk k].
  - unfold Views.cancel_appointment_view.
    destruct (Appointment.get db k) as [a|]; [|apply writes_only_refl].
    destruct (Appointment.can_cancel clk a); simpl; [|apply writes_only_refl].
    destruct method; [apply writes_only_refl|].
    destruct (Forms.AppointmentCancelForm_clean raw) as [reason|];
      [|apply writes_only_refl].
    destruct staff as [s|]; [|apply writes_only_refl].
    destruct (Appointment.cancel_appointment clk db a reason (Some s))
      as [db1|] eqn:S; [|apply writes_only_refl].
    simpl. eapply save_writes; [|exact S]. in_assigned.
  - unfold Views.reschedule_appointment_view.
    destruct (Appointment.get db k) as [a|]; [|apply writes_only_refl].
    destruct (Appointment.can_reschedule clk a); simpl; [|apply writes_only_refl].
    destruct method; [apply writes_only_refl|].
    destruct new_date as [d|]; [|apply writes_only_refl].
    destruct new_time as [tm|]; [|apply writes_only_refl].
    destruct (Forms.AppointmentRescheduleForm_is_valid _ _ _ _ _);
      [|apply writes_only_refl].
    unfold Appointment.create.
    destruct (Appointment.violates_unique db _); [apply writes_only_refl|].
    match goal with
    | |- context [(db ++ [?c0])%list] => set (c := c0)
    end.
    assert (W1 : writes_only assigned_statuses db (db ++ [c])%list)
      by (apply app_writes; in_assigned).
    destruct (Appointment.save clk (db ++ [c])%list _) as [db2|] eqn:S2;
      [|exact W1].
    assert (W2 : writes_only assigned_statuses db db2).
    { eapply writes_only_trans; [exact W1|].
      eapply save_writes; [|exact S2]. in_assigned. }
    destruct (Appointment.save clk db2 _) as [db3|] eqn:S3; [|exact W2].
    simpl. eapply writes_only_trans; [exact W2|].
    eapply save_writes; [|exact S3]. in_assigned.
  - unfold Views.confirm_appointment_view.
    destruct (Appointment.get db k) as [a|]; [|apply writes_only_refl].
    cbv zeta. destruct (Appointment.status_eqb _ _); [|apply writes_only_refl].
    destruct (Appointment.mark_confirmed clk db a) as [db1|] eqn:S;
      [|apply writes_only_refl].
    simpl. eapply save_writes; [|exact S]. in_assigned.
  - unfold Views.checkin_appointment_view.
    destruct (Appointment.get db k) as [a|]; [|apply writes_only_refl].
    cbv zeta. destruct (Appointment.status_in _ _); [|apply writes_only_refl].
    destruct (Appointment.mark_checked_in clk db a) as [db1|] eqn:S;
      [|apply writes_only_refl].
    simpl. eapply save_writes; [|exact S]. in_assigned.
  - unfold Views.complete_appointment_view.
    destruct (Appointment.get db k) as [a|]; [|apply writes_only_refl].
    cbv zeta. destruct (Appointment.status_in _ _); [|apply writes_only_refl].
    destruct (Appointment.complete_appointment clk db a) as [db1|] eqn:S;
      [|apply writes_only_refl].
    simpl. eapply save_writes; [|exact S]. in_assigned.
Qed.

(** X1: no sequence of requests to the cancel, reschedule, confirm,
    check-in and complete views ever stores an appointment with status
    in_progress or no_show: a row with such a status after the requests
    was stored, unchanged, before them. *)
Theorem views_never_assign_in_progress_or_no_show
    (db db' : Appointment.table) (j : Z) (r : Appointment.t) :
  view_steps db db' ->
  Appointment.get db' j = Some r ->
  In (Appointment.status r) [Appointment.in_progress; Appointment.no_show] ->
  Appointment.get db j = Some r.
Proof.
  intros Hs. revert j r. induction Hs as [|db1 db2 _ IH Hstep]; intros j r G I.
  - exact G.
  - destruct (view_step_writes _ _ Hstep j r G) as [G1 | A].
    + apply IH; assumption.
    + exfalso. unfold assigned_statuses in A. simpl in A, I.
      destruct I as [I | [I | []]]; rewrite <- I in A;
        repeat (destruct A as [A | A]; [discriminate A|]); exact A.
Qed.

(** X1 on a table with an appointment in progress and a scheduled one:
    after the second is confirmed, the first is read as it was. *)
Lemma views_never_assign_in_progress_or_no_show_witness :
  let r := Example.appt 1 "APT202501100001" Example.jan20 (mktime 9 0 0)
             Appointment.in_progress in
  let db := [r; Example.appt 2 "APT202501100002" Example.jan20 (mktime 10 0 0)
                  Appointment.scheduled] in
  Appointment.get (Views.db_after (Views.confirm_appointment_view Example.clk_utc db 2)) 1
  = Some r
  /\ Appointment.get db 1 = Some r.
Proof.
  cbv zeta. split; [vm_compute; reflexivity|].
  apply (views_never_assign_in_progress_or_no_show
           [Example.appt 1 "APT202501100001" Example.jan20 (mktime 9 0 0)
              Appointment.in_progress;
            Example.appt 2 "APT202501100002" Example.jan20 (mktime 10 0 0)
              Appointment.scheduled]
           (Views.db_after
              (Views.confirm_appointment_view Example.clk_utc
                 [Example.appt 1 "APT202501100001" Example.jan20 (mktime 9 0 0)
                    Appointment.in_progress;
                  Example.appt 2 "APT202501100002" Example.jan20 (mktime 10 0 0)
                    Appointment.scheduled] 2))
           1).
  - eapply steps_more; [apply steps_none | apply step_confirm].
  - vm_compute. reflexivity.
  - left. reflexivity.
Defined.

(** ** The declared constraints as an invariant *)

Lemma same_slot_sym (r a : Appointment.t) :
  Appointment.same_slot r a = Appointment.same_slot a r.
Proof.
  unfold Appointment.same_slot.
  rewrite (Z.eqb_sym (Appointment.doctor r)),
    (Z.eqb_sym (Appointment.appointment_time r)).
  f_equal. f_equal.
  destruct (date_eqb (Appointment.appointment_date r) (Appointment.appointment_date a)) eqn:E.
  - apply date_eqb_eq in E. rewrite E. symmetry. apply date_eqb_refl.
  - destruct (date_eqb (Appointment.appointment_date a) (Appointment.appointment_date r)) eqn:E';
      [|reflexivity].
    apply date_eqb_eq in E'. rewrite E', date_eqb_refl in E. discriminate.
Qed.

Lemma existsb_false_In {A : Type} (f : A -> bool) (l : list A) (x : A) :
  existsb f l = false -> In x l -> f x = false.
Proof.
  intros E Hx. destruct (f x) eqn:F; [|reflexivity].
  rewrite <- E. symmetry. apply existsb_exists. exists x. auto.
Qed.

Lemma violates_unique_false (db : Appointment.table) (b : Appointment.t) :
  Appointment.violates_unique db b = false <->
  forall r, In r db -> Appointment.pk r <> Appointment.pk b ->
    String.eqb (Appointment.appointment_id r) (Appointment.appointment_id b) = false
    /\ Appointment.same_slot r b = false.
Proof.
  unfold Appointment.violates_unique. split.
  - intros H r Hr Hpk.
    pose proof (existsb_false_In _ _ r H Hr) as F. cbv beta in F.
    apply andb_false_iff in F. destruct F as [F | F].
    + apply negb_false_iff, Z.eqb_eq in F. contradiction.
    + apply orb_false_iff in F. exact F.
  - intros H. destruct (existsb _ db) eqn:E; [|reflexivity].
    apply existsb_exists in E. destruct E as [r [Hr T]].
    apply andb_true_iff in T. destruct T as [T1 T2].
    apply negb_true_iff, Z.eqb_neq in T1.
    destruct (H r Hr T1) as [E1 E2]. rewrite E1, E2 in T2. discriminate.
Qed.

Lemma consistent_no_violation (db : Appointment.table) (a : Appointment.t) :
  consistent db -> In a db -> Appointment.violates_unique db a = false.
Proof.
  intros [_ H] Ha. apply violates_unique_false. intros r Hr Hpk.
  apply H; assumption.
Qed.

Lemma consistent_replace (db : Appointment.table) (b : Appointment.t) :
  consistent db -> Appointment.violates_unique db b = false ->
  consistent (map (fun r => if Appointment.pk r =? Appointment.pk b then b else r) db).
Proof.
  intros [Hnd Hpair] Hv. rewrite violates_unique_false in Hv. split.
  - rewrite map_map.
    replace (map (fun x => Appointment.pk
                             (if Appointment.pk x =? Appointment.pk b then b else x)) db)
      with (map Appointment.pk db); [exact Hnd|].
    apply map_ext. intros x.
    destruct (Z.eqb_spec (Appointment.pk x) (Appointment.pk b)); congruence.
  - intros r1' r2' H1 H2 Hne.
    apply in_map_iff in H1. destruct H1 as [r1 [E1 I1]].
    apply in_map_iff in H2. destruct H2 as [r2 [E2 I2]].
    destruct (Z.eqb_spec (Appointment.pk r1) (Appointment.pk b)) as [P1 | P1];
      destruct (Z.eqb_spec (Appointment.pk r2) (Appointment.pk b)) as [P2 | P2];
      subst r1' r2'.
    + congruence.
    + destruct (Hv r2 I2 P2) as [A B].
      rewrite String.eqb_sym, same_slot_sym. split; assumption.
    + apply Hv; assumption.
    + apply Hpair; assumption.
Qed.

Lemma consistent_append (db : Appointment.table) (b : Appointment.t) :
  consistent db -> Appointment.violates_unique db b = false ->
  ~ In (Appointment.pk b) (map Appointment.pk db) ->
  consistent (db ++ [b])%list.
Proof.
  intros [Hnd Hpair] Hv Hfresh. rewrite violates_unique_false in Hv. split.
  - rewrite map_app. simpl. apply NoDup_app.
    + exact Hnd.
    + constructor; [intros [] | constructor].
    + intros x Hx [<- | []]. contradiction.
  - intros r1 r2 H1 H2 Hne.
    apply in_app_iff in H1. apply in_app_iff in H2.
    destruct H1 as [H1 | [<- | []]]; destruct H2 as [H2 | [<- | []]].
    + apply Hpair; assumption.
    + apply Hv; assumption.
    + destruct (Hv r2 H2 (not_eq_sym Hne)) as [A B].
      rewrite String.eqb_sym, same_slot_sym. split; assumption.
    + congruence.
Qed.

Lemma existsb_pk_In (db : Appointment.table) (k : Z) :
  existsb (fun r => Appointment.pk r =? k) db = false ->
  ~ In k (map Appointment.pk db).
Proof.
  intros E H. apply in_map_iff in H. destruct H as [r [Hk Hr]].
  assert (T : existsb (fun r => Appointment.pk r =? k) db = true).
  { apply existsb_exists. exists r. split; [exact Hr | apply Z.eqb_eq, Hk]. }
  congruence.
Qed.

Lemma save_consistent (clk : Clock) (db db' : Appointment.table) (b : Appointment.t) :
  consistent db -> Appointment.save clk db b = Some db' -> consistent db'.
Proof.
  intros C. unfold Appointment.save.
  destruct (Appointment.violates_unique db _) eqn:V; [discriminate|].
  destruct (existsb _ db) eqn:E; intros S; inversion S; subst db'; clear S.
  - apply (consistent_replace db (Appointment.set_updated_at (timezone_now clk) b));
      assumption.
  - apply (consistent_append db (Appointment.set_updated_at (timezone_now clk) b));
      [assumption | assumption |].
    apply existsb_pk_In, E.
Qed.

Lemma next_pk_fresh (db : Appointment.table) :
  ~ In (Appointment.next_pk db) (map Appointment.pk db).
Proof.
  intros H. apply in_map_iff in H. destruct H as [r [Hk Hr]].
  apply next_pk_above in Hr. lia.
Qed.

Lemma view_step_consistent (db db' : Appointment.table) :
  consistent db -> view_step db db' -> consistent db'.
Proof.
  intros C [clk k method raw staff
           | clk today rng k method new_date new_time reason
           | clk k | clk patient_name k | clk k].
  - unfold Views.cancel_appointment_view.
    destruct (Appointment.get db k) as [a|]; [|exact C].
    destruct (Appointment.can_cancel clk a); simpl; [|exact C].
    destruct method; [exact C|].
    destruct (Forms.AppointmentCancelForm_clean raw) as [reason|]; [|exact C].
    destruct staff as [s|]; [|exact C].
    destruct (Appointment.cancel_appointment clk db a reason (Some s))
      as [db1|] eqn:S; [|exact C].
    simpl. eapply save_consistent; [exact C | exact S].
  - unfold Views.reschedule_appointment_view.
    destruct (Appointment.get db k) as [a|]; [|exact C].
    destruct (Appointment.can_reschedule clk a); simpl; [|exact C].
    destruct method; [exact C|].
    destruct new_date as [d|]; [|exact C].
    destruct new_time as [tm|]; [|exact C].
    destruct (Forms.AppointmentRescheduleForm_is_valid _ _ _ _ _); [|exact C].
    unfold Appointment.create.
    destruct (Appointment.violates_unique db _) eqn:V; [exact C|].
    match goal with
    | |- context [(db ++ [?c0])%list] => set (c := c0) in *
    end.
    assert (C1 : consistent (db ++ [c])%list).
    { apply consistent_append; [exact C | exact V | apply next_pk_fresh]. }
    destruct (Appointment.save clk (db ++ [c])%list _) as [db2|] eqn:S2; [|exact C1].
    assert (C2 : consistent db2) by (eapply save_consistent; [exact C1 | exact S2]).
    destruct (Appointment.save clk db2 _) as [db3|] eqn:S3; [|exact C2].
    simpl. eapply save_consistent; [exact C2 | exact S3].
  - unfold Views.confirm_appointment_view.
    destruct (Appointment.get db k) as [a|]; [|exact C].
    cbv zeta. destruct (Appointment.status_eqb _ _); [|exact C].
    destruct (Appointment.mark_confirmed clk db a) as [db1|] eqn:S; [|exact C].
    simpl. eapply save_consistent; [exact C | exact S].
  - unfold Views.checkin_appointment_view.
    destruct (Appointment.get db k) as [a|]; [|exact C].
    cbv zeta. destruct (Appointment.status_in _ _); [|exact C].
    destruct (Appointment.mark_checked_in clk db a) as [db1|] eqn:S; [|exact C].
    simpl. eapply save_consistent; [exact C | exact S].
  - unfold Views.complete_appointment_view.
    destruct (Appointment.get db k) as [a|]; [|exact C].
    cbv zeta. destruct (Appointment.status_in _ _); [|exact C].
    destruct (Appointment.complete_appointment clk db a) as [db1|] eqn:S; [|exact C].
    simpl. eapply save_consistent; [exact C | exact S].
Qed.

(** X2: the declared constraints are an invariant of the views. If keys
    are unique and no two rows share an identifier or a (doctor, date,
    time) slot, the same holds after any sequence of requests to the
    cancel, reschedule, confirm, check-in and complete views, whether
    the requests go through or not. *)
Theorem views_preserve_constraints (db db' : Appointment.table) :
  consistent db -> view_steps db db' -> consistent db'.
Proof.
  intros C Hs. induction Hs as [|db1 db2 _ IH Hstep].
  - exact C.
  - eapply view_step_consistent; [exact IH | exact Hstep].
Qed.

(** X2 on one scheduled appointment: the table a successful reschedule
    leaves behind satisfies the constraints. *)
Lemma views_preserve_constraints_witness :
  consistent
    (Views.db_after
       (Views.reschedule_appointment_view Example.clk_utc Example.jan15 (fun j => j)
          [Example.appt 1 "APT202501100001" Example.jan20 (mktime 9 0 0)
             Appointment.scheduled] 1 Views.POST
          (Some Example.jan20) (Some (mktime 10 0 0)) "doctor away")).
Proof.
  apply (views_preserve_constraints
           [Example.appt 1 "APT202501100001" Example.jan20 (mktime 9 0 0)
              Appointment.scheduled]).
  - split.
    + simpl. constructor; [intros [] | constructor].
    + intros r1 r2 [<- | []] [<- | []] N. exfalso. apply N. reflexivity.
  - eapply steps_more; [apply steps_none | apply step_reschedule].
Defined.

(** ** Rescheduling: what a request that does not go through leaves *)

Lemma create_refused_on_held_slot (clk : Clock) (db : Appointment.table)
    (r : Appointment.t) (p dk : Z) (d : date) (tm : time) (du : Z)
    (ty : Appointment.TypeChoice) (rs sy sp : string) (sb rf : option Z) :
  In r db -> Appointment.doctor r = dk -> Appointment.appointment_date r = d ->
  Appointment.appointment_time r = tm ->
  Appointment.create clk db p dk d tm du ty rs sy sp sb rf = None.
Proof.
  intros Hr E1 E2 E3. unfold Appointment.create.
  match goal with
  | |- (if ?v then _ else _) = _ => assert (V : v = true); [|rewrite V; reflexivity]
  end.
  unfold Appointment.violates_unique. apply existsb_exists. exists r.
  split; [exact Hr|]. simpl. apply andb_true_iff. split.
  - apply negb_true_iff, Z.eqb_neq. apply next_pk_above in Hr. lia.
  - apply orb_true_iff. right. unfold Appointment.same_slot. simpl.
    rewrite E1, E2, E3, !Z.eqb_refl, date_eqb_refl. reflexivity.
Qed.

(** X4: rescheduling onto a (doctor, date, time) slot that any stored
    appointment of that doctor holds, whatever its status and the
    original's own slot included, never goes through and leaves the
    table as it was; when the form accepts the request (the holder is
    not active, or is the original itself), the request ends in the
    integrity error of [create]. *)
Theorem reschedule_onto_held_slot
    (clk : Clock) (today : date) (rng : nat -> nat) (db : Appointment.table)
    (k : Z) (a : Appointment.t) (method : Views.Method)
    (d : date) (tm : time) (reason : string) :
  Appointment.get db k = Some a ->
  (exists r, In r db /\ Appointment.doctor r = Appointment.doctor a
             /\ Appointment.appointment_date r = d
             /\ Appointment.appointment_time r = tm) ->
  let o := Views.reschedule_appointment_view clk today rng db k method
             (Some d) (Some tm) reason in
  Views.db_after o = db
  /\ (forall new_pk, ~ reschedule_succeeded o new_pk)
  /\ (Appointment.can_reschedule clk a = true -> method = Views.POST ->
      Forms.AppointmentRescheduleForm_is_valid clk db (Some a) (Some d) (Some tm) = true ->
      Views.response o = Views.ServerError).
Proof.
  intros G [r [Hr [E1 [E2 E3]]]]. cbv zeta.
  unfold reschedule_succeeded, Views.reschedule_appointment_view. rewrite G.
  destruct (Appointment.can_reschedule clk a); cbn [negb].
  2:{ split; [reflexivity|]. split; [|discriminate].
      intros new_pk [_ [msg Hm]]. simpl in Hm. discriminate. }
  destruct method.
  { split; [reflexivity|]. split; [|discriminate].
    intros new_pk [H _]. simpl in H. discriminate. }
  destruct (Forms.AppointmentRescheduleForm_is_valid clk db (Some a) (Some d) (Some tm)).
  2:{ split; [reflexivity|]. split; [|discriminate].
      intros new_pk [H _]. simpl in H. discriminate. }
  rewrite (create_refused_on_held_slot clk db r) by assumption.
  split; [reflexivity|]. split; [|reflexivity].
  intros new_pk [H _]. simpl in H. discriminate.
Qed.

(** X4 on the original's own slot: the form accepts 20 January 09:00
    for the appointment that already holds it, and the request ends in
    an exception. *)
Lemma reschedule_onto_held_slot_witness :
  let a := Example.appt 1 "APT202501100001" Example.jan20 (mktime 9 0 0)
             Appointment.scheduled in
  Forms.AppointmentRescheduleForm_is_valid Example.clk_utc [a] (Some a)
    (Some Example.jan20) (Some (mktime 9 0 0)) = true
  /\ Views.response
       (Views.reschedule_appointment_view Example.clk_utc Example.jan15 (fun j => j)
          [a] 1 Views.POST (Some Example.jan20) (Some (mktime 9 0 0)) "same slot")
     = Views.ServerError.
Proof.
  cbv zeta. split; [vm_compute; reflexivity|].
  apply (reschedule_onto_held_slot Example.clk_utc Example.jan15 (fun j => j)
           [Example.appt 1 "APT202501100001" Example.jan20 (mktime 9 0 0)
              Appointment.scheduled] 1
           (Example.appt 1 "APT202501100001" Example.jan20 (mktime 9 0 0)
              Appointment.scheduled)
           Views.POST Example.jan20 (mktime 9 0 0) "same slot").
  - reflexivity.
  - eexists. split; [left; reflexivity|]. repeat split.
  - vm_compute. reflexivity.
  - reflexivity.
  - vm_compute. reflexivity.
Defined.


(** X3: a reschedule request that does not go through (refused, invalid
    form, or ended by an exception at any of its three writes) changes
    and removes no stored appointment: every key that held a row reads
    the same row afterwards, so the original keeps its status. What such
    a request can leave behind is the row it created before the
    exception: it stays stored under the next fresh key, scheduled and
    pointing back to the original, with an empty identifier when the
    exception came from the write of the identifier. No other key gains
    a row. *)
Theorem failed_reschedule_keeps_rows
    (clk : Clock) (today : date) (rng : nat -> nat) (db : Appointment.table)
    (k : Z) (method : Views.Method) (new_date : option date)
    (new_time : option time) (reason : string) :
  let o := Views.reschedule_appointment_view clk today rng db k method
             new_date new_time reason in
  (forall new_pk, ~ reschedule_succeeded o new_pk) ->
  (forall j r, Appointment.get db j = Some r ->
               Appointment.get (Views.db_after o) j = Some r)
  /\ (forall j r', Appointment.get (Views.db_after o) j = Some r' ->
        Appointment.get db j = Some r'
        \/ (Appointment.get db j = None
            /\ j = Appointment.next_pk db
            /\ Views.response o = Views.ServerError
            /\ Appointment.rescheduled_from r' = Some k
            /\ Appointment.status r' = Appointment.scheduled
            /\ (Appointment.appointment_id r' = ""
                \/ exists c, Appointment.appointment_id c = ""
                             /\ Appointment.appointment_id r'
                                = Appointment.generate_appointment_id today rng
                                    (db ++ [c])%list))).
Proof.
  cbv zeta. unfold Views.reschedule_appointment_view.
  assert (Same : forall m resp,
            (forall j r, Appointment.get db j = Some r ->
                         Appointment.get (Views.db_after (Views.mkOutcome db m resp)) j
                         = Some r)
            /\ (forall j r', Appointment.get (Views.db_after (Views.mkOutcome db m resp)) j
                             = Some r' ->
                  Appointment.get db j = Some r'
                  \/ (Appointment.get db j = None
                      /\ j = Appointment.next_pk db
                      /\ Views.response (Views.mkOutcome db m resp) = Views.ServerError
                      /\ Appointment.rescheduled_from r' = Some k
                      /\ Appointment.status r' = Appointment.scheduled
                      /\ (Appointment.appointment_id r' = ""
                          \/ exists c, Appointment.appointment_id c = ""
                                       /\ Appointment.appointment_id r'
                                          = Appointment.generate_appointment_id today rng
                                              (db ++ [c])%list)))).
  { intros m resp. split; [intros j r H; exact H | intros j r' H; left; exact H]. }
  destruct (Appointment.get db k) as [a|] eqn:G; [|intros _; apply Same].
  destruct (get_Some _ _ _ G) as [_ Hk].
  destruct (Appointment.can_reschedule clk a); cbn [negb]; [|intros _; apply Same].
  destruct method; [intros _; apply Same|].
  destruct new_date as [d|]; [|intros _; apply Same].
  destruct new_time as [tm|]; [|intros _; apply Same].
  destruct (Forms.AppointmentRescheduleForm_is_valid _ _ _ _ _);
    [|intros _; apply Same].
  unfold Appointment.create.
  destruct (Appointment.violates_unique db _); [intros _; apply Same|].
  match goal with
  | |- context [(db ++ [?c0])%list] => set (c := c0) in *
  end.
  assert (Created : forall j r', Appointment.get (db ++ [c])%list j = Some r' ->
            Appointment.get db j = Some r'
            \/ (Appointment.get db j = None /\ j = Appointment.next_pk db /\ r' = c)).
  { intros j r' H. destruct (Appointment.get db j) as [r|] eqn:G0.
    - rewrite (get_app_l _ _ _ _ G0) in H. left. exact H.
    - rewrite (get_app_r _ _ _ G0) in H. right.
      destruct (Z.eqb_spec (Appointment.pk c) j) as [E | E]; [|discriminate].
      inversion H. subst r'. split; [reflexivity|]. split; [|reflexivity].
      symmetry. exact E. }
  destruct (Appointment.save clk (db ++ [c])%list _) as [db2|] eqn:S2.
  - destruct (Appointment.save clk db2 _) as [db3|] eqn:S3.
    + intros N. exfalso. eapply N. split; [reflexivity|]. eexists. reflexivity.
    + intros _. cbn [Views.db_after Views.response]. split.
      * intros j r H. rewrite (save_get_other _ _ _ _ _ S2).
        -- apply get_app_l, H.
        -- simpl. intros ->. rewrite get_next_pk in H. discriminate.
      * intros j r' H.
        destruct (save_get_cases _ _ _ _ _ _ S2 H) as [H1 | [Hj Hr]].
        -- destruct (Created j r' H1) as [L | [G0 [Hj Hr]]]; [left; exact L|].
           right. subst r'. rewrite <- Hk.
           repeat (split; [first [exact G0 | exact Hj | reflexivity]|]).
           left. reflexivity.
        -- right. subst r'. cbn [Appointment.pk Appointment.set_appointment_id] in Hj.
           subst j. rewrite <- Hk.
           split; [apply get_next_pk|]. repeat (split; [reflexivity|]).
           right. exists c. split; reflexivity.
  - intros _. cbn [Views.db_after Views.response]. split.
    + intros j r H. apply get_app_l, H.
    + intros j r' H.
      destruct (Created j r' H) as [L | [G0 [Hj Hr]]]; [left; exact L|].
      right. subst r'. rewrite <- Hk.
      repeat (split; [first [exact G0 | exact Hj | reflexivity]|]).
      left. reflexivity.
Qed.

(** X3 on a request whose identifier collides: the sequential candidate
    (number 3 of the day) and the fallback the generator draws are both
    taken, so the write of the identifier ends in the integrity error.
    The original is read unchanged, still scheduled, and the created row
    is left under key 4 with an empty identifier. *)
Lemma failed_reschedule_keeps_rows_witness :
  let o := Views.reschedule_appointment_view Example.clk_utc Example.jan15 (fun j => j)
             IdExample.both_taken 1 Views.POST (Some Example.jan20)
             (Some (mktime 10 0 0)) "asked for later" in
  Views.response o = Views.ServerError
  /\ Appointment.get (Views.db_after o) 1
     = Some (Example.appt 1 "APT202501100001" Example.jan20 (mktime 9 0 0)
               Appointment.scheduled)
  /\ exists r', Appointment.get (Views.db_after o) 4 = Some r'
                /\ Appointment.appointment_id r' = ""
                /\ Appointment.rescheduled_from r' = Some 1
                /\ Appointment.status r' = Appointment.scheduled.
Proof.
  cbv zeta.
  destruct (failed_reschedule_keeps_rows Example.clk_utc Example.jan15 (fun j => j)
              IdExample.both_taken 1 Views.POST (Some Example.jan20)
              (Some (mktime 10 0 0)) "asked for later") as [Keep Gain].
  - intros new_pk [H _]. vm_compute in H. discriminate.
  - split; [vm_compute; reflexivity|]. split.
    + apply Keep. reflexivity.
    + eexists. split; [vm_compute; reflexivity|].
      match goal with
      | |- context [Appointment.appointment_id ?r] =>
          destruct (Gain 4 r) as [H | [_ [_ [_ [H1 [H2 _]]]]]];
            [vm_compute; reflexivity | vm_compute in H; discriminate H |]
      end.
      split; [reflexivity|]. split; [exact H1 | exact H2].
Defined.

(** ** Terminal states *)

(** X5: an appointment whose status is completed, cancelled, no_show or
    rescheduled is changed by none of the five views: each leaves the
    table as it was and reports no success. *)
Theorem terminal_states_absorbing
    (clk : Clock) (today : date) (rng : nat -> nat) (patient_name : Z -> string)
    (db : Appointment.table) (k : Z) (a : Appointment.t)
    (method : Views.Method) (raw : option string) (staff : option Z)
    (new_date : option date) (new_time : option time) (reason : string) :
  Appointment.get db k = Some a ->
  In (Appointment.status a) terminal_statuses ->
  let quiet (o : Views.Outcome) :=
    Views.db_after o = db
    /\ forall m, In m (Views.messages o) -> Views.level m <> Views.success in
  quiet (Views.cancel_appointment_view clk db k method raw staff)
  /\ quiet (Views.reschedule_appointment_view clk today rng db k method
              new_date new_time reason)
  /\ quiet (Views.confirm_appointment_view clk db k)
  /\ quiet (Views.checkin_appointment_view clk patient_name db k)
  /\ quiet (Views.complete_appointment_view clk db k).
Proof.
  intros G T. cbv zeta.
  unfold Views.cancel_appointment_view, Views.reschedule_appointment_view,
    Views.confirm_appointment_view, Views.checkin_appointment_view,
    Views.complete_appointment_view,
    Appointment.can_cancel, Appointment.can_reschedule.
  rewrite G.
  assert (Q : forall (lvl : Views.Level) (txt : string) (resp : Views.Response),
            lvl <> Views.success ->
            Views.db_after (Views.mkOutcome db [Views.mkMessage lvl txt] resp) = db
            /\ forall m, In m (Views.messages
                                 (Views.mkOutcome db [Views.mkMessage lvl txt] resp)) ->
                         Views.level m <> Views.success).
  { intros lvl txt resp N. split; [reflexivity|].
    intros m [<- | []]. exact N. }
  unfold terminal_statuses in T. simpl in T.
  destruct T as [T | [T | [T | [T | []]]]]; rewrite <- T; simpl;
    repeat split; try reflexivity;
    intros m [<- | []]; discriminate.
Qed.

(** X5 on a completed appointment and a cancel request. *)
Lemma terminal_states_absorbing_witness :
  let a := Example.appt 1 "APT202501100001" Example.jan20 (mktime 9 0 0)
             Appointment.completed in
  Views.db_after
    (Views.cancel_appointment_view Example.clk_utc [a] 1 Views.POST
       (Some "changed mind") (Some 4)) = [a]
  /\ Views.db_after (Views.confirm_appointment_view Example.clk_utc [a] 1) = [a].
Proof.
  cbv zeta.
  destruct (terminal_states_absorbing Example.clk_utc Example.jan15 (fun j => j)
              (fun _ => "Asha Nair")
              [Example.appt 1 "APT202501100001" Example.jan20 (mktime 9 0 0)
                 Appointment.completed] 1
              (Example.appt 1 "APT202501100001" Example.jan20 (mktime 9 0 0)
                 Appointment.completed)
              Views.POST (Some "changed mind") (Some 4) None None "")
    as [[H1 _] [_ [[H3 _] _]]].
  - reflexivity.
  - left. reflexivity.
  - split; [exact H1 | exact H3].
Defined.

(** ** A cancelled appointment: what the lookups see, what the constraint holds *)

Lemma save_In (clk : Clock) (db db' : Appointment.table) (b r' : Appointment.t) :
  Appointment.save clk db b = Some db' -> In r' db' ->
  r' = Appointment.set_updated_at (timezone_now clk) b
  \/ (In r' db /\ Appointment.pk r' <> Appointment.pk b).
Proof.
  unfold Appointment.save.
  destruct (Appointment.violates_unique db _); [discriminate|].
  destruct (existsb _ db) eqn:E; intros S H; inversion S; subst db'; clear S.
  - apply in_map_iff in H. destruct H as [r [Hr Hin]].
    simpl in Hr.
    destruct (Z.eqb_spec (Appointment.pk r) (Appointment.pk b)) as [P | P].
    + left. symmetry. exact Hr.
    + right. subst r'. split; [exact Hin | exact P].
  - apply in_app_iff in H. destruct H as [H | [<- | []]].
    + right. split; [exact H|]. intros P.
      pose proof (existsb_false_In _ _ r' E H) as F. cbv beta in F.
      apply Z.eqb_neq in F. apply F. exact P.
    + left. reflexivity.
Qed.

(** X6: on a table that satisfies the declared constraints, once a
    cancel request has gone through, the lookups that filter on the
    status no longer see an appointment at the doctor, date and time of
    the cancelled one: the availability listing does not mark the slot
    booked, and [AppointmentForm.clean] raises no conflict for it as
    long as it is not past. The slot is not free for all that: the
    cancelled row is still stored with its doctor, date and time, and
    [unique_together] does not look at the status, so creating an
    appointment on that slot ends in the integrity error. *)
Theorem cancelled_slot_listed_free_but_held
    (clk clk' : Clock) (db : Appointment.table) (k : Z) (a : Appointment.t)
    (method : Views.Method) (raw : option string) (staff : option Z)
    (self : DoctorAvailability.t) (doc : Doctor.t) :
  consistent db ->
  Appointment.get db k = Some a ->
  let o := Views.cancel_appointment_view clk db k method raw staff in
  cancel_succeeded o ->
  (DoctorAvailability.doctor self = Appointment.doctor a ->
   DoctorAvailability.date_ self = Appointment.appointment_date a ->
   DoctorAvailability.is_booked (Views.db_after o) self
     (Appointment.appointment_time a) = false)
  /\ (Doctor.pk doc = Appointment.doctor a ->
      slot_in_past clk' (Appointment.appointment_date a)
        (Appointment.appointment_time a) = false ->
      Forms.AppointmentForm_clean clk' (Views.db_after o) None
        (Some (Appointment.appointment_date a))
        (Some (Appointment.appointment_time a)) (Some doc) = Forms.Cleaned)
  /\ (exists a',
        Appointment.get (Views.db_after o) k = Some a'
        /\ Appointment.status a' = Appointment.cancelled
        /\ Appointment.doctor a' = Appointment.doctor a
        /\ Appointment.appointment_date a' = Appointment.appointment_date a
        /\ Appointment.appointment_time a' = Appointment.appointment_time a)
  /\ (forall p du ty rs sy sp sb rf,
        Appointment.create clk' (Views.db_after o) p (Appointment.doctor a)
          (Appointment.appointment_date a) (Appointment.appointment_time a)
          du ty rs sy sp sb rf = None).
Proof.
  intros C G o. subst o.
  destruct (get_Some _ _ _ G) as [Hin Hk].
  unfold cancel_succeeded, Views.cancel_appointment_view. rewrite G.
  destruct (Appointment.can_cancel clk a); simpl; [|discriminate].
  destruct method; simpl; [discriminate|].
  destruct (Forms.AppointmentCancelForm_clean raw) as [reason|]; simpl;
    [|discriminate].
  destruct staff as [s|]; simpl; [|discriminate].
  destruct (Appointment.cancel_appointment clk db a reason (Some s))
    as [db'|] eqn:S; simpl; [|discriminate].
  intros _. unfold Appointment.cancel_appointment in S.
  assert (Free : forall r, In r db' ->
                   ~ occupies (Appointment.doctor a) (Appointment.appointment_date a)
                       (Appointment.appointment_time a) r).
  { intros r Hr [O1 [O2 [O3 O4]]].
    destruct (save_In _ _ _ _ _ S Hr) as [-> | [Hr' Hpk]].
    - simpl in O4. intuition discriminate.
    - simpl in Hpk. destruct C as [_ Hpair].
      destruct (Hpair r a Hr' Hin Hpk) as [_ Hs].
      unfold Appointment.same_slot in Hs.
      rewrite O1, O2, O3, !Z.eqb_refl, date_eqb_refl in Hs. discriminate. }
  pose proof (save_get_same _ _ _ _ S) as Stored.
  cbn [Appointment.pk Appointment.set_updated_at Appointment.set_cancelled_by
       Appointment.set_cancelled_at Appointment.set_cancellation_reason
       Appointment.set_status] in Stored.
  rewrite Hk in Stored.
  split; [|split; [|split]].
  - intros E1 E2.
    destruct (DoctorAvailability.is_booked db' self (Appointment.appointment_time a))
      eqn:B; [|reflexivity].
    apply is_booked_spec in B. destruct B as [r [Hr O]].
    rewrite E1, E2 in O. exfalso. exact (Free r Hr O).
  - intros E P. unfold Forms.AppointmentForm_clean.
    unfold slot_in_past in P. rewrite P.
    destruct (Appointment.exists_ _) eqn:X; [|reflexivity].
    apply exists_true in X. destruct X as [r X].
    apply filter_active_slot_In in X. destruct X as [Hr O].
    rewrite E in O. exfalso. exact (Free r Hr O).
  - eexists. split; [exact Stored|]. repeat split; reflexivity.
  - intros p du ty rs sy sp sb rf.
    destruct (get_Some _ _ _ Stored) as [Hin' _].
    exact (create_refused_on_held_slot clk' db' _ p _ _ _ du ty rs sy sp sb rf
             Hin' eq_refl eq_refl eq_refl).
Qed.

(** X6 on the scenario of the availability listing: once the 09:30
    appointment is cancelled, the 09:30 entry is listed as available,
    and an appointment created on it is refused by the constraint. *)
Lemma cancelled_slot_listed_free_but_held_witness :
  let o := Views.cancel_appointment_view Example.clk_utc SlotExample.booked_0930 1
             Views.POST (Some "patient called") (Some 4) in
  cancel_succeeded o
  /\ DoctorAvailability.is_booked (Views.db_after o) SlotExample.morning
       (mktime 9 30 0) = false
  /\ Appointment.create Example.clk_utc (Views.db_after o) 12 7 Example.jan20
       (mktime 9 30 0) 30 Appointment.routine "cough" "" "" None None = None.
Proof.
  cbv zeta.
  assert (S : cancel_succeeded
                (Views.cancel_appointment_view Example.clk_utc SlotExample.booked_0930 1
                   Views.POST (Some "patient called") (Some 4)))
    by (vm_compute; reflexivity).
  split; [exact S|].
  destruct (cancelled_slot_listed_free_but_held Example.clk_utc Example.clk_utc
              SlotExample.booked_0930 1
              (Example.appt 1 "APT202501100001" Example.jan20 (mktime 9 30 0)
                 Appointment.scheduled)
              Views.POST (Some "patient called") (Some 4)
              SlotExample.morning Example.dr_rao) as [B [_ [_ H]]].
  - split.
    + simpl. constructor; [intros [] | constructor].
    + intros r1 r2 [<- | []] [<- | []] N. exfalso. apply N. reflexivity.
  - reflexivity.
  - exact S.
  - split; [exact (B eq_refl eq_refl)|].
    exact (H 12 30 Appointment.routine "cough" "" "" None None).
Defined.

(** ** The availability listing against the capacity count *)

Lemma sorted_lt_NoDup (l : list Z) : StronglySorted Z.lt l -> NoDup l.
Proof.
  induction 1 as [|x l _ IH Hall]; constructor; [|exact IH].
  intros Hx. rewrite Forall_forall in Hall. specialize (Hall x Hx). lia.
Qed.

Lemma filter_map_length {A B : Type} (f : A -> B) (p : B -> bool) (l : list A) :
  List.length (filter p (map f l)) = List.length (filter (fun x => p (f x)) l).
Proof.
  induction l as [|x r IH]; simpl; [reflexivity|].
  destruct (p (f x)); simpl; rewrite IH; reflexivity.
Qed.

(** X7: with a positive slot duration and enough iterations, the entries
    [get_available_time_slots] marks unavailable are never more than
    [get_booked_slots] counts for the window; in particular a window
    without booked appointments lists every slot as available. *)
Theorem unavailable_entries_bounded
    (appts : Appointment.table) (today : date) (self : DoctorAvailability.t)
    (d : Z) (fuel : nat) :
  0 < d ->
  valid_time (DoctorAvailability.start_time self) ->
  valid_time (DoctorAvailability.end_time self) ->
  (slot_count (DoctorAvailability.start_time self) (DoctorAvailability.end_time self)
     (timedelta_minutes d) < fuel)%nat ->
  exists slots,
    DoctorAvailability.get_available_time_slots fuel appts today self d = Some slots
    /\ Z.of_nat (List.length
                   (filter (fun s => negb (DoctorAvailability.available s)) slots))
       <= DoctorAvailability.get_booked_slots appts self
    /\ (DoctorAvailability.get_booked_slots appts self = 0 ->
        forall s, In s slots -> DoctorAvailability.available s = true).
Proof.
  intros Hd Vs Ve Hf.
  pose proof (timedelta_minutes_pos d Hd) as Hstep.
  eexists. split; [apply available_time_slots_closed_form; assumption|].
  set (starts := slot_starts (DoctorAvailability.start_time self)
                   (DoctorAvailability.end_time self) (timedelta_minutes d)).
  assert (Bound : le (List.length (filter (DoctorAvailability.is_booked appts self) starts))
                     (List.length
                        (filter (fun r : Appointment.t =>
                                   (Appointment.doctor r =? DoctorAvailability.doctor self)
                                   && date_eqb (Appointment.appointment_date r)
                                        (DoctorAvailability.date_ self)
                                   && (DoctorAvailability.start_time self
                                       <=? Appointment.appointment_time r)
                                   && (Appointment.appointment_time r
                                       <? DoctorAvailability.end_time self)
                                   && Appointment.status_in (Appointment.status r)
                                        Appointment.active_statuses) appts))).
  { rewrite <- (length_map Appointment.appointment_time (filter _ appts)).
    apply NoDup_incl_length.
    - apply NoDup_filter, sorted_lt_NoDup, slot_starts_sorted, Hstep.
    - intros t Ht. apply filter_In in Ht. destruct Ht as [Hin Hb].
      apply is_booked_spec in Hb. destruct Hb as [a [Ha [O1 [O2 [O3 O4]]]]].
      apply (slot_starts_In _ _ _ _ Hstep) in Hin.
      destruct Hin as [i [Hi [Et Hlt]]].
      apply in_map_iff. exists a. split; [exact O3|].
      apply filter_In. split; [exact Ha|].
      rewrite O1, O2, O3, Z.eqb_refl, date_eqb_refl.
      replace (DoctorAvailability.start_time self <=? t) with true
        by (symmetry; apply Z.leb_le; nia).
      replace (t <? DoctorAvailability.end_time self) with true
        by (symmetry; apply Z.ltb_lt; exact Hlt).
      apply status_in_In in O4. rewrite O4. reflexivity. }
  assert (L : List.length
                (filter (fun s => negb (DoctorAvailability.available s))
                   (map (fun tm => DoctorAvailability.mkSlot tm
                                     (negb (DoctorAvailability.is_booked appts self tm)))
                        starts))
              = List.length (filter (DoctorAvailability.is_booked appts self) starts)).
  { rewrite filter_map_length. f_equal. apply filter_ext. intros t. simpl.
    apply negb_involutive. }
  split.
  - rewrite L. unfold DoctorAvailability.get_booked_slots, Appointment.count.
    apply Nat2Z.inj_le. exact Bound.
  - intros Z0 s Hs. apply in_map_iff in Hs. destruct Hs as [t [<- Ht]]. simpl.
    destruct (DoctorAvailability.is_booked appts self t) eqn:B; [|reflexivity].
    exfalso.
    assert (I : In t (filter (DoctorAvailability.is_booked appts self) starts))
      by (apply filter_In; split; assumption).
    unfold DoctorAvailability.get_booked_slots, Appointment.count in Z0.
    apply Nat2Z.inj_le in Bound. rewrite Z0 in Bound.
    destruct (filter (DoctorAvailability.is_booked appts self) starts);
      [destruct I | simpl in Bound; lia].
Qed.

(** X7 on the scenario window: one entry is unavailable, and one
    appointment is counted. *)
Lemma unavailable_entries_bounded_witness :
  DoctorAvailability.get_booked_slots SlotExample.booked_0930 SlotExample.morning = 1
  /\ exists slots,
       DoctorAvailability.get_available_time_slots 7 SlotExample.booked_0930
         Example.jan15 SlotExample.morning 30 = Some slots
       /\ Z.of_nat (List.length
                      (filter (fun s => negb (DoctorAvailability.available s)) slots))
          <= 1.
Proof.
  split; [vm_compute; reflexivity|].
  destruct (unavailable_entries_bounded SlotExample.booked_0930 Example.jan15
              SlotExample.morning 30 7) as [slots [E [B _]]].
  - lia.
  - vm_compute. split; [discriminate | reflexivity].
  - vm_compute. split; [discriminate | reflexivity].
  - vm_compute. lia.
  - exists slots. split; [exact E|].
    replace 1 with (DoctorAvailability.get_booked_slots SlotExample.booked_0930
                      SlotExample.morning) by (vm_compute; reflexivity).
    exact B.
Defined.

(** X8: a window the availability form accepts (start before end) has at
    least one slot, and its first entry is the start of the window; a
    window the form refuses (end not after start) has none. *)
Theorem window_slots_match_form
    (appts : Appointment.table) (today : date) (self : DoctorAvailability.t)
    (d : Z) (fuel : nat) :
  0 < d ->
  valid_time (DoctorAvailability.start_time self) ->
  valid_time (DoctorAvailability.end_time self) ->
  (slot_count (DoctorAvailability.start_time self) (DoctorAvailability.end_time self)
     (timedelta_minutes d) < fuel)%nat ->
  let verdict :=
    Forms.DoctorAvailabilityForm_clean (Some (DoctorAvailability.start_time self))
      (Some (DoctorAvailability.end_time self)) in
  let slots := DoctorAvailability.get_available_time_slots fuel appts today self d in
  (verdict = Forms.Cleaned ->
   exists rest,
     slots = Some (DoctorAvailability.mkSlot (DoctorAvailability.start_time self)
                     (negb (DoctorAvailability.is_booked appts self
                              (DoctorAvailability.start_time self))) :: rest))
  /\ (verdict <> Forms.Cleaned -> slots = Some []).
Proof.
  intros Hd Vs Ve Hf. cbv zeta.
  pose proof (timedelta_minutes_pos d Hd) as Hstep.
  rewrite available_time_slots_closed_form by assumption.
  unfold Forms.DoctorAvailabilityForm_clean, slot_starts.
  set (start := DoctorAvailability.start_time self) in *.
  set (end_ := DoctorAvailability.end_time self) in *.
  pose proof (slot_count_reaches_end start end_ _ Hstep) as R.
  destruct (Z.leb_spec end_ start) as [Le | Lt]; split.
  - discriminate.
  - intros _. destruct (slot_count start end_ (timedelta_minutes d)) as [|n] eqn:N;
      [reflexivity|].
    pose proof (slot_count_below_end start end_ _ 0 Hstep) as B.
    rewrite N in B. specialize (B ltac:(lia)). lia.
  - intros _. destruct (slot_count start end_ (timedelta_minutes d)) as [|n] eqn:N.
    + simpl in R. lia.
    + eexists. cbn [seq map]. rewrite Z.mul_0_l, Z.add_0_r. reflexivity.
  - intros C. exfalso. apply C. reflexivity.
Qed.

(** X8 on the scenario window. *)
Lemma window_slots_match_form_witness :
  Forms.DoctorAvailabilityForm_clean (Some (mktime 9 0 0)) (Some (mktime 12 0 0))
  = Forms.Cleaned
  /\ exists rest,
       DoctorAvailability.get_available_time_slots 7 SlotExample.booked_0930
         Example.jan15 SlotExample.morning 30
       = Some (DoctorAvailability.mkSlot (mktime 9 0 0) true :: rest).
Proof.
  split; [vm_compute; reflexivity|].
  destruct (proj1 (window_slots_match_form SlotExample.booked_0930 Example.jan15
                     SlotExample.morning 30 7 ltac:(lia)
                     ltac:(vm_compute; split; [discriminate | reflexivity])
                     ltac:(vm_compute; split; [discriminate | reflexivity])
                     ltac:(vm_compute; lia)))
    as [rest E].
  - vm_compute. reflexivity.
  - exists rest. exact E.
Defined.

(** ** The end time of an appointment *)

(** X9: [get_end_time] is always a time of day, does not depend on the
    date it is computed on, and is the start plus the duration taken
    modulo one day: it is the start plus the duration when that stays
    before midnight, and it is earlier than the start when a duration of
    less than a day crosses midnight. *)
Theorem end_time_wraps_at_midnight (today today' : date) (a : Appointment.t) :
  valid_time (Appointment.appointment_time a) ->
  0 <= timedelta_minutes (Appointment.duration a) < usec_per_day ->
  let start := Appointment.appointment_time a in
  let span := timedelta_minutes (Appointment.duration a) in
  valid_time (Appointment.get_end_time today a)
  /\ Appointment.get_end_time today' a = Appointment.get_end_time today a
  /\ (start + span < usec_per_day -> Appointment.get_end_time today a = start + span)
  /\ (usec_per_day <= start + span ->
      Appointment.get_end_time today a = start + span - usec_per_day
      /\ Appointment.get_end_time today a < start).
Proof.
  intros V S. cbv zeta. unfold valid_time in *.
  assert (D : 0 < usec_per_day) by (vm_compute; reflexivity).
  assert (E : forall t, Appointment.get_end_time t a
                        = (Appointment.appointment_time a
                           + timedelta_minutes (Appointment.duration a))
                          mod usec_per_day).
  { intros t. unfold Appointment.get_end_time, time_of, combine.
    rewrite <- Z.add_assoc, Z.add_comm, Z_mod_plus_full. reflexivity. }
  rewrite !E. split; [|split; [|split]].
  - apply Z.mod_pos_bound. exact D.
  - reflexivity.
  - intros H. apply Z.mod_small. lia.
  - intros H.
    assert (M : (Appointment.appointment_time a
                 + timedelta_minutes (Appointment.duration a)) mod usec_per_day
                = Appointment.appointment_time a
                  + timedelta_minutes (Appointment.duration a) - usec_per_day).
    { symmetry. apply Z.mod_unique_pos with (q := 1); lia. }
    rewrite M. split; [reflexivity | lia].
Qed.

(** X9 on an appointment of 30 minutes at 23:45: it ends at 00:15. *)
Lemma end_time_wraps_at_midnight_witness :
  Appointment.get_end_time Example.jan15
    (Example.appt 1 "APT202501100001" Example.jan20 (mktime 23 45 0)
       Appointment.scheduled)
  = mktime 0 15 0.
Proof.
  destruct (end_time_wraps_at_midnight Example.jan15 Example.jan20
              (Example.appt 1 "APT202501100001" Example.jan20 (mktime 23 45 0)
                 Appointment.scheduled)) as [_ [_ [_ H]]].
  - vm_compute. split; [discriminate | reflexivity].
  - vm_compute. split; [discriminate | reflexivity].
  - destruct H as [H _]; [vm_compute; discriminate|].
    rewrite H. vm_compute. reflexivity.
Defined.

(** ** The estimated wait of an enqueued entry *)

Lemma waiting_for_stored (clk : Clock) (today day : date) (d : Z) (db db' : Queue.table)
    (data : Forms.QueueData) (staff : Z) (e : Queue.t) :
  Views.add_to_queue_view clk today db data staff = Some (db', e) ->
  List.length (filter (waiting_for d day) db')
  = (List.length (filter (waiting_for d day) db)
     + (if requests_doctor_on d day (clk, today, data, staff) then 1 else 0))%nat.
Proof.
  intros A.
  destruct (add_to_queue_stored _ _ _ _ _ _ _ A) as [-> [_ [Hd [_ [Hs [Hdoc _]]]]]].
  rewrite filter_app, length_app. f_equal. cbn [filter].
  unfold waiting_for, requests_doctor_on, request_doctor, request_date.
  rewrite Hd, Hs, Hdoc. cbn [Queue.status_eqb fst snd]. rewrite andb_true_r.
  destruct (match Forms.q_doctor data with
            | Some d' => d' =? d
            | None => false
            end && date_eqb today day); reflexivity.
Qed.

Lemma enqueue_all_estimate (requests : list (Clock * date * Forms.QueueData * Z)) :
  forall (db : Queue.table) (i : nat) (r : Clock * date * Forms.QueueData * Z),
    numbered_by_date db ->
    (forall r', In r' requests -> valid_date (request_date r')) ->
    nth_error requests i = Some r ->
    exists e,
      nth_error (snd (Views.enqueue_all db requests)) i = Some (Some e)
      /\ Queue.status e = Queue.waiting
      /\ Queue.estimated_wait_time e
         = match request_doctor r with
           | Some d =>
               15 * (Z.of_nat (List.length (filter (waiting_for d (request_date r)) db))
                     + Z.of_nat (List.length
                                   (filter (requests_doctor_on d (request_date r))
                                      (firstn i requests))))
           | None => 0
           end.
Proof.
  induction requests as [|[[[clk today] data] staff] rest IH]; intros db i r N V Hr.
  - destruct i; discriminate.
  - assert (Vt : valid_date today) by (apply (V (clk, today, data, staff)); left; reflexivity).
    destruct (enqueue_goes_through clk today db data staff N Vt) as [e0 A].
    pose proof (numbered_by_date_enqueue _ _ _ _ _ _ _ N Vt A) as N'.
    pose proof (fun d day => waiting_for_stored clk today day d _ _ data staff e0 A) as W.
    destruct (add_to_queue_stored _ _ _ _ _ _ _ A) as [_ [_ [_ [_ [Hs0 [_ Hw0]]]]]].
    cbn [Views.enqueue_all]. rewrite A.
    specialize (IH (db ++ [e0])%list).
    destruct (Views.enqueue_all (db ++ [e0])%list rest) as [db'' es].
    cbn [snd] in IH |- *. destruct i as [|j].
    + cbn [nth_error] in Hr |- *. inversion Hr. subst r. clear Hr.
      exists e0. split; [reflexivity|]. split; [exact Hs0|].
      rewrite Hw0. unfold request_doctor, request_date.
      cbn [fst snd firstn filter List.length].
      destruct (Forms.q_doctor data) as [d|]; [lia | reflexivity].
    + cbn [nth_error] in Hr |- *.
      destruct (IH j r N' (fun r' H => V r' (or_intror H)) Hr) as [e [He [Hs Hw]]].
      exists e. split; [exact He|]. split; [exact Hs|].
      rewrite Hw. destruct (request_doctor r) as [d|]; [|reflexivity].
      rewrite W. cbn [firstn filter].
      destruct (requests_doctor_on d (request_date r) (clk, today, data, staff));
        cbn [List.length]; lia.
Qed.

(** X10: in a sequential run of enqueue requests on valid dates, started
    from a table the enqueue view filled (so that every request is
    stored), the estimated wait stored with an entry is 15 minutes for
    every entry that waits for the same doctor on the same date when it
    is created (those of the starting table and those of the earlier
    requests), and 0 for an entry without a doctor; every entry is
    stored as waiting. *)
Theorem estimated_wait_counts_waiting
    (db : Queue.table) (requests : list (Clock * date * Forms.QueueData * Z))
    (i : nat) (r : Clock * date * Forms.QueueData * Z) :
  numbered_by_date db ->
  (forall r', In r' requests -> valid_date (request_date r')) ->
  nth_error requests i = Some r ->
  exists e,
    nth_error (snd (Views.enqueue_all db requests)) i = Some (Some e)
    /\ Queue.status e = Queue.waiting
    /\ Queue.estimated_wait_time e
       = match request_doctor r with
         | Some d =>
             15 * (Z.of_nat (List.length (filter (waiting_for d (request_date r)) db))
                   + Z.of_nat (List.length
                                 (filter (requests_doctor_on d (request_date r))
                                    (firstn i requests))))
         | None => 0
         end.
Proof. apply enqueue_all_estimate. Qed.

(** X10 on three walk-ins for doctor 7 on the same date: the third is
    told 30 minutes. *)
Lemma estimated_wait_counts_waiting_witness :
  let for_dr (p : Z) := Forms.mkQueueData p (Some 7) Queue.normal "fever" "" in
  let requests := [(Example.clk_utc, Example.jan15, for_dr 1, 4);
                   (Example.clk_utc, Example.jan15, for_dr 2, 4);
                   (Example.clk_utc, Example.jan15, for_dr 3, 4)] in
  exists e, nth_error (snd (Views.enqueue_all [] requests)) 2 = Some (Some e)
            /\ Queue.estimated_wait_time e = 30.
Proof.
  cbv zeta.
  destruct (estimated_wait_counts_waiting []
              [(Example.clk_utc, Example.jan15,
                Forms.mkQueueData 1 (Some 7) Queue.normal "fever" "", 4);
               (Example.clk_utc, Example.jan15,
                Forms.mkQueueData 2 (Some 7) Queue.normal "fever" "", 4);
               (Example.clk_utc, Example.jan15,
                Forms.mkQueueData 3 (Some 7) Queue.normal "fever" "", 4)]
              2%nat
              (Example.clk_utc, Example.jan15,
               Forms.mkQueueData 3 (Some 7) Queue.normal "fever" "", 4))
    as [e [He [_ Hw]]].
  - intros e [].
  - intros r [<- | [<- | [<- | []]]]; vm_compute; repeat split; discriminate.
  - reflexivity.
  - exists e. split; [exact He|]. rewrite Hw. vm_compute. reflexivity.
Defined.

(** ** Tables under lookup and rewrite *)

Section KeyedTable.

Context {A : Type} (key : A -> Z).

Lemma keyed_lookup_Some (db : list A) (k : Z) (r : A) :
  keyed_lookup key db k = Some r -> In r db /\ key r = k.
Proof.
  unfold keyed_lookup. intros H. apply find_some in H.
  destruct H as [H1 H2]. apply Z.eqb_eq in H2. auto.
Qed.

Lemma keyed_upsert_same (db : list A) (b : A) :
  keyed_lookup key (keyed_upsert key db b) (key b) = Some b.
Proof.
  unfold keyed_upsert, keyed_lookup.
  destruct (existsb _ db) eqn:E.
  - induction db as [|x r IH]; simpl in *; [discriminate|].
    destruct (key x =? key b) eqn:Ex; simpl.
    + rewrite Z.eqb_refl. reflexivity.
    + rewrite Ex. apply IH. exact E.
  - induction db as [|x r IH]; simpl in *.
    + rewrite Z.eqb_refl. reflexivity.
    + apply orb_false_iff in E. destruct E as [Ex Er]. rewrite Ex. apply IH, Er.
Qed.

Lemma keyed_upsert_other (db : list A) (b : A) (k : Z) :
  k <> key b ->
  keyed_lookup key (keyed_upsert key db b) k = keyed_lookup key db k.
Proof.
  intros N. unfold keyed_upsert, keyed_lookup.
  assert (N' : (key b =? k) = false)
    by (apply Z.eqb_neq; intros E; apply N; symmetry; exact E).
  destruct (existsb _ db).
  - induction db as [|x r IH]; simpl; [reflexivity|].
    destruct (Z.eqb_spec (key x) (key b)) as [Ex | Ex].
    + rewrite N'.
      replace (key x =? k) with false by (symmetry; apply Z.eqb_neq; congruence).
      exact IH.
    + destruct (key x =? k); [reflexivity | exact IH].
  - induction db as [|x r IH]; simpl.
    + rewrite N'. reflexivity.
    + destruct (key x =? k); [reflexivity | exact IH].
Qed.

(** Rewriting a stored row changes how many rows satisfy [p] only if the
    row and its replacement differ on [p]. Keys are unique. *)
Lemma keyed_upsert_count (p : A -> bool) (db : list A) (old b : A) :
  NoDup (map key db) ->
  keyed_lookup key db (key b) = Some old -> p b = p old ->
  List.length (filter p (keyed_upsert key db b)) = List.length (filter p db).
Proof.
  intros Hnd G Hp. unfold keyed_upsert.
  assert (E : existsb (fun r => key r =? key b) db = true).
  { apply existsb_exists. destruct (keyed_lookup_Some _ _ _ G) as [Hin Hk].
    exists old. split; [exact Hin | apply Z.eqb_eq, Hk]. }
  rewrite E. clear E. unfold keyed_lookup in G.
  induction db as [|x r IH]; simpl in *; [reflexivity|].
  inversion Hnd as [|? ? Hx Hr]; subst.
  destruct (Z.eqb_spec (key x) (key b)) as [Ex | Ex].
  - inversion G; subst old. rewrite Hp.
    assert (Same : map (fun r0 => if key r0 =? key b then b else r0) r = r).
    { rewrite <- (map_id r) at 2. apply map_ext_in. intros y Hy.
      destruct (Z.eqb_spec (key y) (key b)) as [Ey | Ey]; [|reflexivity].
      exfalso. apply Hx. rewrite Ex, <- Ey. apply in_map, Hy. }
    rewrite Same. destruct (p x); reflexivity.
  - destruct (p x); simpl; rewrite (IH Hr G); reflexivity.
Qed.

Lemma keyed_upsert_keys (db : list A) (b : A) :
  NoDup (map key db) -> NoDup (map key (keyed_upsert key db b)).
Proof.
  intros Hnd. unfold keyed_upsert. destruct (existsb _ db) eqn:E.
  - rewrite map_map.
    replace (map (fun x => key (if key x =? key b then b else x)) db)
      with (map key db); [exact Hnd|].
    apply map_ext. intros x. destruct (Z.eqb_spec (key x) (key b)); congruence.
  - rewrite map_app. apply NoDup_app.
    + exact Hnd.
    + constructor; [intros [] | constructor].
    + intros k Hk [<- | []]. apply in_map_iff in Hk. destruct Hk as [r [Hr Hin]].
      pose proof (existsb_false_In _ _ r E Hin) as F. cbv beta in F.
      apply Z.eqb_neq in F. contradiction.
Qed.

End KeyedTable.

Lemma queue_save_get_same (clk : Clock) (db : Queue.table) (q : Queue.t) :
  Queue.get (Queue.save clk db q) (Queue.pk q)
  = Some (Queue.set_updated_at (timezone_now clk) q).
Proof.
  exact (keyed_upsert_same Queue.pk db (Queue.set_updated_at (timezone_now clk) q)).
Qed.

Lemma queue_save_get_other (clk : Clock) (db : Queue.table) (q : Queue.t) (k : Z) :
  k <> Queue.pk q -> Queue.get (Queue.save clk db q) k = Queue.get db k.
Proof.
  exact (keyed_upsert_other Queue.pk db (Queue.set_updated_at (timezone_now clk) q) k).
Qed.

Lemma doctor_save_get_same (clk : Clock) (db : DoctorTable.table) (d : DoctorTable.t) :
  DoctorTable.get (DoctorTable.save clk db d) (DoctorTable.pk d)
  = Some (DoctorTable.mk (DoctorTable.pk d) (DoctorTable.doctor_id d)
            (DoctorTable.full_name d) (DoctorTable.is_available d)
            (DoctorTable.accepts_walkins d) (timezone_now clk)).
Proof.
  exact (keyed_upsert_same DoctorTable.pk db
           (DoctorTable.mk (DoctorTable.pk d) (DoctorTable.doctor_id d)
              (DoctorTable.full_name d) (DoctorTable.is_available d)
              (DoctorTable.accepts_walkins d) (timezone_now clk))).
Qed.

Lemma doctor_save_get_other (clk : Clock) (db : DoctorTable.table)
    (d : DoctorTable.t) (k : Z) :
  k <> DoctorTable.pk d ->
  DoctorTable.get (DoctorTable.save clk db d) k = DoctorTable.get db k.
Proof.
  exact (keyed_upsert_other DoctorTable.pk db
           (DoctorTable.mk (DoctorTable.pk d) (DoctorTable.doctor_id d)
              (DoctorTable.full_name d) (DoctorTable.is_available d)
              (DoctorTable.accepts_walkins d) (timezone_now clk)) k).
Qed.

(** ** Queue status requests *)

Lemma queue_get_Some (db : Queue.table) (k : Z) (q : Queue.t) :
  Queue.get db k = Some q -> In q db /\ Queue.pk q = k.
Proof. exact (keyed_lookup_Some Queue.pk db k q). Qed.

Lemma status_of_value_display (s : Queue.Status) :
  exists v, Queue.status_of_value v = Some s.
Proof.
  destruct s; [exists "waiting" | exists "with_doctor" | exists "completed"
              | exists "cancelled" | exists "no_show"]; reflexivity.
Qed.

(** X11: the status update of a queue entry is not guarded by the
    current status: a POST with any of the five status values stores
    that status on the entry, whatever status it had, and leaves its
    queue number, date, priority and arrival time alone. A POST with a
    missing or unknown value changes nothing and reports 'Invalid
    status'; a request that is not a POST changes nothing. *)
Theorem queue_status_update_unguarded
    (clk : Clock) (queue : Queue.table) (doctors : DoctorTable.table)
    (k : Z) (stored : Queue.t) :
  Queue.get queue k = Some stored ->
  let back := Views.Redirect "frontdesk:queue_management" None in
  (forall value s, Queue.status_of_value value = Some s ->
     exists e,
       Queue.get (Views.queue_after
                    (Views.update_queue_status_view clk queue doctors k Views.POST
                       (Some value))) k = Some e
       /\ Queue.status e = s
       /\ Queue.queue_number e = Queue.queue_number stored
       /\ Queue.queue_date e = Queue.queue_date stored
       /\ Queue.priority e = Queue.priority stored
       /\ Queue.arrival_time e = Queue.arrival_time stored)
  /\ (forall post, post = None \/ (exists v, post = Some v
                                             /\ Queue.status_of_value v = None) ->
        Views.update_queue_status_view clk queue doctors k Views.POST post
        = Views.mkQueueOutcome queue doctors
            [Views.mkMessage Views.error "Invalid status"] back)
  /\ (forall post,
        Views.update_queue_status_view clk queue doctors k Views.GET post
        = Views.mkQueueOutcome queue doctors [] back).
Proof.
  intros G. cbv zeta. destruct (queue_get_Some _ _ _ G) as [_ Hk].
  unfold Views.update_queue_status_view. rewrite G. split; [|split].
  - intros value s Hv. rewrite Hv.
    assert (S : forall q, Queue.pk q = k ->
                  Queue.get (Queue.save clk queue q) k
                  = Some (Queue.set_updated_at (timezone_now clk) q)).
    { intros q <-. apply queue_save_get_same. }
    destruct s; cbv zeta;
      unfold Queue.mark_with_doctor, Queue.mark_completed;
      try (destruct (Views.set_doctor_flag _ _ _ _ _ _) as [[d' m]|]);
      cbn [Views.queue_after];
      (rewrite S by exact Hk); eexists; (split; [reflexivity|]);
      repeat split.
  - intros post [-> | [v [-> Hv]]]; [|rewrite Hv]; reflexivity.
  - intros post. reflexivity.
Qed.

(** X11 on a completed entry sent back to waiting. *)
Lemma queue_status_update_unguarded_witness :
  exists e,
    Queue.get (Views.queue_after
                 (Views.update_queue_status_view Example.clk_utc
                    [QueueStatusExample.entry 1 Queue.completed]
                    [QueueStatusExample.dr_busy] 1 Views.POST (Some "waiting"))) 1
    = Some e
    /\ Queue.status e = Queue.waiting.
Proof.
  destruct (proj1 (queue_status_update_unguarded Example.clk_utc
                     [QueueStatusExample.entry 1 Queue.completed]
                     [QueueStatusExample.dr_busy] 1
                     (QueueStatusExample.entry 1 Queue.completed) eq_refl)
              "waiting" Queue.waiting eq_refl) as [e [He [Hs _]]].
  exists e. split; [exact He | exact Hs].
Defined.

(** X12: for an entry with a doctor, the status with_doctor stamps the
    start of the consultation and marks that doctor unavailable, and the
    status completed stamps its end and marks the doctor available,
    whatever the flag was before; no other doctor is touched; the other
    three statuses leave the doctor table as it was. *)
Theorem consultation_toggles_doctor
    (clk : Clock) (queue : Queue.table) (doctors : DoctorTable.table)
    (k : Z) (stored : Queue.t) (d : Z) (row : DoctorTable.t) :
  Queue.get queue k = Some stored ->
  Queue.doctor stored = Some d ->
  DoctorTable.get doctors d = Some row ->
  let post v := Views.update_queue_status_view clk queue doctors k Views.POST (Some v) in
  (exists e row',
     Queue.get (Views.queue_after (post "with_doctor")) k = Some e
     /\ Queue.status e = Queue.with_doctor
     /\ Queue.consultation_start_time e = Some (timezone_now clk)
     /\ DoctorTable.get (Views.doctors_after (post "with_doctor")) d = Some row'
     /\ DoctorTable.is_available row' = false)
  /\ (exists e row',
        Queue.get (Views.queue_after (post "completed")) k = Some e
        /\ Queue.status e = Queue.completed
        /\ Queue.consultation_end_time e = Some (timezone_now clk)
        /\ DoctorTable.get (Views.doctors_after (post "completed")) d = Some row'
        /\ DoctorTable.is_available row' = true)
  /\ (forall v d', d' <> d ->
        DoctorTable.get (Views.doctors_after (post v)) d' = DoctorTable.get doctors d')
  /\ (forall v, In v ["waiting"; "cancelled"; "no_show"] ->
        Views.doctors_after (post v) = doctors).
Proof.
  intros G Hd Gd. cbv zeta.
  destruct (queue_get_Some _ _ _ G) as [_ Hk].
  assert (Hrow : DoctorTable.pk row = d).
  { unfold DoctorTable.get in Gd. apply find_some in Gd.
    destruct Gd as [_ E]. apply Z.eqb_eq in E. exact E. }
  assert (SQ : forall q, Queue.pk q = k ->
                 Queue.get (Queue.save clk queue q) k
                 = Some (Queue.set_updated_at (timezone_now clk) q)).
  { intros q <-. apply queue_save_get_same. }
  assert (SD : forall r, DoctorTable.pk r = d ->
                 DoctorTable.get (DoctorTable.save clk doctors r) d
                 = Some (DoctorTable.mk (DoctorTable.pk r) (DoctorTable.doctor_id r)
                           (DoctorTable.full_name r) (DoctorTable.is_available r)
                           (DoctorTable.accepts_walkins r) (timezone_now clk))).
  { intros r <-. apply doctor_save_get_same. }
  unfold Views.update_queue_status_view. rewrite G.
  split; [|split; [|split]].
  - change (Queue.status_of_value "with_doctor") with (Some Queue.with_doctor).
    cbv zeta. unfold Views.set_doctor_flag, Queue.mark_with_doctor.
    cbn [Queue.doctor Queue.set_status]. rewrite Hd, Gd.
    cbn [Views.queue_after Views.doctors_after].
    rewrite SQ by exact Hk. rewrite SD by exact Hrow.
    eexists. eexists. repeat split.
  - change (Queue.status_of_value "completed") with (Some Queue.completed).
    cbv zeta. unfold Views.set_doctor_flag, Queue.mark_completed.
    cbn [Queue.doctor Queue.set_status]. rewrite Hd, Gd.
    cbn [Views.queue_after Views.doctors_after].
    rewrite SQ by exact Hk. rewrite SD by exact Hrow.
    eexists. eexists. repeat split.
  - intros v d' N.
    destruct (Queue.status_of_value v) as [s|]; [|reflexivity].
    destruct s; cbv zeta; try reflexivity;
      unfold Views.set_doctor_flag; cbn [Queue.doctor Queue.set_status];
      rewrite Hd, Gd; cbn [Views.doctors_after];
      apply doctor_save_get_other; cbn; rewrite Hrow; exact N.
  - intros v [<- | [<- | [<- | []]]]; reflexivity.
Qed.

(** X12 on a doctor who was marked unavailable before the visit: after
    the visit is completed the doctor is marked available. *)
Lemma consultation_toggles_doctor_witness :
  exists row',
    DoctorTable.get
      (Views.doctors_after
         (Views.update_queue_status_view Example.clk_utc
            [QueueStatusExample.entry 1 Queue.with_doctor]
            [QueueStatusExample.dr_busy] 1 Views.POST (Some "completed"))) 7
    = Some row'
    /\ DoctorTable.is_available row' = true.
Proof.
  destruct (consultation_toggles_doctor Example.clk_utc
              [QueueStatusExample.entry 1 Queue.with_doctor]
              [QueueStatusExample.dr_busy] 1
              (QueueStatusExample.entry 1 Queue.with_doctor) 7
              QueueStatusExample.dr_busy eq_refl eq_refl eq_refl)
    as [_ [[e [row' [_ [_ [_ [Hg Ha]]]]]] _]].
  exists row'. split; [exact Hg | exact Ha].
Defined.

(** X13: taking an entry out of the queue sets its status to cancelled
    and never writes the doctor table; so when the patient was with the
    doctor, the doctor stays marked unavailable after the entry is
    removed. *)
Theorem remove_leaves_doctor_flag
    (clk clk' : Clock) (queue : Queue.table) (doctors : DoctorTable.table)
    (k : Z) (stored : Queue.t) (d : Z) (row : DoctorTable.t) :
  Queue.get queue k = Some stored ->
  Queue.doctor stored = Some d ->
  DoctorTable.get doctors d = Some row ->
  let busy := Views.update_queue_status_view clk queue doctors k Views.POST
                (Some "with_doctor") in
  let gone := Views.remove_from_queue_view clk' (Views.queue_after busy)
                (Views.doctors_after busy) k Views.POST in
  (exists e, Queue.get (Views.queue_after gone) k = Some e
             /\ Queue.status e = Queue.cancelled)
  /\ Views.doctors_after gone = Views.doctors_after busy
  /\ (exists row', DoctorTable.get (Views.doctors_after gone) d = Some row'
                   /\ DoctorTable.is_available row' = false).
Proof.
  intros G Hd Gd. cbv zeta.
  destruct (consultation_toggles_doctor clk queue doctors k stored d row G Hd Gd)
    as [[e [row' [Ge [_ [_ [Gr Ha]]]]]] _].
  set (busy := Views.update_queue_status_view clk queue doctors k Views.POST
                 (Some "with_doctor")) in *.
  destruct (queue_get_Some _ _ _ Ge) as [_ Hk].
  unfold Views.remove_from_queue_view. rewrite Ge. cbv zeta.
  cbn [Views.queue_after Views.doctors_after].
  split; [|split].
  - exists (Queue.set_updated_at (timezone_now clk')
              (Queue.set_status Queue.cancelled e)).
    split; [|reflexivity].
    pose proof (queue_save_get_same clk' (Views.queue_after busy)
                  (Queue.set_status Queue.cancelled e)) as S.
    cbn [Queue.pk Queue.set_status] in S. rewrite Hk in S. exact S.
  - reflexivity.
  - exists row'. split; [exact Gr | exact Ha].
Qed.

(** X13 on a doctor who was available: with the patient, then the entry
    removed. *)
Lemma remove_leaves_doctor_flag_witness :
  let free := DoctorTable.mk 7 "DOC007" "Rao" true true 0 in
  let busy := Views.update_queue_status_view Example.clk_utc
                [QueueStatusExample.entry 1 Queue.waiting] [free] 1 Views.POST
                (Some "with_doctor") in
  exists row',
    DoctorTable.get
      (Views.doctors_after
         (Views.remove_from_queue_view Example.clk_utc (Views.queue_after busy)
            (Views.doctors_after busy) 1 Views.POST)) 7 = Some row'
    /\ DoctorTable.is_available row' = false.
Proof.
  cbv zeta.
  exact (proj2 (proj2 (remove_leaves_doctor_flag Example.clk_utc Example.clk_utc
                         [QueueStatusExample.entry 1 Queue.waiting]
                         [DoctorTable.mk 7 "DOC007" "Rao" true true 0] 1
                         (QueueStatusExample.entry 1 Queue.waiting) 7
                         (DoctorTable.mk 7 "DOC007" "Rao" true true 0)
                         eq_refl eq_refl eq_refl))).
Defined.

(** ** Queue numbers when status changes come in between *)

Lemma same_daily_numbers_refl (queue : Queue.table) : same_daily_numbers queue queue.
Proof.
  intros H. split; [exact H|]. split; [reflexivity|].
  intros e He. exists e. auto.
Qed.

Lemma queue_save_In (clk : Clock) (db : Queue.table) (q r' : Queue.t) :
  In r' (Queue.save clk db q) ->
  r' = Queue.set_updated_at (timezone_now clk) q \/ In r' db.
Proof.
  unfold Queue.save. cbv zeta. destruct (existsb _ db); intros H.
  - apply in_map_iff in H. destruct H as [r [Hr Hin]].
    destruct (Queue.pk r =? _); [left; symmetry; exact Hr | right; subst r'; exact Hin].
  - apply in_app_iff in H. destruct H as [H | [<- | []]]; auto.
Qed.

Lemma queue_save_same_numbers (clk : Clock) (queue : Queue.table)
    (stored q : Queue.t) :
  Queue.get queue (Queue.pk q) = Some stored ->
  Queue.queue_date q = Queue.queue_date stored ->
  Queue.queue_number q = Queue.queue_number stored ->
  same_daily_numbers queue (Queue.save clk queue q).
Proof.
  intros G Hd Hn Hnd. split; [|split].
  - exact (keyed_upsert_keys Queue.pk queue
             (Queue.set_updated_at (timezone_now clk) q) Hnd).
  - intros d.
    exact (keyed_upsert_count Queue.pk
             (fun e => date_eqb (Queue.queue_date e) d) queue stored
             (Queue.set_updated_at (timezone_now clk) q) Hnd G
             (f_equal (fun x => date_eqb x d) Hd)).
  - intros e' He'. destruct (queue_save_In _ _ _ _ He') as [-> | H].
    + exists stored. destruct (queue_get_Some _ _ _ G) as [Hin _].
      split; [exact Hin|]. split; [exact Hd | exact Hn].
    + exists e'. auto.
Qed.

Lemma update_view_same_numbers (clk : Clock) (queue : Queue.table)
    (doctors : DoctorTable.table) (k : Z) (method : Views.Method)
    (post : option string) :
  same_daily_numbers queue
    (Views.queue_after (Views.update_queue_status_view clk queue doctors k method post)).
Proof.
  unfold Views.update_queue_status_view.
  destruct (Queue.get queue k) as [stored|] eqn:G; [|apply same_daily_numbers_refl].
  destruct (queue_get_Some _ _ _ G) as [_ Hk].
  cbv zeta. destruct method; [apply same_daily_numbers_refl|].
  destruct (match post with Some s => Queue.status_of_value s | None => None end)
    as [s|]; [|apply same_daily_numbers_refl].
  assert (S : forall q, Queue.pk q = k -> Queue.queue_date q = Queue.queue_date stored ->
                Queue.queue_number q = Queue.queue_number stored ->
                same_daily_numbers queue (Queue.save clk queue q)).
  { intros q E1 E2 E3. apply (queue_save_same_numbers clk queue stored q);
      [|exact E2|exact E3].
    rewrite E1. exact G. }
  destruct s; unfold Queue.mark_with_doctor, Queue.mark_completed;
    try (destruct (Views.set_doctor_flag _ _ _ _ _ _) as [[d' m]|]);
    cbn [Views.queue_after]; apply S; (exact Hk || reflexivity).
Qed.

Lemma remove_view_same_numbers (clk : Clock) (queue : Queue.table)
    (doctors : DoctorTable.table) (k : Z) (method : Views.Method) :
  same_daily_numbers queue
    (Views.queue_after (Views.remove_from_queue_view clk queue doctors k method)).
Proof.
  unfold Views.remove_from_queue_view.
  destruct (Queue.get queue k) as [stored|] eqn:G; [|apply same_daily_numbers_refl].
  destruct (queue_get_Some _ _ _ G) as [_ Hk].
  cbv zeta. destruct method; [apply same_daily_numbers_refl|].
  cbn [Views.queue_after].
  apply (queue_save_same_numbers clk queue stored); [|reflexivity|reflexivity].
  cbn [Queue.pk Queue.set_status]. rewrite Hk. exact G.
Qed.

(** A status request leaves a table the enqueue view filled such a
    table. *)
Lemma numbered_by_date_same (queue queue' : Queue.table) :
  NoDup (map Queue.pk queue) -> numbered_by_date queue ->
  same_daily_numbers queue queue' ->
  NoDup (map Queue.pk queue') /\ numbered_by_date queue'
  /\ forall d, List.length (Queue.filter_date d queue')
               = List.length (Queue.filter_date d queue).
Proof.
  intros Hnd N S. destruct (S Hnd) as [Hnd' [Hc Hin]].
  split; [exact Hnd'|]. split; [|exact Hc].
  intros e' He'. destruct (Hin e' He') as [e [He [Ed En]]].
  destruct (N e He) as [V [k [Hk Hn]]]. rewrite Ed, En, Hc.
  split; [exact V|]. exists k. split; [exact Hk | exact Hn].
Qed.

Lemma queue_next_pk_fresh (db : Queue.table) :
  ~ In (Queue.next_pk db) (map Queue.pk db).
Proof.
  assert (A : forall r, In r db -> Queue.pk r < Queue.next_pk db).
  { unfold Queue.next_pk. induction db as [|x l IH]; cbn [fold_right In].
    - intros r [].
    - intros r [-> | H]; [lia | specialize (IH r H); lia]. }
  intros H. apply in_map_iff in H. destruct H as [r [Hk Hr]].
  apply A in Hr. lia.
Qed.

Lemma enqueue_keeps_keys (clk : Clock) (today : date) (db db' : Queue.table)
    (data : Forms.QueueData) (staff : Z) (e : Queue.t) :
  Views.add_to_queue_view clk today db data staff = Some (db', e) ->
  NoDup (map Queue.pk db) -> NoDup (map Queue.pk db').
Proof.
  intros A Hnd.
  destruct (add_to_queue_stored _ _ _ _ _ _ _ A) as [-> [Hpk _]].
  rewrite map_app. apply NoDup_app.
  - exact Hnd.
  - constructor; [intros [] | constructor].
  - intros k Hk [<- | []]. rewrite Hpk in Hk.
    exact (queue_next_pk_fresh db Hk).
Qed.

Lemma run_queue_events_numbers (events : list QueueEvent) :
  forall (queue : Queue.table) (doctors : DoctorTable.table) (i : nat) (today : date),
    NoDup (map Queue.pk queue) ->
    numbered_by_date queue ->
    (forall d, In d (enqueue_dates events) -> valid_date d) ->
    nth_error (enqueue_dates events) i = Some today ->
    exists e,
      nth_error (snd (run_queue_events queue doctors events)) i = Some (Some e)
      /\ Queue.queue_date e = today
      /\ Queue.queue_number e
         = "Q" ++ strftime_Ymd today
           ++ PyStr.format_0d 3
                (Z.of_nat (List.length (Queue.filter_date today queue))
                 + Z.of_nat (earlier_on today (enqueue_dates events) i) + 1).
Proof.
  induction events as [|ev rest IH]; intros queue doctors i today Hnd N V Hi.
  - destruct i; discriminate.
  - destruct ev as [clk day data staff | clk k method post | clk k method].
    + change (enqueue_dates (Enqueue clk day data staff :: rest))
        with (day :: enqueue_dates rest) in *.
      assert (Vd : valid_date day) by (apply V; left; reflexivity).
      destruct (enqueue_goes_through clk day queue data staff N Vd) as [e0 A].
      pose proof (numbered_by_date_enqueue _ _ _ _ _ _ _ N Vd A) as N'.
      pose proof (enqueue_keeps_keys _ _ _ _ _ _ _ A Hnd) as Hnd'.
      destruct (add_to_queue_stored _ _ _ _ _ _ _ A) as [_ [_ [Hd0 [Hn0 _]]]].
      cbn [run_queue_events]. rewrite A.
      specialize (IH (queue ++ [e0])%list doctors).
      destruct (run_queue_events (queue ++ [e0])%list doctors rest) as [[q1 d1] es].
      cbn [snd] in IH |- *.
      destruct i as [|j].
      * cbn [nth_error] in Hi |- *. injection Hi as Hday.
        rewrite Hday in Hd0, Hn0.
        exists e0. split; [reflexivity|]. split; [exact Hd0|].
        rewrite Hn0. unfold earlier_on. cbn [firstn filter List.length].
        unfold Queue.generate_queue_number, Queue.next_sequence.
        do 3 f_equal. lia.
      * cbn [nth_error] in Hi |- *.
        destruct (IH j today Hnd' N' (fun d H => V d (or_intror H)) Hi)
          as [e [He [Hd Hn]]].
        exists e. split; [exact He|]. split; [exact Hd|].
        rewrite Hn. do 3 f_equal. rewrite filter_date_app, Hd0.
        unfold earlier_on. cbn [firstn filter].
        destruct (date_eqb day today); cbn [List.length]; lia.
    + cbn [run_queue_events]. cbv zeta.
      destruct (numbered_by_date_same _ _ Hnd N
                  (update_view_same_numbers clk queue doctors k method post))
        as [Hnd' [N' Hc]].
      change (enqueue_dates (UpdateStatus clk k method post :: rest))
        with (enqueue_dates rest) in *.
      destruct (IH _ (Views.doctors_after
                        (Views.update_queue_status_view clk queue doctors k method post))
                  i today Hnd' N' V Hi) as [e [He [Hd Hn]]].
      exists e. split; [exact He|]. split; [exact Hd|].
      rewrite Hn, Hc. reflexivity.
    + cbn [run_queue_events]. cbv zeta.
      destruct (numbered_by_date_same _ _ Hnd N
                  (remove_view_same_numbers clk queue doctors k method))
        as [Hnd' [N' Hc]].
      change (enqueue_dates (Remove clk k method :: rest))
        with (enqueue_dates rest) in *.
      destruct (IH _ (Views.doctors_after
                        (Views.remove_from_queue_view clk queue doctors k method))
                  i today Hnd' N' V Hi) as [e [He [Hd Hn]]].
      exists e. split; [exact He|]. split; [exact Hd|].
      rewrite Hn, Hc. reflexivity.
Qed.

(** X14: status updates and removals never disturb the numbering. In any
    sequence of enqueue, status-update and remove requests, with the
    enqueue requests on valid dates, on a queue table with unique keys
    that the enqueue view filled, every enqueue request is stored, and
    the entry of the i-th enqueue request gets the number
    ['Q' + YYYYMMDD + sequence] where the sequence counts the entries of
    that date in the starting table and the earlier enqueue requests of
    that date, plus one; a cancelled entry still counts, so its number
    is not given out again. *)
Theorem queue_numbers_survive_status_changes
    (queue : Queue.table) (doctors : DoctorTable.table) (events : list QueueEvent)
    (i : nat) (today : date) :
  NoDup (map Queue.pk queue) ->
  numbered_by_date queue ->
  (forall d, In d (enqueue_dates events) -> valid_date d) ->
  nth_error (enqueue_dates events) i = Some today ->
  exists e,
    nth_error (snd (run_queue_events queue doctors events)) i = Some (Some e)
    /\ Queue.queue_date e = today
    /\ Queue.queue_number e
       = "Q" ++ strftime_Ymd today
         ++ PyStr.format_0d 3
              (Z.of_nat (List.length (Queue.filter_date today queue))
               + Z.of_nat (earlier_on today (enqueue_dates events) i) + 1).
Proof. apply run_queue_events_numbers. Qed.

(** X14 on an empty queue: one walk-in, its entry removed, a second
    walk-in; the second gets the number 002. *)
Lemma queue_numbers_survive_status_changes_witness :
  exists e,
    nth_error
      (snd (run_queue_events [] []
              [Enqueue Example.clk_utc Example.jan15 (EnqueueExample.walk_in 1) 4;
               Remove Example.clk_utc 1 Views.POST;
               Enqueue Example.clk_utc Example.jan15 (EnqueueExample.walk_in 2) 4])) 1
    = Some (Some e)
    /\ Queue.queue_number e = "Q20250115002".
Proof.
  destruct (queue_numbers_survive_status_changes [] []
              [Enqueue Example.clk_utc Example.jan15 (EnqueueExample.walk_in 1) 4;
               Remove Example.clk_utc 1 Views.POST;
               Enqueue Example.clk_utc Example.jan15 (EnqueueExample.walk_in 2) 4]
              1%nat Example.jan15 (NoDup_nil _)) as [e [He [_ Hn]]].
  - intros e [].
  - intros d [<- | [<- | []]]; vm_compute; repeat split; discriminate.
  - reflexivity.
  - exists e. split; [exact He|]. rewrite Hn. vm_compute. reflexivity.
Defined.

(** ** The age of a patient *)

(** X15: [get_age] counts the anniversaries of the date of birth that
    are not after the current date: for every [n], the age is at least
    [n] exactly when the [n]-th anniversary is not after today. So the
    age is not negative exactly for the dates of birth that
    [clean_date_of_birth] accepts. *)
Theorem age_counts_anniversaries (today dob : date) :
  (forall n, n <= Patient.get_age today dob <->
             date_ltb today (anniversary dob n) = false)
  /\ (0 <= Patient.get_age today dob <->
      Forms.PatientForm_clean_date_of_birth today (Some dob) = Forms.Cleaned).
Proof.
  assert (A : forall n, n <= Patient.get_age today dob <->
                        date_ltb today (anniversary dob n) = false).
  { intros n. unfold Patient.get_age, date_ltb, anniversary. cbn [year month day].
    destruct (Z.ltb_spec (month today) (month dob));
      destruct (Z.eqb_spec (month today) (month dob));
      destruct (Z.ltb_spec (day today) (day dob));
      destruct (Z.ltb_spec (year today) (year dob + n));
      destruct (Z.eqb_spec (year today) (year dob + n));
      cbn [orb andb]; split; intros Hgoal; try reflexivity; try discriminate; try lia. }
  split; [exact A|].
  rewrite (A 0). unfold Forms.PatientForm_clean_date_of_birth, anniversary.
  rewrite Z.add_0_r.
  replace (mkdate (year dob) (month dob) (day dob)) with dob by (destruct dob; reflexivity).
  destruct (date_ltb today dob); split; intros H; try reflexivity; discriminate.
Qed.

(** X15 on a patient born on 20 January 2000, seen on 15 January 2025:
    24 years, the 25th birthday being five days away. *)
Lemma age_counts_anniversaries_witness :
  Patient.get_age Example.jan15 (mkdate 2000 1 20) = 24
  /\ 24 <= Patient.get_age Example.jan15 (mkdate 2000 1 20).
Proof.
  split; [vm_compute; reflexivity|].
  apply (proj1 (age_counts_anniversaries Example.jan15 (mkdate 2000 1 20)) 24).
  vm_compute. reflexivity.
Defined.

(** ** A cancel request without a reason *)

Lemma strip_all_space (s : string) : all_space s = true -> PyStr.strip s = "".
Proof.
  unfold PyStr.strip. induction s as [|c r IH]; [reflexivity|].
  cbn [all_space]. rewrite andb_true_iff. intros [Hc Hr].
  cbn [PyStr.lstrip]. rewrite Hc. apply IH, Hr.
Qed.

(** X16: a cancel request whose reason is missing or consists of
    whitespace only is not carried out: for an appointment that could be
    cancelled the view renders the form again, reports nothing and
    leaves the table as it was. *)
Theorem cancel_needs_reason
    (clk : Clock) (db : Appointment.table) (k : Z) (a : Appointment.t)
    (raw : option string) (staff : option Z) :
  Appointment.get db k = Some a ->
  Appointment.can_cancel clk a = true ->
  (raw = None \/ exists s, raw = Some s /\ all_space s = true) ->
  Views.cancel_appointment_view clk db k Views.POST raw staff
  = Views.mkOutcome db [] (Views.Render "frontdesk/appointment_cancel.html").
Proof.
  intros G C Hr. unfold Views.cancel_appointment_view. rewrite G, C.
  assert (E : Forms.AppointmentCancelForm_clean raw = None).
  { destruct Hr as [-> | [s [-> Hs]]]; [reflexivity|].
    unfold Forms.AppointmentCancelForm_clean. rewrite (strip_all_space s Hs).
    reflexivity. }
  cbn [negb]. cbv zeta. rewrite E. reflexivity.
Qed.

(** X16 on a reason of two blanks and a tab. *)
Lemma cancel_needs_reason_witness :
  let a := Example.appt 1 "APT202501100001" Example.jan20 (mktime 9 0 0)
             Appointment.scheduled in
  Views.db_after
    (Views.cancel_appointment_view Example.clk_utc [a] 1 Views.POST
       (Some (String " " (String " " (String (ascii_of_nat 9) ""))))
       (Some 4)) = [a].
Proof.
  cbv zeta.
  rewrite (cancel_needs_reason Example.clk_utc
             [Example.appt 1 "APT202501100001" Example.jan20 (mktime 9 0 0)
                Appointment.scheduled] 1
             (Example.appt 1 "APT202501100001" Example.jan20 (mktime 9 0 0)
                Appointment.scheduled)
             (Some (String " " (String " " (String (ascii_of_nat 9) ""))))
             (Some 4) eq_refl).
  - reflexivity.
  - vm_compute. reflexivity.
  - right. eexists. split; [reflexivity | vm_compute; reflexivity].
Defined.

(** ** A visit from booking to completion *)

Lemma save_applies (clk : Clock) (db : Appointment.table) (k : Z)
    (a b : Appointment.t) :
  consistent db ->
  Appointment.get db k = Some a ->
  Appointment.pk b = Appointment.pk a ->
  Appointment.appointment_id b = Appointment.appointment_id a ->
  Appointment.doctor b = Appointment.doctor a ->
  Appointment.appointment_date b = Appointment.appointment_date a ->
  Appointment.appointment_time b = Appointment.appointment_time a ->
  exists db',
    Appointment.save clk db b = Some db'
    /\ Appointment.get db' k = Some (Appointment.set_updated_at (timezone_now clk) b)
    /\ consistent db'.
Proof.
  intros C G E1 E2 E3 E4 E5.
  destruct (get_Some _ _ _ G) as [Hin Hk].
  destruct (save_succeeds clk db a b (consistent_no_violation db a C Hin)
              E1 E2 E3 E4 E5) as [db' S].
  exists db'. split; [exact S|]. split.
  - rewrite <- Hk, <- E1. apply (save_get_same _ _ _ _ S).
  - eapply save_consistent; [exact C | exact S].
Qed.

(** X17: on a table that satisfies the declared constraints, a scheduled
    appointment that is confirmed, then checked in, then completed goes
    through all three views and ends completed, with the instants of the
    three requests as confirmation, check-in and end of consultation.
    The start of the consultation is never written on the way: it is
    what it was when the appointment was booked. *)
Theorem visit_lifecycle
    (clk1 clk2 clk3 : Clock) (patient_name : Z -> string)
    (db : Appointment.table) (k : Z) (a : Appointment.t) :
  consistent db ->
  Appointment.get db k = Some a ->
  Appointment.status a = Appointment.scheduled ->
  let o1 := Views.confirm_appointment_view clk1 db k in
  let o2 := Views.checkin_appointment_view clk2 patient_name (Views.db_after o1) k in
  let o3 := Views.complete_appointment_view clk3 (Views.db_after o2) k in
  exists r,
    Appointment.get (Views.db_after o3) k = Some r
    /\ Appointment.status r = Appointment.completed
    /\ Appointment.is_confirmed r = true
    /\ Appointment.confirmed_at r = Some (timezone_now clk1)
    /\ Appointment.checked_in_at r = Some (timezone_now clk2)
    /\ Appointment.consultation_end_time r = Some (timezone_now clk3)
    /\ Appointment.consultation_start_time r = Appointment.consultation_start_time a
    /\ Appointment.appointment_date r = Appointment.appointment_date a
    /\ Appointment.appointment_time r = Appointment.appointment_time a.
Proof.
  intros C G Hs. cbv zeta.
  (* confirm *)
  unfold Views.confirm_appointment_view at 1. rewrite G, Hs. cbv zeta.
  cbn [Appointment.status_eqb]. unfold Appointment.mark_confirmed.
  destruct (save_applies clk1 db k a
              (Appointment.set_confirmed_at (Some (timezone_now clk1))
                 (Appointment.set_is_confirmed true
                    (Appointment.set_status Appointment.confirmed a)))
              C G eq_refl eq_refl eq_refl eq_refl eq_refl)
    as [db1 [S1 [G1 C1]]].
  rewrite S1. cbn [Views.db_after].
  (* check in *)
  unfold Views.checkin_appointment_view at 1. rewrite G1. cbv zeta.
  match goal with
  | |- context [Appointment.status_in ?s ?l] =>
      replace (Appointment.status_in s l) with true by reflexivity
  end.
  unfold Appointment.mark_checked_in.
  match goal with
  | |- context [Appointment.save clk2 db1 ?b] =>
      destruct (save_applies clk2 db1 k _ b C1 G1
                  eq_refl eq_refl eq_refl eq_refl eq_refl)
        as [db2 [S2 [G2 C2]]]
  end.
  rewrite S2. cbn [Views.db_after].
  (* complete *)
  unfold Views.complete_appointment_view. rewrite G2. cbv zeta.
  match goal with
  | |- context [Appointment.status_in ?s ?l] =>
      replace (Appointment.status_in s l) with true by reflexivity
  end.
  unfold Appointment.complete_appointment.
  match goal with
  | |- context [Appointment.save clk3 db2 ?b] =>
      destruct (save_applies clk3 db2 k _ b C2 G2
                  eq_refl eq_refl eq_refl eq_refl eq_refl)
        as [db3 [S3 [G3 _]]]
  end.
  rewrite S3. cbn [Views.db_after].
  eexists. split; [exact G3|]. repeat split.
Qed.

(** X17 on one scheduled appointment. *)
Lemma visit_lifecycle_witness :
  let a := Example.appt 1 "APT202501100001" Example.jan20 (mktime 9 0 0)
             Appointment.scheduled in
  exists r,
    Appointment.get
      (Views.db_after
         (Views.complete_appointment_view Example.clk_utc
            (Views.db_after
               (Views.checkin_appointment_view Example.clk_utc (fun _ => "Asha Nair")
                  (Views.db_after
                     (Views.confirm_appointment_view Example.clk_utc [a] 1)) 1)) 1)) 1
    = Some r
    /\ Appointment.status r = Appointment.completed
    /\ Appointment.consultation_start_time r = None.
Proof.
  cbv zeta.
  destruct (visit_lifecycle Example.clk_utc Example.clk_utc Example.clk_utc
              (fun _ => "Asha Nair")
              [Example.appt 1 "APT202501100001" Example.jan20 (mktime 9 0 0)
                 Appointment.scheduled] 1
              (Example.appt 1 "APT202501100001" Example.jan20 (mktime 9 0 0)
                 Appointment.scheduled))
    as [r [G [Hs [_ [_ [_ [_ [Hc _]]]]]]]].
  - split.
    + simpl. constructor; [intros [] | constructor].
    + intros r1 r2 [<- | []] [<- | []] N. exfalso. apply N. reflexivity.
  - reflexivity.
  - reflexivity.
  - exists r. split; [exact G|]. split; [exact Hs | exact Hc].
Defined.

(** ** Editing an appointment in place *)

(** X18: on a table that satisfies the declared constraints, the
    appointment form bound to a stored appointment (with a key other
    than 0) accepts the appointment's own slot as long as it is not
    past, because the conflict lookup leaves the instance out; the same
    slot submitted for a new appointment is refused while the stored one
    is active. *)
Theorem edit_keeps_own_slot
    (clk : Clock) (db : Appointment.table) (k : Z) (a : Appointment.t)
    (doc : Doctor.t) :
  consistent db ->
  Appointment.get db k = Some a ->
  k <> 0 ->
  Doctor.pk doc = Appointment.doctor a ->
  slot_in_past clk (Appointment.appointment_date a) (Appointment.appointment_time a)
  = false ->
  Forms.AppointmentForm_clean clk db (Some k)
    (Some (Appointment.appointment_date a)) (Some (Appointment.appointment_time a))
    (Some doc) = Forms.Cleaned
  /\ (In (Appointment.status a) Appointment.active_statuses ->
      Forms.AppointmentForm_clean clk db None
        (Some (Appointment.appointment_date a)) (Some (Appointment.appointment_time a))
        (Some doc) = Forms.Raise (Forms.slot_conflict_message doc)).
Proof.
  intros C G Hk0 Hd Hp.
  destruct (get_Some _ _ _ G) as [Hin Hk].
  unfold Forms.AppointmentForm_clean. unfold slot_in_past in Hp. rewrite Hp.
  split.
  - destruct (Appointment.exists_ _) eqn:X; [|reflexivity].
    apply conflict_lookup_spec in X. destruct X as [r [Hr [[O1 [O2 [O3 _]]] Ho]]].
    exfalso.
    assert (N : Appointment.pk r <> Appointment.pk a).
    { rewrite Hk. apply Ho. unfold Forms.pk_or_none.
      destruct (Z.eqb_spec k 0); [contradiction | reflexivity]. }
    destruct C as [_ Hpair]. destruct (Hpair r a Hr Hin N) as [_ Hs].
    unfold Appointment.same_slot in Hs.
    rewrite O1, O2, O3, Hd, !Z.eqb_refl, date_eqb_refl in Hs. discriminate.
  - intros Ha.
    assert (X : Appointment.exists_
                  (Appointment.exclude_pk (Forms.pk_or_none None)
                     (Appointment.filter_active_slot db (Doctor.pk doc)
                        (Appointment.appointment_date a)
                        (Appointment.appointment_time a))) = true).
    { apply conflict_lookup_spec. exists a. split; [exact Hin|]. split.
      - unfold occupies. rewrite Hd. auto.
      - intros k' E. discriminate. }
    rewrite X. reflexivity.
Qed.

(** X18 on one confirmed appointment of 20 January, edited on 15
    January. *)
Lemma edit_keeps_own_slot_witness :
  let a := Example.appt 1 "APT202501100001" Example.jan20 (mktime 9 0 0)
             Appointment.confirmed in
  Forms.AppointmentForm_clean Example.clk_utc [a] (Some 1)
    (Some Example.jan20) (Some (mktime 9 0 0)) (Some Example.dr_rao) = Forms.Cleaned.
Proof.
  cbv zeta.
  refine (proj1 (edit_keeps_own_slot Example.clk_utc
                   [Example.appt 1 "APT202501100001" Example.jan20 (mktime 9 0 0)
                      Appointment.confirmed] 1
                   (Example.appt 1 "APT202501100001" Example.jan20 (mktime 9 0 0)
                      Appointment.confirmed)
                   Example.dr_rao _ eq_refl _ eq_refl _)).
  - split.
    + simpl. constructor; [intros [] | constructor].
    + intros r1 r2 [<- | []] [<- | []] N. exfalso. apply N. reflexivity.
  - discriminate.
  - vm_compute. reflexivity.
Defined.

(** ** The two queue listings *)

Lemma order_leb_refl (a : Queue.t) : Queue.order_leb a a = true.
Proof. destruct (order_leb_total a a); assumption. Qed.

Lemma insert_ordered_head (x : Queue.t) (l : Queue.table) :
  (forall z, In z l -> Queue.order_leb x z = true) ->
  Queue.insert_ordered x l = x :: l.
Proof.
  destruct l as [|y r]; [reflexivity|]. intros H. simpl.
  rewrite (H y (or_introl eq_refl)). reflexivity.
Qed.

(** Filtering commutes with the insertion into a sorted listing. *)
Lemma filter_insert_ordered (p : Queue.t -> bool) (x : Queue.t) (l : Queue.table) :
  StronglySorted textual_queue_order l ->
  filter p (Queue.insert_ordered x l)
  = if p x then Queue.insert_ordered x (filter p l) else filter p l.
Proof.
  induction 1 as [|y r Hs IH Hall]; simpl.
  - destruct (p x); reflexivity.
  - rewrite Forall_forall in Hall.
    destruct (Queue.order_leb x y) eqn:E.
    + assert (Hd : forall z, In z (filter p (y :: r)) -> Queue.order_leb x z = true).
      { intros z Hz. apply filter_In in Hz. destruct Hz as [[<- | Hz] _]; [exact E|].
        eapply order_leb_trans; [exact E | apply Hall, Hz]. }
      change (filter p (x :: y :: r))
        with (if p x then x :: filter p (y :: r) else filter p (y :: r)).
      destruct (p x); [|reflexivity].
      symmetry. apply insert_ordered_head, Hd.
    + cbn [filter]. rewrite IH.
      destruct (p y) eqn:Py; destruct (p x) eqn:Px; try reflexivity.
      simpl. rewrite E. reflexivity.
Qed.

Lemma filter_order_by (p : Queue.t -> bool) (q : Queue.table) :
  filter p (Queue.order_by_priority_arrival q)
  = Queue.order_by_priority_arrival (filter p q).
Proof.
  unfold Queue.order_by_priority_arrival.
  induction q as [|x r IH]; [reflexivity|]. cbn [fold_right filter].
  rewrite filter_insert_ordered
    by (apply (proj1 (order_by_priority_arrival_sorted r))).
  rewrite IH. destruct (p x); reflexivity.
Qed.

(** X19: when no two entries of the date share both priority and
    arrival time (so that the order of the listing is determined), the
    listing of [today_queue_view] is the listing of
    [queue_management_view] with the entries that are neither waiting
    nor with the doctor left out: the two pages show the active entries
    in the same order. *)
Theorem today_queue_is_filtered_management (today : date) (db : Queue.table) :
  (forall a b, In a db -> In b db ->
     Queue.queue_date a = today -> Queue.queue_date b = today ->
     Queue.priority a = Queue.priority b ->
     Queue.arrival_time a = Queue.arrival_time b -> a = b) ->
  Views.today_queue_view today db
  = Queue.filter_status_in [Queue.waiting; Queue.with_doctor]
      (Views.queue_management_view today db).
Proof.
  intros _.
  unfold Views.today_queue_view, Views.queue_management_view, Queue.filter_status_in.
  symmetry. apply filter_order_by.
Qed.

(** X19 on a normal and an urgent walk-in and a completed emergency:
    the page of the active entries leaves the emergency out. *)
Lemma today_queue_is_filtered_management_witness :
  let db := [QueueExample.walk_in_normal; QueueExample.walk_in_urgent;
             QueueStatusExample.entry 3 Queue.completed] in
  Views.today_queue_view Example.jan15 db
  = Queue.filter_status_in [Queue.waiting; Queue.with_doctor]
      (Views.queue_management_view Example.jan15 db).
Proof.
  cbv zeta.
  apply (today_queue_is_filtered_management Example.jan15
           [QueueExample.walk_in_normal; QueueExample.walk_in_urgent;
            QueueStatusExample.entry 3 Queue.completed]).
  intros a b [<- | [<- | [<- | []]]] [<- | [<- | [<- | []]]] _ _ Hp Ha;
    try reflexivity; try discriminate Hp; vm_compute in Ha; discriminate Ha.
Defined.

Lemma sorted_listed_before {A : Type} (R : A -> A -> Prop) (l : list A) (a b : A) :
  StronglySorted R l -> listed_before l a b -> R a b.
Proof.
  intros Hs [l1 [l2 [l3 ->]]].
  induction l1 as [|x l1 IH]; simpl in Hs.
  - inversion Hs as [|? ? _ Hall]; subst. rewrite Forall_forall in Hall.
    apply Hall. apply in_or_app. right. left. reflexivity.
  - inversion Hs; subst. apply IH. assumption.
Qed.

(** X20: the management listing holds exactly the entries of the date;
    every emergency entry comes before every entry of another priority,
    and among entries of the same priority the earlier arrival comes
    first. *)
Theorem queue_listing_emergency_first (today : date) (db : Queue.table) :
  let listing := Views.queue_management_view today db in
  Permutation (Queue.filter_date today db) listing
  /\ (forall e, In e listing <-> In e db /\ Queue.queue_date e = today)
  /\ (forall a b, listed_before listing a b ->
        (Queue.priority b = Queue.emergency -> Queue.priority a = Queue.emergency)
        /\ (Queue.priority a = Queue.priority b ->
            Queue.arrival_time a <= Queue.arrival_time b)).
Proof.
  cbv zeta. unfold Views.queue_management_view.
  destruct (order_by_priority_arrival_sorted (Queue.filter_date today db)) as [Hs Hp].
  split; [exact Hp|]. split.
  - intros e. split.
    + intros H. apply (Permutation_in _ (Permutation_sym Hp)) in H.
      unfold Queue.filter_date in H. apply filter_In in H.
      destruct H as [H1 H2]. apply date_eqb_eq in H2. auto.
    + intros [H1 H2]. apply (Permutation_in _ Hp).
      apply filter_In. split; [exact H1 | apply date_eqb_eq, H2].
  - intros a b Hb.
    pose proof (sorted_listed_before _ _ a b Hs Hb) as L.
    unfold textual_queue_order, Queue.order_leb in L. split.
    + intros Eb. rewrite Eb in L.
      destruct (Queue.priority a); simpl in L; try discriminate; reflexivity.
    + intros E. rewrite E in L.
      destruct (Queue.priority b); simpl in L; apply Z.leb_le; exact L.
Qed.

